(** * Incremental CDC ingestion for db_loja.cliente

    A shallow embedding of [src/ingest_incremental_cdc_clientes.py]:
    the [test_decoding] line decoder (two regular expressions run by a
    backtracking matcher), the target-table filter, the CSV writer and the
    driver, followed by the properties of the pipeline.

    Conventions.  A Python [str] is a [string]; a character is a code point
    below U+0100.  A dict with a fixed set of keys is a record, a dict used as
    an ordered map is an association list.  The clock, the replication slot,
    the object store and the standard output live in an explicit [World]
    threaded through a state-and-exception monad. *)

From Stdlib Require Import String Ascii List Bool Arith NArith ZArith Lia.
From Stdlib Require Import Strings.Byte.
From Stdlib Require Import DecimalString.
Import ListNotations.

Open Scope list_scope.
Open Scope string_scope.

(* ================================================================= *)
(** ** Python string primitives *)

Module Py.

Definition code (a : ascii) : N := N_of_ascii a.

Definition between (lo hi : N) (a : ascii) : bool :=
  ((lo <=? code a) && (code a <=? hi))%N.

(** [str.isspace] on one character, which is also the class [\s] of [re] on
    [str] patterns: TAB..CR, FS..US, SPACE, NEL and NBSP below U+0100. *)
Definition is_space (a : ascii) : bool :=
  between 9 13 a || between 28 32 a || (code a =? 133)%N || (code a =? 160)%N.

(** [[A-Za-z0-9_]] *)
Definition is_word (a : ascii) : bool :=
  between 65 90 a || between 97 122 a || between 48 57 a || (code a =? 95)%N.

Definition LF : ascii := "010"%char.
Definition CR : ascii := "013"%char.

Fixpoint lstrip (s : string) : string :=
  match s with
  | String a t => if is_space a then lstrip t else s
  | EmptyString => EmptyString
  end.

Fixpoint rstrip (s : string) : string :=
  match s with
  | String a t =>
      match rstrip t with
      | EmptyString => if is_space a then EmptyString else String a EmptyString
      | t' => String a t'
      end
  | EmptyString => EmptyString
  end.

(** [s.strip()] *)
Definition strip (s : string) : string := rstrip (lstrip s).

(** [s[0]] and [s[-1]], [None] where Python raises IndexError. *)
Definition first (s : string) : option ascii := String.get 0 s.
Definition last (s : string) : option ascii := String.get (String.length s - 1) s.

(** [s[1:-1]] *)
Definition slice_1_m1 (s : string) : string :=
  String.substring 1 (String.length s - 2) s.

Fixpoint all_chars (p : ascii -> bool) (s : string) : bool :=
  match s with
  | String a t => p a && all_chars p t
  | EmptyString => true
  end.

Definition opt_is (o : option ascii) (a : ascii) : bool :=
  match o with Some b => Ascii.eqb b a | None => false end.

End Py.

(* ================================================================= *)
(** ** The [re] module: a backtracking matcher *)

Module Re.

Inductive regex : Type :=
| Eps
| Chr (p : ascii -> bool)            (* one character of a class *)
| Seq (r1 r2 : regex)
| Alt (r1 r2 : regex)                (* r1|r2, left first *)
| Star (greedy : bool) (r : regex)   (* r* and r*? *)
| Group (n : nat) (r : regex)        (* capturing group number n *)
| Look (r : regex)                   (* (?=r) *)
| Bol                                (* ^ *)
| Eol.                               (* $ *)

Definition Plus (greedy : bool) (r : regex) : regex := Seq r (Star greedy r).

Definition Char (a : ascii) : regex := Chr (Ascii.eqb a).

Fixpoint Lit (s : string) : regex :=
  match s with
  | String a EmptyString => Char a
  | String a t => Seq (Char a) (Lit t)
  | EmptyString => Eps
  end.

(** [.] without DOTALL: anything but a line feed. *)
Definition Dot : regex := Chr (fun a => negb (Ascii.eqb a Py.LF)).
Definition Space : regex := Chr Py.is_space.
Definition NotSpace : regex := Chr (fun a => negb (Py.is_space a)).
Definition Word : regex := Chr Py.is_word.
Definition Not (a : ascii) : regex := Chr (fun b => negb (Ascii.eqb b a)).

(** Captures: group number to matched text, most recent binding first. *)
Definition caps : Type := list (nat * string).

Definition cont : Type := string -> caps -> option (string * caps).

(** The text of [s] in front of its suffix [s']. *)
Definition consumed (s s' : string) : string :=
  String.substring 0 (String.length s - String.length s') s.

(** The loop of a repetition: [step] matches the body once.  An iteration
    that consumes nothing is not repeated. *)
Definition star_loop
  (step : string -> caps -> cont -> option (string * caps))
  (greedy : bool) (k : cont) : nat -> string -> caps -> option (string * caps) :=
  fix loop (fuel : nat) (s : string) (c : caps) {struct fuel} :=
    match fuel with
    | O => k s c
    | S fuel' =>
        let again :=
          step s c
            (fun s' c' =>
               if (String.length s' <? String.length s)%nat
               then loop fuel' s' c' else None) in
        if greedy then
          match again with
          | Some res => Some res
          | None => k s c
          end
        else
          match k s c with
          | Some res => Some res
          | None => again
          end
    end.

Section Exec.

(** Length of the whole subject string: [^] holds where that much is
    still ahead. *)
Variable subject_len : nat.

(** [exec r s c k]: match [r] at the head of the remaining input [s], then
    run the continuation on what is left; alternatives are tried in the
    order of the engine and the first success wins. *)
Fixpoint exec (r : regex) (s : string) (c : caps) (k : cont) {struct r}
  : option (string * caps) :=
  match r with
  | Eps => k s c
  | Chr p =>
      match s with
      | String a t => if p a then k t c else None
      | EmptyString => None
      end
  | Seq r1 r2 => exec r1 s c (fun s' c' => exec r2 s' c' k)
  | Alt r1 r2 =>
      match exec r1 s c k with
      | Some res => Some res
      | None => exec r2 s c k
      end
  | Star greedy r1 =>
      star_loop (exec r1) greedy k (String.length s) s c
  | Group n r1 =>
      exec r1 s c (fun s' c' => k s' ((n, consumed s s') :: c'))
  | Look r1 =>
      match exec r1 s c (fun s' c' => Some (s', c')) with
      | Some (_, c') => k s c'
      | None => None
      end
  | Bol => if (String.length s =? subject_len)%nat then k s c else None
  | Eol =>
      match s with
      | EmptyString => k s c
      | String a EmptyString => if Ascii.eqb a Py.LF then k s c else None
      | _ => None
      end
  end.

Definition accept : cont := fun s c => Some (s, c).

(** One scan step of [finditer]: from the remaining input [s], the
    leftmost match and what is left after it. *)
Fixpoint search (r : regex) (s : string) : option (string * caps) :=
  match exec r s [] accept with
  | Some res => Some res
  | None =>
      match s with
      | String _ t => search r t
      | EmptyString => None
      end
  end.

(** The successive non-overlapping matches, left to right.  After an empty
    match the scan moves one character on. *)
Fixpoint scan (fuel : nat) (r : regex) (s : string) : list caps :=
  match fuel with
  | O => []
  | S fuel' =>
      match search r s with
      | None => []
      | Some (s', c) =>
          c :: (if (String.length s' <? String.length s)%nat
                then scan fuel' r s'
                else match s' with
                     | String _ t => scan fuel' r t
                     | EmptyString => []
                     end)
      end
  end.

End Exec.

(** [pattern.match(s)] *)
Definition match_ (r : regex) (s : string) : option caps :=
  match exec (String.length s) r s [] (accept) with
  | Some (_, c) => Some c
  | None => None
  end.

(** [list(pattern.finditer(s))] *)
Definition finditer (r : regex) (s : string) : list caps :=
  scan (String.length s) (S (String.length s)) r s.

(** [m.group(n)] for a group that took part in the match. *)
Fixpoint group (c : caps) (n : nat) : string :=
  match c with
  | (i, v) :: c' => if (i =? n)%nat then v else group c' n
  | [] => EmptyString
  end.

End Re.

(* ================================================================= *)
(** ** The decoder *)

Import Re.

(** The pattern of the line header,
    "^table\s+([^.]+)\.([:A-Za-z0-9_]+):\s+(INSERT|UPDATE|DELETE):\s+"
    followed by the fourth group, any run of [.], and [$]. *)
Definition _TBL_RE : regex :=
  Seq Bol
 (Seq (Lit "table")
 (Seq (Plus true Space)
 (Seq (Group 1 (Plus true (Not ".")))
 (Seq (Char ".")
 (Seq (Group 2 (Plus true (Chr (fun a => Ascii.eqb a ":" || Py.is_word a))))
 (Seq (Char ":")
 (Seq (Plus true Space)
 (Seq (Group 3 (Alt (Lit "INSERT") (Alt (Lit "UPDATE") (Lit "DELETE"))))
 (Seq (Char ":")
 (Seq (Plus true Space)
 (Seq (Group 4 (Star true Dot))
      Eol))))))))))).

(** The pattern "([A-Za-z0-9_]+)\[[^\]]+\]:([^\s].*?)(?=\s+[A-Za-z0-9_]+\[|\s*$)". *)
Definition _KV_RE : regex :=
  Seq (Group 1 (Plus true Word))
 (Seq (Char "[")
 (Seq (Plus true (Not "]"))
 (Seq (Char "]")
 (Seq (Char ":")
 (Seq (Group 2 (Seq NotSpace (Star false Dot)))
      (Look (Alt (Seq (Plus true Space) (Seq (Plus true Word) (Char "[")))
                 (Seq (Star true Space) Eol)))))))).

(** [cols[k] = v] on an insertion-ordered dict: an existing key keeps its
    place and takes the new value, a new key goes last. *)
Fixpoint dict_set (d : list (string * string)) (k v : string)
  : list (string * string) :=
  match d with
  | (k', v') :: d' =>
      if String.eqb k' k then (k, v) :: d' else (k', v') :: dict_set d' k v
  | [] => [(k, v)]
  end.

(** The dict returned on a successful parse. *)
Record Parsed : Type := mkParsed {
  schema : string;
  table : string;
  op : string;
  cols : list (string * string)
}.

(** Lines 37-39: trim the captured value and drop one enclosing pair of
    single quotes. *)
Definition clean_value (v : string) : string :=
  let v := Py.strip v in
  if (2 <=? String.length v)%nat
     && Py.opt_is (Py.first v) "'" && Py.opt_is (Py.last v) "'"
  then Py.slice_1_m1 v
  else v.

(** [parse_test_decoding_row]; [None] is the empty dict [{}]. *)
Definition parse_test_decoding_row (raw : string) : option Parsed :=
  match match_ _TBL_RE (Py.strip raw) with
  | None => None
  | Some m =>
      let rest := group m 4 in
      let cols :=
        fold_left
          (fun cols km => dict_set cols (group km 1) (clean_value (group km 2)))
          (finditer _KV_RE rest) [] in
      Some (mkParsed (group m 1) (group m 2) (group m 3) cols)
  end.

(* ================================================================= *)
(** ** [json.dumps(cols, ensure_ascii=False)] *)

Module Json.

Definition quote : ascii := "034"%char.
Definition backslash : ascii := "092"%char.

Definition hex_digit (n : N) : ascii :=
  if (n <? 10)%N then ascii_of_N (48 + n) else ascii_of_N (87 + n).

(** One character inside a JSON string: the quote, the backslash and the
    control characters are escaped, everything else passes through. *)
Definition escape (a : ascii) : string :=
  let n := Py.code a in
  if Ascii.eqb a quote then String backslash (String quote "")
  else if Ascii.eqb a backslash then String backslash (String backslash "")
  else if (n =? 10)%N then String backslash "n"
  else if (n =? 13)%N then String backslash "r"
  else if (n =? 9)%N then String backslash "t"
  else if (n =? 8)%N then String backslash "b"
  else if (n =? 12)%N then String backslash "f"
  else if (n <? 32)%N then
    String backslash
      (String "u" (String "0" (String "0"
         (String (hex_digit (n / 16)) (String (hex_digit (n mod 16)) "")))))
  else String a "".

Fixpoint escape_all (s : string) : string :=
  match s with
  | String a t => escape a ++ escape_all t
  | EmptyString => EmptyString
  end.

Definition str (s : string) : string :=
  String quote (escape_all s ++ String quote "").

Definition item (kv : string * string) : string :=
  str (fst kv) ++ ": " ++ str (snd kv).

(** A dict of strings, in insertion order, with the default separators. *)
Definition dumps (d : list (string * string)) : string :=
  "{" ++ String.concat ", " (map item d) ++ "}".

End Json.

(* ================================================================= *)
(** ** [datetime] *)

Record datetime : Type := mkDatetime {
  year : N; month : N; day : N;
  hour : N; minute : N; second : N; microsecond : N
}.

Definition dec (n : N) : string := NilZero.string_of_uint (N.to_uint n).

Fixpoint zeros (n : nat) : string :=
  match n with
  | O => EmptyString
  | S n' => String "0" (zeros n')
  end.

(** [%0wd] *)
Definition zpad (w : nat) (n : N) : string :=
  zeros (w - String.length (dec n)) ++ dec n.

(** [datetime.isoformat()]: the fraction is left out when it is zero. *)
Definition isoformat (t : datetime) : string :=
  zpad 4 (year t) ++ "-" ++ zpad 2 (month t) ++ "-" ++ zpad 2 (day t) ++ "T"
  ++ zpad 2 (hour t) ++ ":" ++ zpad 2 (minute t) ++ ":" ++ zpad 2 (second t)
  ++ (if (microsecond t =? 0)%N then "" else "." ++ zpad 6 (microsecond t)).

(** [strftime("%Y%m%d")]; the year is written with four digits, as the C
    library does from the year 1000 on. *)
Definition strftime_Ymd (t : datetime) : string :=
  zpad 4 (year t) ++ zpad 2 (month t) ++ zpad 2 (day t).

(** [strftime("%H%M%S")] *)
Definition strftime_HMS (t : datetime) : string :=
  zpad 2 (hour t) ++ zpad 2 (minute t) ++ zpad 2 (second t).

(* ================================================================= *)
(** ** [pandas.DataFrame] and [to_csv] *)

Record DataFrame : Type := mkDataFrame {
  df_columns : list string;
  df_values : list (list string)
}.

(** [df.empty]: some axis has length zero. *)
Definition df_empty (df : DataFrame) : bool :=
  match df_columns df, df_values df with
  | _ :: _, _ :: _ => false
  | _, _ => true
  end.

(** [len(df)] *)
Definition df_len (df : DataFrame) : nat := List.length (df_values df).

Module Csv.

(** The characters that make [csv.writer] quote a field under
    QUOTE_MINIMAL: the delimiter, the quote character and line breaks. *)
Definition special (a : ascii) : bool :=
  Ascii.eqb a "," || Ascii.eqb a Json.quote
  || Ascii.eqb a Py.LF || Ascii.eqb a Py.CR.

Fixpoint needs_quote (s : string) : bool :=
  match s with
  | String a t => special a || needs_quote t
  | EmptyString => false
  end.

(** Quote characters are doubled inside a quoted field. *)
Fixpoint double_quotes (s : string) : string :=
  match s with
  | String a t =>
      if Ascii.eqb a Json.quote
      then String a (String a (double_quotes t))
      else String a (double_quotes t)
  | EmptyString => EmptyString
  end.

Definition field (s : string) : string :=
  if needs_quote s
  then String Json.quote (double_quotes s ++ String Json.quote "")
  else s.

(** [writer.writerow(fields)], line terminator LF; a row made of one empty
    field is written as a pair of quotes. *)
Definition record (fields : list string) : string :=
  match fields with
  | [EmptyString] => String Json.quote (String Json.quote "")
  | _ => String.concat "," (map field fields)
  end.

Definition writerow (fields : list string) : string :=
  record fields ++ String Py.LF "".

Fixpoint writerows (rows : list (list string)) : string :=
  match rows with
  | r :: rows' => writerow r ++ writerows rows'
  | [] => EmptyString
  end.

End Csv.

(** [df.to_csv(index=False)]: the header row, then one row per record. *)
Definition to_csv (df : DataFrame) : string :=
  Csv.writerow (df_columns df) ++ Csv.writerows (df_values df).

(** [s.encode("utf-8")] for code points below U+0100. *)
Definition utf8_char (a : ascii) : list byte :=
  let n := Py.code a in
  if (n <? 128)%N then [byte_of_ascii a]
  else [byte_of_ascii (ascii_of_N (192 + n / 64));
        byte_of_ascii (ascii_of_N (128 + n mod 64))].

Fixpoint encode_utf8 (s : string) : list byte :=
  match s with
  | String a t => (utf8_char a ++ encode_utf8 t)%list
  | EmptyString => []
  end.

(* ================================================================= *)
(** ** The world: clock, replication slot, object store, standard output *)

(** One row of [pg_logical_slot_get_changes]. *)
Record RawRow : Type := mkRawRow {
  lsn : string;
  xid : N;
  data : string
}.

(** A statement sent through [conn.execute] with its bound parameters. *)
Record Query : Type := mkQuery {
  q_text : string;
  q_slot : string;
  q_limit : Z
}.

(** The keyword arguments of one [put_object] call. *)
Record PutCall : Type := mkPutCall {
  bucket_name : string;
  object_name : string;
  put_data : list byte;
  put_length : nat;
  content_type : string
}.

Inductive exn : Type :=
| DatabaseError
| S3Error.

Record World : Type := mkWorld {
  clock : nat -> datetime;             (* the n-th reading of the clock *)
  ticks : nat;                         (* readings taken so far *)
  db_answer : Query -> option (list RawRow);  (* [None]: the call raises *)
  queries : list Query;                (* statements executed, oldest first *)
  sink_accepts : PutCall -> bool;      (* [false]: the call raises *)
  puts : list PutCall;                 (* [put_object] calls, oldest first *)
  stdout : list string                 (* printed lines, oldest first *)
}.

Inductive result (A : Type) : Type :=
| Ok (a : A)
| Raise (e : exn).
Arguments Ok {A} a.
Arguments Raise {A} e.

Definition M (A : Type) : Type := World -> result A * World.

Definition ret {A : Type} (a : A) : M A := fun w => (Ok a, w).

Definition bind {A B : Type} (m : M A) (f : A -> M B) : M B :=
  fun w =>
    match m w with
    | (Ok a, w') => f a w'
    | (Raise e, w') => (Raise e, w')
    end.

Notation "x <- m ;; k" := (bind m (fun x => k))
  (at level 61, m at next level, right associativity).
Notation "m ;;; k" := (bind m (fun _ => k))
  (at level 61, right associativity).

(** [datetime.now()] *)
Definition now : M datetime :=
  fun w =>
    (Ok (clock w (ticks w)),
     mkWorld (clock w) (S (ticks w)) (db_answer w) (queries w)
             (sink_accepts w) (puts w) (stdout w)).

(** [print(line)] *)
Definition print (line : string) : M unit :=
  fun w =>
    (Ok tt,
     mkWorld (clock w) (ticks w) (db_answer w) (queries w)
             (sink_accepts w) (puts w) (stdout w ++ [line])%list).

(** [conn.execute(q, params)] on an open connection, followed by the
    iteration over the result. *)
Definition execute (q : Query) : M (list RawRow) :=
  fun w =>
    let w' := mkWorld (clock w) (ticks w) (db_answer w) (queries w ++ [q])%list
                      (sink_accepts w) (puts w) (stdout w) in
    match db_answer w q with
    | Some rows => (Ok rows, w')
    | None => (Raise DatabaseError, w')
    end.

(** [minio_client.put_object(...)] *)
Definition put_object (call : PutCall) : M unit :=
  fun w =>
    let w' := mkWorld (clock w) (ticks w) (db_answer w) (queries w)
                      (sink_accepts w) (puts w ++ [call])%list (stdout w) in
    if sink_accepts w call then (Ok tt, w') else (Raise S3Error, w').

(* ================================================================= *)
(** ** The pipeline *)

Definition get_changes_sql : string :=
  "SELECT lsn, xid, data FROM pg_logical_slot_get_changes(:slot, NULL, :limit, 'include-xids', '0', 'skip-empty-xacts', '1')".

(** [fetch_cdc_changes(engine, slot_name, limit)] on an engine whose
    connection opens: the world describes what the database answers to the
    statement, not whether it accepts the connection. *)
Definition fetch_cdc_changes (slot_name : string) (limit : Z)
  : M (list RawRow) :=
  let q := mkQuery get_changes_sql slot_name limit in
  res <- execute q ;;
  ret (fold_left (fun rows r => rows ++ [mkRawRow (lsn r) (xid r) (data r)])%list
                 res []).

(** One element of [out]. *)
Record OutRow : Type := mkOutRow {
  capture_ts : string;
  out_lsn : string;
  out_op : string;
  columns : string
}.

(** The body of the loop of [process_cdc_for_cliente] for one raw row. *)
Definition process_row (capture_ts target_schema target_table : string)
  (out : list OutRow) (r : RawRow) : list OutRow :=
  match parse_test_decoding_row (data r) with
  | None => out
  | Some parsed =>
      if String.eqb (schema parsed) target_schema
         && String.eqb (table parsed) target_table
      then (out ++ [mkOutRow capture_ts (lsn r) (op parsed)
                             (Json.dumps (cols parsed))])%list
      else out
  end.

(** [pd.DataFrame(out)] for a list of dicts with the four keys of [out]. *)
Definition frame (out : list OutRow) : DataFrame :=
  mkDataFrame ["capture_ts"; "lsn"; "op"; "columns"]
    (map (fun o => [capture_ts o; out_lsn o; out_op o; columns o]) out).

(** [pd.DataFrame()] *)
Definition empty_frame : DataFrame := mkDataFrame [] [].

(** [process_cdc_for_cliente(raw_rows, target_schema, target_table)] *)
Definition process_cdc_for_cliente (raw_rows : list RawRow)
  (target_schema target_table : string) : M DataFrame :=
  t <- now ;;
  let capture_ts := isoformat t in
  let out :=
    fold_left (process_row capture_ts target_schema target_table) raw_rows [] in
  ret (match out with
       | _ :: _ => frame out
       | [] => empty_frame
       end).

(** [write_csv_to_minio(minio_client, bucket, base_path, df, prefix)] *)
Definition write_csv_to_minio (bucket base_path : string) (df : DataFrame)
  (prefix : string) : M string :=
  t <- now ;;
  let date_partition_str := "data=" ++ strftime_Ymd t in
  let file_timestamp_str := strftime_Ymd t ++ "_" ++ strftime_HMS t in
  let file_name := prefix ++ "_" ++ file_timestamp_str ++ ".csv" in
  let object_name := base_path ++ date_partition_str ++ "/" ++ file_name in
  let csv_bytes := encode_utf8 (to_csv df) in
  put_object (mkPutCall bucket object_name csv_bytes (List.length csv_bytes)
                        "text/csv") ;;;
  ret object_name.

(** The values [main] reads from the environment. *)
Record Config : Type := mkConfig {
  PGSCHEMA : string;
  CDC_SLOT_NAME : string;
  CDC_BATCH_LIMIT : Z
}.

Definition default_config : Config := mkConfig "db_loja" "data_sync_slot" 1000.

Definition BUCKET_NAME : string := "raw".
Definition RAW_INC_BASE_PATH : string := "inc/".
Definition TARGET_TABLE : string := "cliente".

(** [str(n)] for an int *)
Definition str_Z (z : Z) : string :=
  match z with
  | Zneg p => "-" ++ dec (Npos p)
  | _ => dec (Z.to_N z)
  end.

Definition c_cedilla : ascii := "231"%char.
Definition a_tilde : ascii := "227"%char.

Definition msg_consuming (cfg : Config) : string :=
  "Consumindo CDC do slot '" ++ CDC_SLOT_NAME cfg ++ "' (limite="
  ++ str_Z (CDC_BATCH_LIMIT cfg) ++ ")...".

Definition msg_no_changes : string :=
  "Nenhuma mudan" ++ String c_cedilla "a para processar.".

Definition msg_no_target : string :=
  "Sem mudan" ++ String c_cedilla "as da tabela alvo db_loja.cliente nesta leitura.".

Definition msg_written (dest : string) (n : nat) : string :=
  "Arquivo incremental gravado em: '" ++ dest ++ "' ("
  ++ dec (N.of_nat n) ++ " registros)".

(** [main()], after the environment has been read into [cfg]. *)
Definition main (cfg : Config) : M unit :=
  print (msg_consuming cfg) ;;;
  raw_rows <- fetch_cdc_changes (CDC_SLOT_NAME cfg) (CDC_BATCH_LIMIT cfg) ;;
  match raw_rows with
  | [] => print msg_no_changes
  | _ :: _ =>
      df <- process_cdc_for_cliente raw_rows (PGSCHEMA cfg) TARGET_TABLE ;;
      if df_empty df then print msg_no_target
      else
        dest <- write_csv_to_minio BUCKET_NAME RAW_INC_BASE_PATH df "cliente_cdc" ;;
        print (msg_written dest (df_len df))
  end.

(* ================================================================= *)
(** ** Definitions used by the statements *)

(** What a greedy and a lazy repetition of one character class compute:
    the continuation is tried from the longest run down, respectively from
    the shortest run up. *)
Fixpoint star_greedy (p : ascii -> bool) (k : cont) (s : string) (c : caps)
  : option (string * caps) :=
  match s with
  | String a t =>
      if p a then
        match star_greedy p k t c with
        | Some res => Some res
        | None => k s c
        end
      else k s c
  | EmptyString => k s c
  end.

Fixpoint star_lazy (p : ascii -> bool) (k : cont) (s : string) (c : caps)
  : option (string * caps) :=
  match k s c with
  | Some res => Some res
  | None =>
      match s with
      | String a t => if p a then star_lazy p k t c else None
      | EmptyString => None
      end
  end.

(** The input starts outside the class [p] (or is over). *)
Definition stops (p : ascii -> bool) (s : string) : bool :=
  match s with
  | String a _ => negb (p a)
  | EmptyString => true
  end.

(** The operation keywords of the third group. *)
Definition is_op (o : string) : Prop :=
  o = "INSERT" \/ o = "UPDATE" \/ o = "DELETE".

Definition not_dot (a : ascii) : bool := negb (Ascii.eqb a ".").
Definition colon_or_word (a : ascii) : bool := Ascii.eqb a ":" || Py.is_word a.
Definition not_lf (a : ascii) : bool := negb (Ascii.eqb a Py.LF).

(** A non-empty run of whitespace. *)
Definition blank (w : string) : Prop :=
  w <> "" /\ Py.all_chars Py.is_space w = true.

(** The line header of the grammar: [table], blanks, a schema name free of
    dots, a dot, a table name made of letters, digits, underscores and
    colons, a colon, blanks, the operation keyword, a colon. *)
Definition begins_with_table_prefix (s : string) : Prop :=
  exists w1 sch tb w2 o tail,
    s = "table" ++ w1 ++ sch ++ "." ++ tb ++ ":" ++ w2 ++ o ++ ":" ++ tail
    /\ blank w1
    /\ (sch <> "" /\ Py.all_chars not_dot sch = true)
    /\ (tb <> "" /\ Py.all_chars colon_or_word tb = true)
    /\ blank w2
    /\ is_op o.

(** The entries of the target table. *)
Definition is_target (target_schema target_table : string) (r : RawRow)
  : bool :=
  match parse_test_decoding_row (data r) with
  | Some parsed =>
      String.eqb (schema parsed) target_schema
      && String.eqb (table parsed) target_table
  | None => false
  end.

(** The record built from a decodable entry. *)
Definition captured (capture_ts : string) (r : RawRow) : option OutRow :=
  match parse_test_decoding_row (data r) with
  | Some parsed =>
      Some (mkOutRow capture_ts (lsn r) (op parsed) (Json.dumps (cols parsed)))
  | None => None
  end.

Definition cells (o : OutRow) : list string :=
  [capture_ts o; out_lsn o; out_op o; columns o].

(** The lines of a text, each ended by a line feed (the last one possibly
    not). *)
Fixpoint lines (s : string) : list string :=
  match s with
  | String a t =>
      if Ascii.eqb a Py.LF then "" :: lines t
      else match lines t with
           | l :: ls => String a l :: ls
           | [] => [String a ""]
           end
  | EmptyString => []
  end.

(** The lines of the bytes of an object, split at the byte 0x0a. *)
Fixpoint byte_lines (l : list byte) : list (list byte) :=
  match l with
  | b :: t =>
      if Byte.eqb b x0a then [] :: byte_lines t
      else match byte_lines t with
           | x :: xs => (b :: x) :: xs
           | [] => [[b]]
           end
  | [] => []
  end.

Fixpoint starts_with (p l : list byte) : bool :=
  match p, l with
  | [], _ => true
  | x :: p', y :: l' => Byte.eqb x y && starts_with p' l'
  | _ :: _, [] => false
  end.

(** The run of a computation: its outcome and the world it leaves. *)
Definition outcome {A : Type} (m : M A) (w : World) : result A := fst (m w).
Definition after {A : Type} (m : M A) (w : World) : World := snd (m w).

(** The statement [fetch_cdc_changes] sends. *)
Definition fetch_query (slot_name : string) (limit : Z) : Query :=
  mkQuery get_changes_sql slot_name limit.

(** The destination key for a clock reading. *)
Definition destination (base_path prefix : string) (t : datetime) : string :=
  base_path ++ ("data=" ++ strftime_Ymd t) ++ "/"
  ++ (prefix ++ "_" ++ (strftime_Ymd t ++ "_" ++ strftime_HMS t) ++ ".csv").

(** The call [write_csv_to_minio] makes when the clock reads [t]. *)
Definition put_of (bucket base_path : string) (df : DataFrame)
  (prefix : string) (t : datetime) : PutCall :=
  mkPutCall bucket (destination base_path prefix t)
            (encode_utf8 (to_csv df))
            (List.length (encode_utf8 (to_csv df))) "text/csv".

(** The loop of [process_cdc_for_cliente]. *)
Definition collect (capture_ts target_schema target_table : string)
  (raw_rows : list RawRow) : list OutRow :=
  fold_left (process_row capture_ts target_schema target_table) raw_rows [].

(** [pd.DataFrame(out) if out else pd.DataFrame()] *)
Definition to_frame (out : list OutRow) : DataFrame :=
  match out with
  | _ :: _ => frame out
  | [] => empty_frame
  end.

(** The world after one more reading of the clock. *)
Definition tick (w : World) : World :=
  mkWorld (clock w) (S (ticks w)) (db_answer w) (queries w)
          (sink_accepts w) (puts w) (stdout w).

(** The single-quoted literals of a statement, in order. *)
Fixpoint quoted_literals (inside : bool) (cur s : string) : list string :=
  match s with
  | String a t =>
      if Ascii.eqb a "'" then
        if inside then cur :: quoted_literals false "" t
        else quoted_literals true "" t
      else quoted_literals inside (if inside then cur ++ String a "" else "") t
  | EmptyString => []
  end.

Fixpoint pairs (l : list string) : list (string * string) :=
  match l with
  | k :: v :: l' => (k, v) :: pairs l'
  | _ => []
  end.

(** The options the statement passes to the output plugin: the quoted
    literals after the three positional arguments, taken two by two. *)
Definition plugin_options (q : Query) : list (string * string) :=
  pairs (quoted_literals false "" (q_text q)).

(** The boolean an option value stands for. *)
Definition pg_bool (v : string) : option bool :=
  if String.eqb v "1" || String.eqb v "true" || String.eqb v "on" then Some true
  else if String.eqb v "0" || String.eqb v "false" || String.eqb v "off"
  then Some false
  else None.

Fixpoint lookup (k : string) (d : list (string * string)) : option string :=
  match d with
  | (k', v) :: d' => if String.eqb k' k then Some v else lookup k d'
  | [] => None
  end.

Definition plugin_flag (q : Query) (name : string) : option bool :=
  match lookup name (plugin_options q) with
  | Some v => pg_bool v
  | None => None
  end.

(** A sample world: the slot delivers a transaction with one insert into
    the target table, the clock reads one second before and one second
    after midnight, the object store accepts every put. *)
Definition sample_rows : list RawRow :=
  [mkRawRow "0/16B3700" 742 "BEGIN";
   mkRawRow "0/16B3748" 742
     "table db_loja.cliente: INSERT: id[integer]:1 name[text]:'Ana Silva'";
   mkRawRow "0/16B3790" 742 "COMMIT"].

Definition sample_clock (i : nat) : datetime :=
  match i with
  | O => mkDatetime 2024 1 31 23 59 59 250000
  | _ => mkDatetime 2024 2 1 0 0 1 0
  end.

Definition sample_world : World :=
  mkWorld sample_clock 0 (fun _ => Some sample_rows) [] (fun _ => true) [] [].

(** A second sample: the transaction touches another table only. *)
Definition other_rows : list RawRow :=
  [mkRawRow "0/16B3700" 743 "BEGIN";
   mkRawRow "0/16B3748" 743 "table db_loja.pedido: INSERT: id[integer]:7";
   mkRawRow "0/16B3790" 743 "COMMIT"].

Definition other_world : World :=
  mkWorld sample_clock 0 (fun _ => Some other_rows) [] (fun _ => true) [] [].

(** The header row of the frames built by [frame]. *)
Definition header_line : string := "capture_ts,lsn,op,columns".

(** A text without line feed. *)
Definition no_line_feed (s : string) : bool := Py.all_chars not_lf s.

(** The start of a column token ahead: blanks, a name, an opening
    bracket.  This is what ends a value in the middle of a line. *)
Fixpoint word_bracket (s : string) : bool :=
  match s with
  | String a t => if Py.is_word a then word_bracket t else Ascii.eqb "[" a
  | EmptyString => false
  end.

Fixpoint after_spaces (s : string) : bool :=
  match s with
  | String a t =>
      if Py.is_space a then after_spaces t else Py.is_word a && word_bracket t
  | EmptyString => false
  end.

Definition token_ahead (s : string) : bool :=
  match s with
  | String a t => Py.is_space a && after_spaces t
  | EmptyString => false
  end.

(** No column token starts anywhere inside the text. *)
Fixpoint no_token_inside (s : string) : bool :=
  negb (token_ahead s)
  && match s with
     | String _ t => no_token_inside t
     | EmptyString => true
     end.

Definition nonempty (s : string) : bool :=
  match s with
  | String _ _ => true
  | EmptyString => false
  end.

Definition not_rbracket (a : ascii) : bool := negb (Ascii.eqb a "]").

Definition is_opb (o : string) : bool :=
  String.eqb o "INSERT" || String.eqb o "UPDATE" || String.eqb o "DELETE".

(** Names a line header is written with: a schema free of dots that does
    not start with a blank, a table name of letters, digits, underscores
    and colons, one of the three keywords. *)
Definition header_ok (sch tb o : string) : bool :=
  nonempty sch && Py.all_chars not_dot sch && stops Py.is_space sch
  && nonempty tb && Py.all_chars colon_or_word tb
  && is_opb o.

(** A column name and a type name. *)
Definition column_ok (k ty : string) : bool :=
  nonempty k && Py.all_chars Py.is_word k
  && nonempty ty && Py.all_chars not_rbracket ty && no_line_feed ty.

(** The text between the quotes of a value the grammar delimits as one
    token: it holds no line feed and no start of a further token. *)
Definition value_ok (w : string) : bool :=
  no_line_feed w && no_token_inside w.

(** A line as [test_decoding] writes it. *)
Definition line (sch tb o rest : string) : string :=
  "table " ++ sch ++ "." ++ tb ++ ": " ++ o ++ ": " ++ rest.

(** A column value as it stands in a line: bare, or between single
    quotes. *)
Inductive Value : Type :=
| Bare (v : string)
| Quoted (w : string).

(** A column token [name[type]:value]. *)
Record Token : Type := mkToken {
  tok_name : string;
  tok_type : string;
  tok_value : Value
}.

Definition raw_value (v : Value) : string :=
  match v with
  | Bare v => v
  | Quoted w => "'" ++ w ++ "'"
  end.

(** What a value stands for: a bare value itself, a quoted value the text
    between its quotes. *)
Definition decoded_value (v : Value) : string :=
  match v with
  | Bare v => v
  | Quoted w => w
  end.

Definition token_text (t : Token) : string :=
  tok_name t ++ "[" ++ tok_type t ++ "]:" ++ raw_value (tok_value t).

(** The tokens of a line, one blank between two of them. *)
Definition tokens_text (ts : list Token) : string :=
  String.concat " " (map token_text ts).

Definition not_space (a : ascii) : bool := negb (Py.is_space a).

(** A bare value: not empty, free of whitespace, not opened by a quote. *)
Definition bare_ok (v : string) : bool :=
  nonempty v && Py.all_chars not_space v && negb (Py.opt_is (Py.first v) "'").

Definition token_ok (t : Token) : bool :=
  column_ok (tok_name t) (tok_type t)
  && match tok_value t with
     | Bare v => bare_ok v
     | Quoted w => value_ok w
     end.

(** [cols[name] = value] for a token. *)
Definition set_token (d : list (string * string)) (t : Token)
  : list (string * string) :=
  dict_set d (tok_name t) (decoded_value (tok_value t)).

(** The dict the tokens stand for, filled in the order of the line. *)
Definition decoded_cols (ts : list Token) : list (string * string) :=
  fold_left set_token ts [].

(** The groups of the column pattern on a token. *)
Definition token_caps (t : Token) : caps :=
  [(2, raw_value (tok_value t)); (1, tok_name t)].

(** What may follow a value: the end of the line or a further token. *)
Definition tail_ok (tail : string) : bool :=
  match tail with
  | EmptyString => true
  | _ => token_ahead tail
  end.

Fixpoint ends_nonspace (s : string) : bool :=
  match s with
  | String a EmptyString => negb (Py.is_space a)
  | String _ t => ends_nonspace t
  | EmptyString => false
  end.

(** What the look-ahead of the column pattern tries first and second. *)
Definition ahead_token : regex :=
  Seq (Plus true Space) (Seq (Plus true Word) (Char "[")).
Definition ahead_end : regex := Seq (Star true Space) Eol.

(* ================================================================= *)
(** ** Definitions used by the further properties *)

(** The column a token stands for. *)
Definition token_item (t : Token) : string * string :=
  (tok_name t, decoded_value (tok_value t)).

(** A line with a repeated column name. *)
Definition repeated_tokens : list Token :=
  [mkToken "id" "integer" (Bare "1");
   mkToken "name" "text" (Quoted "Ana Maria");
   mkToken "id" "integer" (Bare "2")].

(** Worlds where the database, respectively the object store, is down. *)
Definition db_down_world : World :=
  mkWorld sample_clock 0 (fun _ => None) [] (fun _ => true) [] [].

Definition sink_down_world : World :=
  mkWorld sample_clock 0 (fun _ => Some sample_rows) [] (fun _ => false) [] [].

(** A pattern without capturing group. *)
Fixpoint no_groups (r : regex) : bool :=
  match r with
  | Seq r1 r2 | Alt r1 r2 => no_groups r1 && no_groups r2
  | Star _ r1 | Look r1 => no_groups r1
  | Group _ _ => false
  | Eps | Chr _ | Bol | Eol => true
  end.

(** A decoded column: its name is an identifier, its value holds no line
    feed. *)
Definition column_shape (kv : string * string) : Prop :=
  nonempty (fst kv) = true
  /\ Py.all_chars Py.is_word (fst kv) = true
  /\ no_line_feed (snd kv) = true.

Definition not_bracket (a : ascii) : bool := negb (Ascii.eqb "[" a).

(** The text of a token whose value is any run of characters. *)
Definition run_token (k ty v : string) : string := k ++ "[" ++ ty ++ "]:" ++ v.

(** A run of characters none of which is a blank. *)
Definition run_ok (v : string) : bool :=
  nonempty v && Py.all_chars not_space v.

(** An entry without its transaction id. *)
Definition without_xid (r : RawRow) : RawRow := mkRawRow (lsn r) 0 (data r).

(** The readings of the clock for which the formats are the ones modelled:
    four-digit years and fields within their calendar bounds. *)
Definition valid_datetime (t : datetime) : bool :=
  ((1000 <=? year t) && (year t <=? 9999)
   && (1 <=? month t) && (month t <=? 12)
   && (1 <=? day t) && (day t <=? 31)
   && (hour t <? 24) && (minute t <? 60) && (second t <? 60)
   && (microsecond t <? 1000000))%N.

(** Two readings within the same second. *)
Definition same_second (t1 t2 : datetime) : Prop :=
  year t1 = year t2 /\ month t1 = month t2 /\ day t1 = day t2
  /\ hour t1 = hour t2 /\ minute t1 = minute t2 /\ second t1 = second t2.

(** The number a run of decimal digits stands for. *)
Fixpoint read_dec_from (acc : N) (s : string) : N :=
  match s with
  | String a t => read_dec_from (10 * acc + (Py.code a - 48))%N t
  | EmptyString => acc
  end.

Definition read_dec (s : string) : N := read_dec_from 0 s.

(** [p] holds of the [k] numbers from [n] on. *)
Fixpoint all_from (p : N -> bool) (k : nat) (n : N) : bool :=
  match k with
  | O => true
  | S k' => p n && all_from p k' (N.succ n)
  end.

(** The width [w] is kept and the number is read back. *)
Definition zpad_ok (w : nat) (n : N) : bool :=
  (String.length (zpad w n) =? w)%nat && (read_dec (zpad w n) =? n)%N.

(** A world whose clock reads the second of the first reading of the sample
    clock, later in that second. *)
Definition same_second_world : World :=
  mkWorld (fun _ => mkDatetime 2024 1 31 23 59 59 900000) 0
          (fun _ => Some sample_rows) [] (fun _ => true) [] [].

(** The cell of the columns in a row of the CSV: the JSON text of the dict,
    bare when the dict is empty, otherwise between quotes with its quotes
    doubled. *)
Definition columns_cell (d : list (string * string)) : string :=
  match d with
  | [] => "{}"
  | _ :: _ =>
      String Json.quote
        (Csv.double_quotes (Json.dumps d) ++ String Json.quote "")
  end.

(** The row of the CSV for an entry: the reading of the clock, the log
    position as a CSV field, the keyword of the operation, the cell of the
    columns, and a line feed. *)
Definition csv_row (ts : string) (r : RawRow) : string :=
  match parse_test_decoding_row (data r) with
  | Some parsed =>
      ts ++ "," ++ Csv.field (lsn r) ++ "," ++ op parsed ++ ","
      ++ columns_cell (cols parsed) ++ String Py.LF ""
  | None => ""
  end.

(* ================================================================= *)
(** ** Strings *)

Lemma append_nil_r (s : string) : s ++ "" = s.
Proof. induction s as [|a s IH]; simpl; [reflexivity | now rewrite IH]. Qed.

Lemma append_assoc (s t u : string) : (s ++ t) ++ u = s ++ (t ++ u).
Proof. induction s as [|a s IH]; simpl; [reflexivity | now rewrite IH]. Qed.

Lemma length_append (s t : string) :
  String.length (s ++ t) = String.length s + String.length t.
Proof. induction s as [|a s IH]; simpl; [reflexivity | now rewrite IH]. Qed.

Lemma substring_0_append (x t : string) :
  String.substring 0 (String.length x) (x ++ t) = x.
Proof.
  induction x as [|a x IH]; simpl.
  - destruct t; reflexivity.
  - now rewrite IH.
Qed.

Lemma consumed_append (x t : string) : consumed (x ++ t) t = x.
Proof.
  unfold consumed. rewrite length_append.
  replace (String.length x + String.length t - String.length t)
    with (String.length x) by lia.
  apply substring_0_append.
Qed.

Lemma consumed_cons (a : ascii) (x t : string) :
  consumed (String a (x ++ t)) t = String a x.
Proof. exact (consumed_append (String a x) t). Qed.

Lemma all_chars_append (p : ascii -> bool) (x y : string) :
  Py.all_chars p (x ++ y) = Py.all_chars p x && Py.all_chars p y.
Proof.
  induction x as [|a x IH]; simpl; [reflexivity|].
  now rewrite IH, andb_assoc.
Qed.

Lemma no_line_feed_append (x y : string) :
  no_line_feed (x ++ y) = no_line_feed x && no_line_feed y.
Proof. apply all_chars_append. Qed.

(* ================================================================= *)
(** ** The matcher on repetitions of a character class *)

Section ExecFacts.

Variable n : nat.

Lemma exec_Seq r1 r2 s c k :
  exec n (Seq r1 r2) s c k = exec n r1 s c (fun s' c' => exec n r2 s' c' k).
Proof. reflexivity. Qed.

Lemma exec_Group g r s c k :
  exec n (Group g r) s c k
  = exec n r s c (fun s' c' => k s' ((g, consumed s s') :: c')).
Proof. reflexivity. Qed.

Lemma exec_Alt r1 r2 s c k :
  exec n (Alt r1 r2) s c k
  = match exec n r1 s c k with
    | Some res => Some res
    | None => exec n r2 s c k
    end.
Proof. reflexivity. Qed.

Lemma exec_Look r s c k :
  exec n (Look r) s c k
  = match exec n r s c accept with
    | Some (_, c') => k s c'
    | None => None
    end.
Proof. reflexivity. Qed.

Lemma exec_Chr p a t c k :
  exec n (Chr p) (String a t) c k = if p a then k t c else None.
Proof. reflexivity. Qed.

Lemma exec_Bol s c k :
  exec n Bol s c k
  = if (String.length s =? n)%nat then k s c else None.
Proof. reflexivity. Qed.

Lemma exec_Char a t c k : exec n (Char a) (String a t) c k = k t c.
Proof. simpl. now rewrite Ascii.eqb_refl. Qed.

Lemma exec_Lit x t c k : exec n (Lit x) (x ++ t) c k = k t c.
Proof.
  revert k. induction x as [|a x IH]; intros k; [reflexivity|].
  destruct x as [|b x].
  - apply exec_Char.
  - change (Lit (String a (String b x))) with (Seq (Char a) (Lit (String b x))).
    rewrite exec_Seq.
    change (String a (String b x) ++ t) with (String a (String b x ++ t)).
    rewrite exec_Char. apply IH.
Qed.

Lemma star_loop_greedy p k fuel s c :
  String.length s <= fuel ->
  star_loop (exec n (Chr p)) true k fuel s c = star_greedy p k s c.
Proof.
  revert s. induction fuel as [|fuel IH]; intros s Hlen.
  - destruct s; [reflexivity | simpl in Hlen; lia].
  - destruct s as [|a t]; [reflexivity|].
    simpl in Hlen. simpl. destruct (p a); [|reflexivity].
    rewrite (proj2 (Nat.ltb_lt (String.length t) (S (String.length t))))
      by lia.
    rewrite IH by lia. reflexivity.
Qed.

Lemma star_loop_lazy p k fuel s c :
  String.length s <= fuel ->
  star_loop (exec n (Chr p)) false k fuel s c = star_lazy p k s c.
Proof.
  revert s. induction fuel as [|fuel IH]; intros s Hlen.
  - destruct s; [simpl; destruct (k "" c); reflexivity | simpl in Hlen; lia].
  - destruct s as [|a t].
    + simpl. destruct (k "" c); reflexivity.
    + simpl in Hlen. simpl. destruct (k (String a t) c); [reflexivity|].
      destruct (p a); [|reflexivity].
      rewrite (proj2 (Nat.ltb_lt (String.length t) (S (String.length t))))
        by lia.
      apply IH. lia.
Qed.

Lemma exec_Star_greedy p s c k :
  exec n (Star true (Chr p)) s c k = star_greedy p k s c.
Proof. apply star_loop_greedy. lia. Qed.

Lemma exec_Star_lazy p s c k :
  exec n (Star false (Chr p)) s c k = star_lazy p k s c.
Proof. apply star_loop_lazy. lia. Qed.

Lemma exec_Plus_greedy p s c k :
  exec n (Plus true (Chr p)) s c k
  = match s with
    | String a t => if p a then star_greedy p k t c else None
    | EmptyString => None
    end.
Proof.
  unfold Plus. rewrite exec_Seq. destruct s as [|a t]; [reflexivity|].
  simpl exec at 1. destruct (p a); [|reflexivity].
  apply exec_Star_greedy.
Qed.

End ExecFacts.

(** *** Reading a successful run backwards *)

Section ExecInversion.

Variable n : nat.

Lemma star_greedy_inv p k s c res :
  star_greedy p k s c = Some res ->
  exists x t, s = x ++ t /\ Py.all_chars p x = true /\ k t c = Some res.
Proof.
  induction s as [|a s IH]; simpl; intros H.
  - exists "", "". auto.
  - destruct (p a) eqn:Hp.
    + destruct (star_greedy p k s c) eqn:Hs.
      * destruct (IH H) as (x & t & -> & Hx & Hk).
        exists (String a x), t. simpl. rewrite Hp. auto.
      * exists "", (String a s). auto.
    + exists "", (String a s). auto.
Qed.

Lemma exec_Plus_greedy_inv p s c k res :
  exec n (Plus true (Chr p)) s c k = Some res ->
  exists x t,
    s = x ++ t /\ x <> "" /\ Py.all_chars p x = true /\ k t c = Some res.
Proof.
  rewrite exec_Plus_greedy. destruct s as [|a s]; [discriminate|].
  destruct (p a) eqn:Hp; [|discriminate]. intros H.
  destruct (star_greedy_inv _ _ _ _ _ H) as (x & t & -> & Hx & Hk).
  exists (String a x), t. simpl. rewrite Hp. repeat split; auto. discriminate.
Qed.

Lemma exec_Char_inv a s c k res :
  exec n (Char a) s c k = Some res ->
  exists t, s = String a t /\ k t c = Some res.
Proof.
  simpl. destruct s as [|b t]; [discriminate|].
  destruct (Ascii.eqb a b) eqn:E; [|discriminate].
  apply Ascii.eqb_eq in E. subst b. eauto.
Qed.

Lemma exec_Lit_inv x s c k res :
  exec n (Lit x) s c k = Some res ->
  exists t, s = x ++ t /\ k t c = Some res.
Proof.
  revert s k. induction x as [|a x IH]; intros s k H.
  - exists s. auto.
  - destruct x as [|b x].
    + apply exec_Char_inv in H. destruct H as (t & -> & Hk).
      exists t. split; [reflexivity | assumption].
    + change (Lit (String a (String b x)))
        with (Seq (Char a) (Lit (String b x))) in H.
      rewrite exec_Seq in H. apply exec_Char_inv in H.
      destruct H as (t & -> & Hk). apply IH in Hk.
      destruct Hk as (t' & -> & Hk).
      exists t'. split; [reflexivity | assumption].
Qed.

Lemma exec_Alt_inv r1 r2 s c k res :
  exec n (Alt r1 r2) s c k = Some res ->
  exec n r1 s c k = Some res \/ exec n r2 s c k = Some res.
Proof.
  simpl. destruct (exec n r1 s c k); intros H; [left | right]; assumption.
Qed.

Lemma exec_Eol_inv s c k res :
  exec n Eol s c k = Some res ->
  (s = "" \/ s = String Py.LF "") /\ k s c = Some res.
Proof.
  simpl. destruct s as [|a [|b t]]; intros H; auto; [|discriminate].
  destruct (Ascii.eqb a Py.LF) eqn:E; [|discriminate].
  apply Ascii.eqb_eq in E. subst a. auto.
Qed.

End ExecInversion.

(** *** The fuel of the scan *)

Section Fuel.

Variable n : nat.

(** The continuation only ever sees what is left of the input. *)
Lemma exec_suffix (r : regex) :
  forall s c k res,
    exec n r s c k = Some res ->
    exists s' c',
      String.length s' <= String.length s /\ k s' c' = Some res.
Proof.
  induction r as [|p|r1 IH1 r2 IH2|r1 IH1 r2 IH2|g r IH|g r IH|r IH| |];
    intros s c k res H.
  - exists s, c. auto.
  - destruct s as [|a t]; [discriminate|]. simpl in H.
    destruct (p a); [|discriminate]. exists t, c. simpl. auto.
  - rewrite exec_Seq in H. apply IH1 in H. destruct H as (s1 & c1 & L1 & H).
    apply IH2 in H. destruct H as (s2 & c2 & L2 & H).
    exists s2, c2. split; [lia | exact H].
  - rewrite exec_Alt in H. destruct (exec n r1 s c k) eqn:E.
    + injection H as <-. exact (IH1 _ _ _ _ E).
    + exact (IH2 _ _ _ _ H).
  - cbn [exec] in H. revert H. generalize (String.length s) at 1.
    intros fuel. revert s c. induction fuel as [|fuel IHf]; intros s c H.
    + cbn [star_loop] in H. exists s, c. auto.
    + cbn [star_loop] in H.
      assert (Hagain :
        exec n r s c
          (fun s' c' =>
             if (String.length s' <? String.length s)%nat
             then star_loop (exec n r) g k fuel s' c' else None) = Some res ->
        exists s' c', String.length s' <= String.length s /\ k s' c' = Some res).
      { intros E. apply IH in E. destruct E as (s1 & c1 & L1 & E).
        destruct (String.length s1 <? String.length s)%nat; [|discriminate].
        apply IHf in E. destruct E as (s2 & c2 & L2 & E).
        exists s2, c2. split; [lia | exact E]. }
      destruct g.
      * destruct (exec n r s c _) eqn:E.
        -- rewrite H in Hagain. now apply Hagain.
        -- exists s, c. auto.
      * destruct (k s c) eqn:E.
        -- rewrite H in E. exists s, c. auto.
        -- now apply Hagain.
  - rewrite exec_Group in H. apply IH in H. destruct H as (s' & c' & L & H).
    eauto.
  - rewrite exec_Look in H. destruct (exec n r s c accept) as [[s1 c1]|];
      [|discriminate]. exists s, c1. auto.
  - rewrite exec_Bol in H. destruct (_ =? _)%nat; [|discriminate].
    exists s, c. auto.
  - apply exec_Eol_inv in H. destruct H as [_ H]. exists s, c. auto.
Qed.

Lemma search_suffix (r : regex) (s s' : string) (c : caps) :
  search n r s = Some (s', c) -> String.length s' <= String.length s.
Proof.
  induction s as [|a t IH]; simpl; intros H.
  - destruct (exec n r "" [] accept) eqn:E; [|discriminate].
    injection H as ->. apply exec_suffix in E.
    destruct E as (s1 & c1 & L & E). unfold accept in E.
    injection E as -> _. exact L.
  - destruct (exec n r (String a t) [] accept) eqn:E.
    + injection H as ->. apply exec_suffix in E.
      destruct E as (s1 & c1 & L & E). unfold accept in E.
      injection E as -> _. exact L.
    + apply IH in H. lia.
Qed.

(** Any fuel above the length of the input gives the same scan: the fuel
    [finditer] starts with never runs out. *)
Lemma scan_fuel (r : regex) (fuel1 : nat) :
  forall (fuel2 : nat) (s : string),
    String.length s < fuel1 -> String.length s < fuel2 ->
    scan n fuel1 r s = scan n fuel2 r s.
Proof.
  induction fuel1 as [|fuel1 IH]; intros fuel2 s H1 H2; [lia|].
  destruct fuel2 as [|fuel2]; [lia|]. cbn [scan].
  destruct (search n r s) as [[s' c]|] eqn:E; [|reflexivity].
  apply search_suffix in E. f_equal.
  destruct (String.length s' <? String.length s)%nat eqn:L.
  - apply Nat.ltb_lt in L. apply IH; lia.
  - destruct s' as [|a t]; [reflexivity|]. simpl in E. apply IH; lia.
Qed.

End Fuel.

(** A match of the column pattern takes at least one character, so the
    rule of the scan for empty matches never applies to it. *)
Lemma kv_match_consumes (n : nat) (s s' : string) (c : caps) :
  exec n _KV_RE s [] accept = Some (s', c) ->
  String.length s' < String.length s.
Proof.
  unfold _KV_RE. rewrite exec_Seq, exec_Group. intros H.
  apply exec_Plus_greedy_inv in H. destruct H as (x & t & -> & Hne & _ & H).
  apply exec_suffix in H. destruct H as (s1 & c1 & L & E).
  unfold accept in E. injection E as -> _.
  rewrite length_append. destruct x; [contradiction | simpl; lia].
Qed.

(** The shape of every string the header pattern matches. *)
Lemma tbl_match_inv (s : string) (m : caps) :
  match_ _TBL_RE s = Some m ->
  exists w1 sch tb w2 o w3 rest tail,
    s = "table" ++ w1 ++ sch ++ "." ++ tb ++ ":" ++ w2 ++ o ++ ":" ++ w3
        ++ rest ++ tail
    /\ (w1 <> "" /\ Py.all_chars Py.is_space w1 = true)
    /\ (sch <> "" /\ Py.all_chars not_dot sch = true)
    /\ (tb <> "" /\ Py.all_chars colon_or_word tb = true)
    /\ (w2 <> "" /\ Py.all_chars Py.is_space w2 = true)
    /\ is_op o
    /\ (w3 <> "" /\ Py.all_chars Py.is_space w3 = true)
    /\ Py.all_chars not_lf rest = true
    /\ (tail = "" \/ tail = String Py.LF "")
    /\ m = [(4, rest); (3, o); (2, tb); (1, sch)].
Proof.
  unfold match_. destruct (exec _ _ _ _ _) as [[s' m']|] eqn:H; [|discriminate].
  intros Hm. injection Hm as ->. unfold _TBL_RE in H.
  rewrite exec_Seq, exec_Bol in H.
  destruct (String.length s =? String.length s)%nat; [|discriminate].
  rewrite exec_Seq in H. apply exec_Lit_inv in H. destruct H as (t0 & E0 & H).
  rewrite exec_Seq in H. apply exec_Plus_greedy_inv in H.
  destruct H as (w1 & t1 & E1 & Hw1 & Hw1' & H).
  rewrite exec_Seq, exec_Group in H. apply exec_Plus_greedy_inv in H.
  destruct H as (sch & t2 & E2 & Hsch & Hsch' & H).
  rewrite E2, consumed_append in H.
  rewrite exec_Seq in H. apply exec_Char_inv in H. destruct H as (t3 & E3 & H).
  rewrite exec_Seq, exec_Group in H. apply exec_Plus_greedy_inv in H.
  destruct H as (tb & t4 & E4 & Htb & Htb' & H).
  rewrite E4, consumed_append in H.
  rewrite exec_Seq in H. apply exec_Char_inv in H. destruct H as (t5 & E5 & H).
  rewrite exec_Seq in H. apply exec_Plus_greedy_inv in H.
  destruct H as (w2 & t6 & E6 & Hw2 & Hw2' & H).
  rewrite exec_Seq, exec_Group in H.
  assert (Hop : exists o t7, t6 = o ++ t7 /\ is_op o /\
            exec (String.length s)
              (Seq (Char ":") (Seq (Plus true Space)
                 (Seq (Group 4 (Star true Dot)) Eol))) t7
              ((3, o) :: [(2, tb); (1, sch)]) accept = Some (s', m)).
  { apply exec_Alt_inv in H. destruct H as [H|H];
      [|apply exec_Alt_inv in H; destruct H as [H|H]];
      apply exec_Lit_inv in H; destruct H as (t7 & E7 & H);
      rewrite E7, consumed_append in H.
    - exists "INSERT", t7. unfold is_op. auto.
    - exists "UPDATE", t7. unfold is_op. auto.
    - exists "DELETE", t7. unfold is_op. auto. }
  clear H. destruct Hop as (o & t7 & E7 & Ho & H).
  rewrite exec_Seq in H. apply exec_Char_inv in H. destruct H as (t8 & E8 & H).
  rewrite exec_Seq in H. apply exec_Plus_greedy_inv in H.
  destruct H as (w3 & t9 & E9 & Hw3 & Hw3' & H).
  rewrite exec_Seq, exec_Group in H. unfold Dot in H.
  rewrite exec_Star_greedy in H. apply star_greedy_inv in H.
  destruct H as (rest & tail & E10 & Hrest & H).
  rewrite E10, consumed_append in H.
  apply exec_Eol_inv in H. destruct H as (Htail & H).
  unfold accept in H. injection H as _ <-.
  exists w1, sch, tb, w2, o, w3, rest, tail.
  subst. repeat split; auto.
Qed.

(* ================================================================= *)
(** ** The decoder *)

Lemma parse_inv (raw : string) (parsed : Parsed) :
  parse_test_decoding_row raw = Some parsed ->
  exists w1 w2 w3 rest tail,
    Py.strip raw
    = "table" ++ w1 ++ schema parsed ++ "." ++ table parsed ++ ":" ++ w2
      ++ op parsed ++ ":" ++ w3 ++ rest ++ tail
    /\ blank w1
    /\ (schema parsed <> "" /\ Py.all_chars not_dot (schema parsed) = true)
    /\ (table parsed <> ""
        /\ Py.all_chars colon_or_word (table parsed) = true)
    /\ blank w2
    /\ is_op (op parsed).
Proof.
  unfold parse_test_decoding_row.
  destruct (match_ _TBL_RE (Py.strip raw)) as [m|] eqn:Hm; [|discriminate].
  intros H. injection H as <-. simpl.
  destruct (tbl_match_inv _ _ Hm)
    as (w1 & sch & tb & w2 & o & w3 & rest & tail & E & H1 & H2 & H3 & H4
        & H5 & _ & _ & _ & ->).
  simpl. exists w1, w2, w3, rest, tail. unfold blank. auto 10.
Qed.

Lemma parse_prefix (raw : string) (parsed : Parsed) :
  parse_test_decoding_row raw = Some parsed ->
  begins_with_table_prefix (Py.strip raw).
Proof.
  intros H. destruct (parse_inv _ _ H)
    as (w1 & w2 & w3 & rest & tail & E & H1 & H2 & H3 & H4 & H5).
  exists w1, (schema parsed), (table parsed), w2, (op parsed),
    (w3 ++ rest ++ tail).
  auto 10.
Qed.

(** C3 (as amended): a line which, once trimmed, does not begin with the
    header [table <schema>.<table>: <OP>:] decodes to nothing; the decoder
    returns the empty dict and raises no error. *)
Theorem C3_no_prefix_no_record (raw : string) :
  ~ begins_with_table_prefix (Py.strip raw) ->
  parse_test_decoding_row raw = None.
Proof.
  intros Hno. destruct (parse_test_decoding_row raw) as [parsed|] eqn:H;
    [|reflexivity].
  exfalso. apply Hno. exact (parse_prefix _ _ H).
Qed.

Lemma not_prefix_first (a : ascii) (s : string) :
  a <> "t"%char -> ~ begins_with_table_prefix (String a s).
Proof.
  intros Ha (w1 & sch & tb & w2 & o & tail & E & _). simpl in E.
  injection E as E _. contradiction.
Qed.

Lemma C3_no_prefix_no_record_witness :
  ~ begins_with_table_prefix (Py.strip "COMMIT 1234")
  /\ parse_test_decoding_row "COMMIT 1234" = None.
Proof.
  assert (H : ~ begins_with_table_prefix (Py.strip "COMMIT 1234")).
  { apply not_prefix_first. discriminate. }
  split; [exact H | exact (C3_no_prefix_no_record "COMMIT 1234" H)].
Defined.

(** C3 (as stated) fails on a line with leading blanks: the line itself
    does not begin with [table], yet it is trimmed first and decoded. *)
Lemma C3_leading_blank_counterexample :
  ~ begins_with_table_prefix " table pub.cliente: INSERT: id[integer]:1"
  /\ parse_test_decoding_row " table pub.cliente: INSERT: id[integer]:1"
     = Some (mkParsed "pub" "cliente" "INSERT" [("id", "1")]).
Proof.
  split.
  - apply not_prefix_first. discriminate.
  - vm_compute. reflexivity.
Qed.

(** C4: the sample line of the decoder. *)
Theorem C4_decode_sample_line :
  parse_test_decoding_row
    "table pub.cliente: INSERT: id[integer]:1 name[text]:'Ana Silva'"
  = Some (mkParsed "pub" "cliente" "INSERT"
            [("id", "1"); ("name", "Ana Silva")]).
Proof. vm_compute. reflexivity. Qed.

(* ================================================================= *)
(** ** Running the patterns forwards *)

Lemma stops_append (p : ascii -> bool) (x t : string) :
  nonempty x = true -> stops p (x ++ t) = stops p x.
Proof. destruct x; [discriminate | reflexivity]. Qed.

Lemma space_not_word (a : ascii) : Py.is_space a = true -> Py.is_word a = false.
Proof.
  destruct a as [[] [] [] [] [] [] [] []]; vm_compute; intros H;
    first [reflexivity | discriminate H].
Qed.

Lemma word_not_bracket (a : ascii) :
  Py.is_word a = true -> Ascii.eqb "[" a = false.
Proof.
  destruct (Ascii.eqb_spec "[" a) as [<-|]; [discriminate | reflexivity].
Qed.

Section ExecForward.

Variable n : nat.

Lemma star_greedy_max p k x t c res :
  Py.all_chars p x = true -> stops p t = true -> k t c = Some res ->
  star_greedy p k (x ++ t) c = Some res.
Proof.
  intros Hx Ht Hk. induction x as [|a x IH]; simpl.
  - destruct t as [|b t]; [exact Hk|]. simpl in Ht.
    apply negb_true_iff in Ht. simpl. now rewrite Ht.
  - simpl in Hx. apply andb_prop in Hx. destruct Hx as [Ha Hx].
    now rewrite Ha, (IH Hx).
Qed.

Lemma star_greedy_stop p k t c :
  stops p t = true -> star_greedy p k t c = k t c.
Proof.
  destruct t as [|b t]; [reflexivity|]. simpl. intros Ht.
  apply negb_true_iff in Ht. now rewrite Ht.
Qed.

(** The longest run fails and the run one character shorter succeeds. *)
Lemma star_greedy_back p k x a t c res :
  Py.all_chars p x = true -> p a = true -> stops p t = true ->
  k t c = None -> k (String a t) c = Some res ->
  star_greedy p k (x ++ String a t) c = Some res.
Proof.
  intros Hx Ha Ht Hk1 Hk2. induction x as [|b x IH]; simpl.
  - now rewrite Ha, (star_greedy_stop p k t c Ht), Hk1.
  - simpl in Hx. apply andb_prop in Hx. destruct Hx as [Hb Hx].
    now rewrite Hb, (IH Hx).
Qed.

Lemma exec_Plus_max p k x t c res :
  nonempty x = true -> Py.all_chars p x = true -> stops p t = true ->
  k t c = Some res ->
  exec n (Plus true (Chr p)) (x ++ t) c k = Some res.
Proof.
  intros Hne Hx Ht Hk. rewrite exec_Plus_greedy.
  destruct x as [|a x]; [discriminate|]. simpl in Hx |- *.
  apply andb_prop in Hx. destruct Hx as [Ha Hx]. rewrite Ha.
  now apply star_greedy_max.
Qed.

Lemma exec_Plus_back p k x a t c res :
  nonempty x = true -> Py.all_chars p x = true -> p a = true ->
  stops p t = true -> k t c = None -> k (String a t) c = Some res ->
  exec n (Plus true (Chr p)) (x ++ String a t) c k = Some res.
Proof.
  intros Hne Hx Ha Ht Hk1 Hk2. rewrite exec_Plus_greedy.
  destruct x as [|b x]; [discriminate|]. simpl in Hx |- *.
  apply andb_prop in Hx. destruct Hx as [Hb Hx]. rewrite Hb.
  now apply star_greedy_back.
Qed.

Lemma exec_Lit_first_ne a x b t c k :
  Ascii.eqb a b = false -> exec n (Lit (String a x)) (String b t) c k = None.
Proof. intros E. destruct x; simpl; now rewrite E. Qed.

Lemma exec_op o t c k :
  is_opb o = true ->
  exec n (Alt (Lit "INSERT") (Alt (Lit "UPDATE") (Lit "DELETE"))) (o ++ t) c k
  = k t c.
Proof.
  unfold is_opb. intros H.
  apply orb_prop in H. destruct H as [H|H];
    [apply orb_prop in H; destruct H as [H|H]|];
    apply String.eqb_eq in H; subst o.
  - rewrite exec_Alt, (exec_Lit n "INSERT" t c k).
    destruct (k t c); [reflexivity|].
    rewrite exec_Alt.
    change ("INSERT" ++ t) with (String "I" ("NSERT" ++ t)).
    now rewrite !exec_Lit_first_ne by reflexivity.
  - rewrite !exec_Alt.
    change ("UPDATE" ++ t) with (String "U" ("PDATE" ++ t)) at 1.
    rewrite (exec_Lit_first_ne "I" "NSERT" "U") by reflexivity.
    rewrite (exec_Lit n "UPDATE" t c k). destruct (k t c); [reflexivity|].
    change ("UPDATE" ++ t) with (String "U" ("PDATE" ++ t)).
    now rewrite exec_Lit_first_ne by reflexivity.
  - rewrite !exec_Alt.
    change ("DELETE" ++ t) with (String "D" ("ELETE" ++ t)) at 1 2.
    rewrite (exec_Lit_first_ne "I" "NSERT" "D") by reflexivity.
    rewrite (exec_Lit_first_ne "U" "PDATE" "D") by reflexivity.
    apply (exec_Lit n "DELETE").
Qed.

End ExecForward.

Lemma consumed_nil (s : string) : consumed s "" = s.
Proof.
  rewrite <- (append_nil_r s) at 1. apply consumed_append.
Qed.

Section ExecForward2.

Variable n : nat.

Lemma exec_Char_ne a b t c k :
  Ascii.eqb a b = false -> exec n (Char a) (String b t) c k = None.
Proof. intros E. simpl. now rewrite E. Qed.

Lemma star_greedy_all p k x c res :
  Py.all_chars p x = true -> k "" c = Some res ->
  star_greedy p k x c = Some res.
Proof.
  intros Hx Hk. rewrite <- (append_nil_r x).
  now apply star_greedy_max.
Qed.

End ExecForward2.

Lemma is_opb_cases (o : string) :
  is_opb o = true -> o = "INSERT" \/ o = "UPDATE" \/ o = "DELETE".
Proof.
  unfold is_opb. intros H.
  apply orb_prop in H. destruct H as [H|H];
    [apply orb_prop in H; destruct H as [H|H]|];
    apply String.eqb_eq in H; auto.
Qed.

Lemma header_ok_inv (sch tb o : string) :
  header_ok sch tb o = true ->
  (nonempty sch = true /\ Py.all_chars not_dot sch = true
   /\ stops Py.is_space sch = true)
  /\ (nonempty tb = true /\ Py.all_chars colon_or_word tb = true)
  /\ is_opb o = true.
Proof.
  unfold header_ok. intros H.
  repeat (apply andb_prop in H; destruct H as [H ?]). auto 10.
Qed.

(** The header pattern on a well-formed line. *)
Lemma tbl_match_line (sch tb o rest : string) :
  header_ok sch tb o = true ->
  no_line_feed rest = true ->
  stops Py.is_space rest = true ->
  match_ _TBL_RE (line sch tb o rest)
  = Some [(4, rest); (3, o); (2, tb); (1, sch)].
Proof.
  intros Hh Hrest Hstop.
  destruct (header_ok_inv _ _ _ Hh) as ((Hs1 & Hs2 & Hs3) & (Ht1 & Ht2) & Ho).
  assert (Hso : stops Py.is_space (o ++ ":" ++ " " ++ rest) = true)
    by (destruct (is_opb_cases o Ho) as [->|[->| ->]]; reflexivity).
  unfold match_, _TBL_RE.
  rewrite exec_Seq, exec_Bol, Nat.eqb_refl.
  generalize (String.length (line sch tb o rest)). intros n.
  change (line sch tb o rest)
    with ("table" ++ " " ++ sch ++ String "." (tb ++ String ":" (" " ++ o
          ++ String ":" (" " ++ rest)))).
  assert (H : exec n
    (Seq (Lit "table")
    (Seq (Plus true Space)
    (Seq (Group 1 (Plus true (Not ".")))
    (Seq (Char ".")
    (Seq (Group 2 (Plus true (Chr (fun a => Ascii.eqb a ":" || Py.is_word a))))
    (Seq (Char ":")
    (Seq (Plus true Space)
    (Seq (Group 3 (Alt (Lit "INSERT") (Alt (Lit "UPDATE") (Lit "DELETE"))))
    (Seq (Char ":")
    (Seq (Plus true Space)
    (Seq (Group 4 (Star true Dot)) Eol)))))))))))
    ("table" ++ " " ++ sch ++ String "." (tb ++ String ":" (" " ++ o
          ++ String ":" (" " ++ rest)))) [] accept
    = Some ("", [(4, rest); (3, o); (2, tb); (1, sch)])).
  { rewrite exec_Seq, exec_Lit.
    rewrite exec_Seq. apply exec_Plus_max; try reflexivity.
    { now rewrite stops_append. }
    rewrite exec_Seq, exec_Group. apply exec_Plus_max; try assumption.
    { reflexivity. }
    rewrite consumed_append, exec_Seq, exec_Char.
    rewrite exec_Seq, exec_Group. apply exec_Plus_back; try assumption.
    { reflexivity. }
    { reflexivity. }
    { rewrite exec_Seq. apply exec_Char_ne. reflexivity. }
    rewrite consumed_append, exec_Seq, exec_Char.
    rewrite exec_Seq. apply exec_Plus_max; try reflexivity.
    { exact Hso. }
    rewrite exec_Seq, exec_Group, exec_op by exact Ho.
    rewrite consumed_append, exec_Seq, exec_Char.
    rewrite exec_Seq. apply exec_Plus_max; try reflexivity.
    { exact Hstop. }
    rewrite exec_Seq, exec_Group. unfold Dot. rewrite exec_Star_greedy.
    apply star_greedy_all; [exact Hrest|].
    rewrite consumed_nil. reflexivity. }
  rewrite H. reflexivity.
Qed.

(** *** The look-ahead of the column pattern *)

Lemma word_bracket_quote (x tail : string) :
  word_bracket (x ++ String "'" tail) = word_bracket x.
Proof.
  induction x as [|a x IH]; [reflexivity|].
  simpl. now rewrite IH.
Qed.

Lemma after_spaces_quote (x tail : string) :
  after_spaces (x ++ String "'" tail) = after_spaces x.
Proof.
  induction x as [|a x IH]; [reflexivity|].
  simpl. now rewrite IH, word_bracket_quote.
Qed.

Lemma token_ahead_quote (x tail : string) :
  token_ahead (x ++ String "'" tail) = token_ahead x.
Proof.
  destruct x as [|a x]; [reflexivity|].
  simpl. now rewrite after_spaces_quote.
Qed.

Lemma not_space_not_lf (a : ascii) : not_space a = true -> not_lf a = true.
Proof.
  unfold not_space, not_lf.
  destruct (Ascii.eqb_spec a Py.LF) as [->|]; [discriminate | reflexivity].
Qed.

Section Lookahead.

Variable n : nat.

Let LOOK : regex := Look (Alt ahead_token ahead_end).

Lemma word_run_none (t : string) (c : caps) (k : cont) :
  word_bracket t = false ->
  star_greedy Py.is_word (fun s' c' => exec n (Char "[") s' c' k) t c = None.
Proof.
  induction t as [|a t IH]; intros H; [reflexivity|].
  simpl in H. cbn [star_greedy]. destruct (Py.is_word a) eqn:Ha.
  - rewrite (IH H). apply exec_Char_ne. now apply word_not_bracket.
  - apply exec_Char_ne. exact H.
Qed.

Lemma space_run_none (t : string) (c : caps) (k : cont) :
  after_spaces t = false ->
  star_greedy Py.is_space
    (fun s' c' => exec n (Seq (Plus true Word) (Char "[")) s' c' k) t c
  = None.
Proof.
  assert (Hw : forall a t',
    Py.is_word a && word_bracket t' = false ->
    exec n (Seq (Plus true Word) (Char "[")) (String a t') c k = None).
  { intros a t' H. rewrite exec_Seq. unfold Word. rewrite exec_Plus_greedy.
    destruct (Py.is_word a); [|reflexivity]. now apply word_run_none. }
  induction t as [|a t IH]; intros H; [reflexivity|].
  simpl in H. cbn [star_greedy]. destruct (Py.is_space a) eqn:Ha.
  - rewrite (IH H). apply Hw. now rewrite (space_not_word a Ha).
  - now apply Hw.
Qed.

Lemma ahead_token_none (z : string) (c : caps) (k : cont) :
  token_ahead z = false -> exec n ahead_token z c k = None.
Proof.
  unfold ahead_token. rewrite exec_Seq. unfold Space. rewrite exec_Plus_greedy.
  destruct z as [|a t]; [reflexivity|]. simpl.
  destruct (Py.is_space a); [|reflexivity].
  intros H. now apply space_run_none.
Qed.

Lemma word_run_some (t : string) (c : caps) :
  word_bracket t = true ->
  exists s',
    star_greedy Py.is_word (fun s' c' => exec n (Char "[") s' c' accept) t c
    = Some (s', c).
Proof.
  induction t as [|a t IH]; intros H; [discriminate|].
  cbn [word_bracket] in H. cbn [star_greedy]. destruct (Py.is_word a) eqn:Ha.
  - destruct (IH H) as (s' & ->). eauto.
  - apply Ascii.eqb_eq in H. subst a. rewrite exec_Char. unfold accept. eauto.
Qed.

Lemma space_run_some (t : string) (c : caps) :
  after_spaces t = true ->
  exists s',
    star_greedy Py.is_space
      (fun s' c' => exec n (Seq (Plus true Word) (Char "[")) s' c' accept) t c
    = Some (s', c).
Proof.
  induction t as [|a t IH]; intros H; [discriminate|].
  cbn [after_spaces] in H. cbn [star_greedy]. destruct (Py.is_space a) eqn:Ha.
  - destruct (IH H) as (s' & ->). eauto.
  - apply andb_prop in H. destruct H as [Hw Hb].
    rewrite exec_Seq. unfold Word. rewrite exec_Plus_greedy, Hw.
    now apply word_run_some.
Qed.

Lemma ahead_token_some (z : string) (c : caps) :
  token_ahead z = true ->
  exists s', exec n ahead_token z c accept = Some (s', c).
Proof.
  unfold ahead_token. rewrite exec_Seq. unfold Space. rewrite exec_Plus_greedy.
  destruct z as [|a t]; [discriminate|]. simpl.
  destruct (Py.is_space a); [|discriminate].
  intros H. now apply space_run_some.
Qed.

(** The look-ahead holds at the end of the line and in front of a token. *)
Lemma look_some (tail : string) (c : caps) :
  tail_ok tail = true -> exec n LOOK tail c accept = Some (tail, c).
Proof.
  unfold LOOK. intros H. rewrite exec_Look, exec_Alt.
  destruct tail as [|a t]; [reflexivity|].
  destruct (ahead_token_some _ c H) as (s' & ->). reflexivity.
Qed.

Lemma ahead_end_quote (y tail : string) (c : caps) (k : cont) :
  exec n ahead_end (y ++ String "'" tail) c k = None.
Proof.
  unfold ahead_end. rewrite exec_Seq. unfold Space. rewrite exec_Star_greedy.
  induction y as [|a y IH].
  - cbn [append star_greedy]. change (Py.is_space "'") with false.
    cbv iota. destruct tail; reflexivity.
  - assert (He : exec n Eol (String a (y ++ String "'" tail)) c k = None)
      by (destruct y; reflexivity).
    change (String a y ++ String "'" tail)
      with (String a (y ++ String "'" tail)).
    cbn [star_greedy]. destruct (Py.is_space a); [|exact He].
    now rewrite IH.
Qed.

(** It fails in front of a quote that closes a value. *)
Lemma look_none_quote (y tail : string) (c : caps) (k : cont) :
  token_ahead y = false ->
  exec n LOOK (y ++ String "'" tail) c k = None.
Proof.
  unfold LOOK. intros H.
  rewrite exec_Look, exec_Alt, ahead_token_none, ahead_end_quote;
    [reflexivity | now rewrite token_ahead_quote].
Qed.

(** It fails in front of any character that is not a blank. *)
Lemma look_none_not_space (a : ascii) (t : string) (c : caps) (k : cont) :
  not_space a = true -> exec n LOOK (String a t) c k = None.
Proof.
  unfold LOOK, not_space. intros Ha. apply negb_true_iff in Ha.
  rewrite exec_Look, exec_Alt, ahead_token_none by (simpl; now rewrite Ha).
  unfold ahead_end. rewrite exec_Seq. unfold Space. rewrite exec_Star_greedy.
  cbn [star_greedy]. rewrite Ha.
  assert (He : Ascii.eqb a Py.LF = false).
  { destruct (Ascii.eqb_spec a Py.LF) as [->|]; [discriminate | reflexivity]. }
  destruct t; simpl; now rewrite ?He.
Qed.

Lemma star_lazy_hit p k s c res :
  k s c = Some res -> star_lazy p k s c = Some res.
Proof. intros H. destruct s; simpl; now rewrite H. Qed.

(** The lazy run of a quoted value stops at the closing quote when nothing
    before it looks like the start of a token. *)
Lemma lazy_quoted (F : string -> caps -> caps) (w tail : string) (c : caps) :
  value_ok w = true ->
  tail_ok tail = true ->
  star_lazy not_lf (fun s' c' => exec n LOOK s' (F s' c') accept)
            (w ++ String "'" tail) c
  = Some (tail, F tail c).
Proof.
  unfold value_ok, no_line_feed. intros H Htail. apply andb_prop in H.
  destruct H as [Hlf Htok]. induction w as [|a w IH].
  - cbn [append star_lazy].
    rewrite (look_none_quote "" tail) by reflexivity.
    change (not_lf "'") with true. cbv iota.
    apply star_lazy_hit. now apply look_some.
  - simpl in Hlf, Htok. apply andb_prop in Hlf. destruct Hlf as [Ha Hlf].
    apply andb_prop in Htok. destruct Htok as [Ht Htok].
    apply negb_true_iff in Ht.
    change (String a w ++ String "'" tail)
      with (String a (w ++ String "'" tail)).
    cbn [star_lazy].
    change (String a (w ++ String "'" tail))
      with (String a w ++ String "'" tail).
    rewrite (look_none_quote (String a w)) by (simpl; exact Ht).
    rewrite Ha. exact (IH Hlf Htok).
Qed.

(** The lazy run of a bare value stops where the value does. *)
Lemma lazy_bare (F : string -> caps -> caps) (v tail : string) (c : caps) :
  Py.all_chars not_space v = true ->
  tail_ok tail = true ->
  star_lazy not_lf (fun s' c' => exec n LOOK s' (F s' c') accept)
            (v ++ tail) c
  = Some (tail, F tail c).
Proof.
  intros Hv Htail. induction v as [|a v IH].
  - apply star_lazy_hit. now apply look_some.
  - simpl in Hv. apply andb_prop in Hv. destruct Hv as [Ha Hv].
    change (String a v ++ tail) with (String a (v ++ tail)).
    cbn [star_lazy]. rewrite (look_none_not_space a _ _ _ Ha).
    rewrite (not_space_not_lf a Ha). exact (IH Hv).
Qed.

End Lookahead.

(** *** The column pattern on the tokens of a line *)

Lemma word_not_lf (a : ascii) : Py.is_word a = true -> not_lf a = true.
Proof.
  unfold not_lf. destruct (Ascii.eqb_spec a Py.LF) as [->|]; [discriminate|].
  reflexivity.
Qed.

Lemma word_not_space (a : ascii) : Py.is_word a = true -> Py.is_space a = false.
Proof.
  intros H. destruct (Py.is_space a) eqn:E; [|reflexivity].
  rewrite (space_not_word a E) in H. discriminate.
Qed.

Lemma all_chars_impl (p q : ascii -> bool) (s : string) :
  (forall a, p a = true -> q a = true) ->
  Py.all_chars p s = true -> Py.all_chars q s = true.
Proof.
  intros Hpq. induction s as [|a s IH]; simpl; intros H; [reflexivity|].
  apply andb_prop in H. destruct H as [Ha Hs].
  now rewrite (Hpq a Ha), (IH Hs).
Qed.

Lemma column_ok_inv (k ty : string) :
  column_ok k ty = true ->
  (nonempty k = true /\ Py.all_chars Py.is_word k = true)
  /\ (nonempty ty = true /\ Py.all_chars not_rbracket ty = true
      /\ no_line_feed ty = true).
Proof.
  unfold column_ok. intros H.
  repeat (apply andb_prop in H; destruct H as [H ?]). auto 10.
Qed.

Lemma bare_ok_inv (v : string) :
  bare_ok v = true ->
  exists a v', v = String a v' /\ not_space a = true
               /\ Py.all_chars not_space v' = true
               /\ Ascii.eqb a "'" = false.
Proof.
  unfold bare_ok. intros H.
  repeat (apply andb_prop in H; destruct H as [H ?]).
  destruct v as [|a v']; [discriminate|].
  simpl in H1. apply andb_prop in H1. destruct H1 as [Ha Hv].
  exists a, v'. repeat split; auto.
  unfold Py.first, Py.opt_is in H0. cbn [String.get] in H0.
  now apply negb_true_iff in H0.
Qed.

(** The column pattern matches one token and stops in front of what
    follows it. *)
Lemma kv_exec_token (n : nat) (t : Token) (tail : string) :
  token_ok t = true ->
  tail_ok tail = true ->
  exec n _KV_RE (token_text t ++ tail) [] accept = Some (tail, token_caps t).
Proof.
  destruct t as [k ty v]. unfold token_ok, token_text, token_caps.
  cbn [tok_name tok_type tok_value]. intros H Htail.
  apply andb_prop in H. destruct H as [Hc Hv].
  destruct (column_ok_inv _ _ Hc) as ((Hk1 & Hk2) & (Ht1 & Ht2 & Ht3)).
  replace ((k ++ "[" ++ ty ++ "]:" ++ raw_value v) ++ tail)
    with (k ++ String "[" (ty ++ String "]" (String ":" (raw_value v ++ tail))))
    by (now rewrite !append_assoc).
  unfold _KV_RE.
  rewrite exec_Seq, exec_Group. apply exec_Plus_max; try assumption.
  { reflexivity. }
  rewrite consumed_append, exec_Seq, exec_Char.
  rewrite exec_Seq. apply exec_Plus_max; try assumption.
  { reflexivity. }
  rewrite exec_Seq, exec_Char, exec_Seq, exec_Char.
  rewrite exec_Seq, exec_Group, exec_Seq.
  fold ahead_token. fold ahead_end. unfold NotSpace, Dot.
  destruct v as [v|w]; cbn [raw_value].
  - destruct (bare_ok_inv v Hv) as (a & v' & -> & Ha & Hv' & _).
    change (String a v' ++ tail) with (String a (v' ++ tail)).
    rewrite exec_Chr. cbv beta. fold (not_space a). rewrite Ha.
    rewrite exec_Star_lazy.
    etransitivity;
      [exact (lazy_bare n
                (fun s' c' => (2, consumed (String a (v' ++ tail)) s') :: c')
                v' tail [(1, k)] Hv' Htail)|].
    cbv beta. now rewrite consumed_cons.
  - replace (("'" ++ w ++ "'") ++ tail) with (String "'" (w ++ String "'" tail))
      by (simpl; now rewrite append_assoc).
    rewrite exec_Chr. cbv beta. change (negb (Py.is_space "'")) with true.
    cbv iota. rewrite exec_Star_lazy.
    etransitivity;
      [exact (lazy_quoted n
                (fun s' c' =>
                   (2, consumed (String "'" (w ++ String "'" tail)) s') :: c')
                w tail [(1, k)] Hv Htail)|].
    cbv beta.
    replace (String "'" (w ++ String "'" tail)) with (("'" ++ w ++ "'") ++ tail)
      by (simpl; now rewrite append_assoc).
    now rewrite consumed_append.
Qed.

Lemma search_hit (n : nat) (r : regex) (s : string) (res : string * caps) :
  exec n r s [] accept = Some res -> search n r s = Some res.
Proof. intros H. destruct s; simpl; now rewrite H. Qed.

Lemma search_skip_blank (n : nat) (s : string) :
  search n _KV_RE (String " " s) = search n _KV_RE s.
Proof. reflexivity. Qed.

Lemma token_text_shape (t : Token) :
  token_ok t = true ->
  exists a x, token_text t = String a x /\ Py.is_word a = true.
Proof.
  destruct t as [k ty v]. unfold token_ok, token_text.
  cbn [tok_name tok_type tok_value]. intros H.
  apply andb_prop in H. destruct H as [Hc _].
  destruct (column_ok_inv _ _ Hc) as ((Hk1 & Hk2) & _).
  destruct k as [|a k]; [discriminate|]. simpl in Hk2.
  apply andb_prop in Hk2. destruct Hk2 as [Ha _].
  exists a, (k ++ "[" ++ ty ++ "]:" ++ raw_value v). auto.
Qed.

Lemma word_bracket_name (k x : string) :
  Py.all_chars Py.is_word k = true -> word_bracket (k ++ String "[" x) = true.
Proof.
  induction k as [|a k IH]; simpl; intros H; [reflexivity|].
  apply andb_prop in H. destruct H as [Ha Hk]. now rewrite Ha, IH.
Qed.

(** A blank and a token make what may follow a value. *)
Lemma tail_ok_token (t : Token) (x : string) :
  token_ok t = true -> tail_ok (String " " (token_text t ++ x)) = true.
Proof.
  destruct t as [k ty v]. unfold token_ok, token_text.
  cbn [tok_name tok_type tok_value]. intros H.
  apply andb_prop in H. destruct H as [Hc _].
  destruct (column_ok_inv _ _ Hc) as ((Hk1 & Hk2) & _).
  cbn [tail_ok token_ahead]. change (Py.is_space " ") with true.
  cbn [andb]. rewrite !append_assoc.
  destruct k as [|a k]; [discriminate|].
  assert (Hk2' := Hk2). simpl in Hk2. apply andb_prop in Hk2.
  destruct Hk2 as [Ha Hk].
  change ((String a k ++ "[" ++ ty ++ "]:" ++ raw_value v ++ x))
    with (String a (k ++ String "[" (ty ++ "]:" ++ raw_value v ++ x))).
  cbn [after_spaces]. rewrite (word_not_space a Ha), Ha.
  now rewrite word_bracket_name.
Qed.

Lemma tokens_text_cons (t t' : Token) (ts : list Token) :
  tokens_text (t :: t' :: ts)
  = token_text t ++ String " " (tokens_text (t' :: ts)).
Proof. reflexivity. Qed.

(** [finditer] meets the tokens of a line one after the other. *)
Lemma scan_tokens (n : nat) (ts : list Token) :
  forallb token_ok ts = true ->
  ts <> [] ->
  forall (fuel : nat) (blank : bool),
    String.length
      (if blank then String " " (tokens_text ts) else tokens_text ts) < fuel ->
    scan n fuel _KV_RE
         (if blank then String " " (tokens_text ts) else tokens_text ts)
    = map token_caps ts.
Proof.
  induction ts as [|t ts IH]; intros Hok Hne fuel blank Hfuel;
    [contradiction|].
  cbn [forallb] in Hok. apply andb_prop in Hok. destruct Hok as [Ht Hts].
  destruct fuel as [|fuel]; [lia|].
  destruct (token_text_shape t Ht) as (a & x & Ea & Ha).
  destruct ts as [|t' ts].
  - assert (Hex := kv_exec_token n t "" Ht eq_refl).
    rewrite append_nil_r in Hex.
    change (tokens_text [t]) with (token_text t) in *.
    assert (Hs : search n _KV_RE
                   (if blank then String " " (token_text t) else token_text t)
                 = Some ("", token_caps t)).
    { destruct blank; [rewrite search_skip_blank|]; now apply search_hit. }
    cbn [scan]. rewrite Hs.
    replace (String.length "" <?
             String.length
               (if blank then String " " (token_text t) else token_text t))%nat
      with true by (rewrite Ea; destruct blank; reflexivity).
    destruct fuel; reflexivity.
  - rewrite tokens_text_cons in *.
    assert (Htail : tail_ok (String " " (tokens_text (t' :: ts))) = true).
    { cbn [forallb] in Hts. apply andb_prop in Hts. destruct Hts as [Ht' _].
      destruct ts as [|t'' ts].
      - rewrite <- (append_nil_r (tokens_text [t'])).
        now apply tail_ok_token.
      - rewrite tokens_text_cons. now apply tail_ok_token. }
    assert (Hex := kv_exec_token n t _ Ht Htail).
    assert (Hs : search n _KV_RE
                   (if blank
                    then String " "
                           (token_text t ++ String " " (tokens_text (t' :: ts)))
                    else token_text t ++ String " " (tokens_text (t' :: ts)))
                 = Some (String " " (tokens_text (t' :: ts)), token_caps t)).
    { destruct blank; [rewrite search_skip_blank|]; now apply search_hit. }
    assert (Hlt : String.length (String " " (tokens_text (t' :: ts)))
                  < String.length
                      (if blank
                       then String " "
                              (token_text t
                               ++ String " " (tokens_text (t' :: ts)))
                       else token_text t ++ String " " (tokens_text (t' :: ts)))).
    { rewrite Ea. destruct blank; cbn [String.length append];
        rewrite ?length_append; cbn [String.length]; lia. }
    cbn [scan]. rewrite Hs. rewrite (proj2 (Nat.ltb_lt _ _) Hlt).
    cbn [map]. f_equal.
    apply (IH Hts ltac:(discriminate) fuel true). lia.
Qed.

Lemma finditer_tokens (ts : list Token) :
  forallb token_ok ts = true ->
  ts <> [] ->
  finditer _KV_RE (tokens_text ts) = map token_caps ts.
Proof.
  intros Hok Hne. unfold finditer.
  apply (scan_tokens _ ts Hok Hne _ false). lia.
Qed.

(** *** Values *)

Lemma rstrip_end (x : string) (a : ascii) :
  Py.is_space a = false -> Py.rstrip (x ++ String a "") = x ++ String a "".
Proof.
  intros Ha. induction x as [|b x IH]; simpl.
  - now rewrite Ha.
  - rewrite IH. destruct x; reflexivity.
Qed.

Lemma get_end (x : string) (a : ascii) :
  String.get (String.length x) (x ++ String a "") = Some a.
Proof. induction x as [|b x IH]; [reflexivity | exact IH]. Qed.

(** Lines 37-39 on a value between quotes: the quotes go, the text
    between them stays as it is. *)
Lemma clean_value_quoted (w : string) : clean_value ("'" ++ w ++ "'") = w.
Proof.
  unfold clean_value, Py.strip.
  change ("'" ++ w ++ "'") with (String "'" (w ++ "'")).
  cbn [Py.lstrip]. change (Py.is_space "'") with false. cbv iota.
  change (String "'" (w ++ "'")) with ((String "'" w) ++ String "'" "").
  rewrite rstrip_end by reflexivity.
  unfold Py.first, Py.last, Py.slice_1_m1.
  rewrite length_append. cbn [String.length].
  replace (S (String.length w) + 1 - 1) with (String.length (String "'" w))
    by (cbn [String.length]; lia).
  rewrite get_end.
  replace (S (String.length w) + 1 - 2) with (String.length w) by lia.
  replace (2 <=? S (String.length w) + 1)%nat with true
    by (symmetry; apply Nat.leb_le; lia).
  cbn. apply substring_0_append.
Qed.

(** *** Whole lines *)

Lemma rstrip_id (s : string) : ends_nonspace s = true -> Py.rstrip s = s.
Proof.
  induction s as [|a s IH]; [discriminate|].
  destruct s as [|b s].
  - simpl. intros H. apply negb_true_iff in H. now rewrite H.
  - intros H. change (ends_nonspace (String a (String b s)))
      with (ends_nonspace (String b s)) in H.
    change (Py.rstrip (String a (String b s)))
      with (match Py.rstrip (String b s) with
            | EmptyString =>
                if Py.is_space a then EmptyString else String a EmptyString
            | t' => String a t'
            end).
    now rewrite (IH H).
Qed.

Lemma ends_nonspace_append (x y : string) :
  nonempty y = true -> ends_nonspace (x ++ y) = ends_nonspace y.
Proof.
  intros Hy. induction x as [|a x IH]; [reflexivity|].
  change (String a x ++ y) with (String a (x ++ y)).
  destruct (x ++ y) as [|b z] eqn:E.
  - destruct x; [|discriminate]. simpl in E. subst y. discriminate.
  - exact IH.
Qed.

Lemma ends_nonspace_all (v : string) :
  nonempty v = true -> Py.all_chars not_space v = true ->
  ends_nonspace v = true.
Proof.
  induction v as [|a v IH]; [discriminate|]. intros _ H.
  simpl in H. apply andb_prop in H. destruct H as [Ha Hv].
  destruct v as [|b v]; [exact Ha|]. now apply IH.
Qed.

Lemma raw_value_ends (t : Token) :
  token_ok t = true ->
  nonempty (raw_value (tok_value t)) = true
  /\ ends_nonspace (raw_value (tok_value t)) = true
  /\ no_line_feed (raw_value (tok_value t)) = true
  /\ clean_value (raw_value (tok_value t)) = decoded_value (tok_value t).
Proof.
  destruct t as [k ty [v|w]]; unfold token_ok;
    cbn [tok_name tok_type tok_value raw_value decoded_value]; intros H;
    apply andb_prop in H; destruct H as [_ Hv].
  - destruct (bare_ok_inv v Hv) as (a & v' & -> & Ha & Hv' & Hq).
    assert (Hall : Py.all_chars not_space (String a v') = true)
      by (simpl; now rewrite Ha, Hv').
    assert (Hend : ends_nonspace (String a v') = true)
      by (now apply ends_nonspace_all).
    repeat split; auto.
    + exact (all_chars_impl _ _ _ not_space_not_lf Hall).
    + unfold clean_value, Py.strip. cbn [Py.lstrip].
      unfold not_space in Ha. apply negb_true_iff in Ha. rewrite Ha.
      rewrite (rstrip_id _ Hend).
      unfold Py.first. cbn [String.get Py.opt_is]. rewrite Hq.
      now rewrite andb_false_r.
  - unfold value_ok in Hv. apply andb_prop in Hv. destruct Hv as [Hlf _].
    repeat split.
    + change ("'" ++ w ++ "'") with (String "'" w ++ "'").
      now rewrite ends_nonspace_append.
    + change ("'" ++ w ++ "'") with (String "'" "" ++ w ++ "'").
      now rewrite !no_line_feed_append, Hlf.
    + apply clean_value_quoted.
Qed.

Lemma token_text_facts (t : Token) :
  token_ok t = true ->
  ends_nonspace (token_text t) = true
  /\ no_line_feed (token_text t) = true
  /\ stops Py.is_space (token_text t) = true.
Proof.
  intros H. destruct (raw_value_ends t H) as (Hne & Hend & Hlf & _).
  destruct (token_text_shape t H) as (a & x & Ea & Ha).
  destruct t as [k ty v]. unfold token_ok in H.
  cbn [tok_name tok_type tok_value] in *.
  apply andb_prop in H. destruct H as [Hc _].
  destruct (column_ok_inv _ _ Hc) as ((Hk1 & Hk2) & (Ht1 & Ht2 & Ht3)).
  repeat split.
  - unfold token_text. cbn [tok_name tok_type tok_value].
    rewrite <- !append_assoc. now rewrite ends_nonspace_append.
  - unfold token_text. cbn [tok_name tok_type tok_value].
    rewrite !no_line_feed_append, Ht3, Hlf.
    unfold no_line_feed at 1. now rewrite (all_chars_impl _ _ k word_not_lf Hk2).
  - rewrite Ea. simpl. now rewrite (word_not_space a Ha).
Qed.

Lemma tokens_text_facts (ts : list Token) :
  forallb token_ok ts = true ->
  ts <> [] ->
  ends_nonspace (tokens_text ts) = true
  /\ no_line_feed (tokens_text ts) = true
  /\ stops Py.is_space (tokens_text ts) = true.
Proof.
  induction ts as [|t ts IH]; intros Hok Hne; [contradiction|].
  cbn [forallb] in Hok. apply andb_prop in Hok. destruct Hok as [Ht Hts].
  destruct (token_text_facts t Ht) as (H1 & H2 & H3).
  destruct ts as [|t' ts]; [auto|].
  destruct (IH Hts ltac:(discriminate)) as (I1 & I2 & I3).
  rewrite tokens_text_cons. repeat split.
  - rewrite ends_nonspace_append by reflexivity.
    destruct (tokens_text (t' :: ts)) eqn:E; [discriminate I1 | exact I1].
  - change (String " " (tokens_text (t' :: ts)))
      with (" " ++ tokens_text (t' :: ts)).
    now rewrite !no_line_feed_append, H2, I2.
  - destruct (token_text_shape t Ht) as (a & x & Ea & Ha).
    rewrite stops_append by (now rewrite Ea). exact H3.
Qed.

Lemma strip_line (sch tb o rest : string) :
  ends_nonspace rest = true ->
  Py.strip (line sch tb o rest) = line sch tb o rest.
Proof.
  intros H. unfold Py.strip.
  assert (Hl : Py.lstrip (line sch tb o rest) = line sch tb o rest)
    by reflexivity.
  rewrite Hl. apply rstrip_id. unfold line.
  assert (Hne : nonempty rest = true) by (destruct rest; [discriminate | auto]).
  rewrite <- !append_assoc. now rewrite ends_nonspace_append.
Qed.

Lemma fold_token_caps (ts : list Token) (acc : list (string * string)) :
  forallb token_ok ts = true ->
  fold_left
    (fun cols km => dict_set cols (group km 1) (clean_value (group km 2)))
    (map token_caps ts) acc
  = fold_left set_token ts acc.
Proof.
  revert acc. induction ts as [|t ts IH]; intros acc Hok; [reflexivity|].
  cbn [forallb] in Hok. apply andb_prop in Hok. destruct Hok as [Ht Hts].
  destruct (raw_value_ends t Ht) as (_ & _ & _ & Hc).
  cbn [map fold_left].
  change (group (token_caps t) 1) with (tok_name t).
  change (group (token_caps t) 2) with (raw_value (tok_value t)).
  rewrite Hc. exact (IH _ Hts).

Qed.

(** The decoder on a well-formed line: the header names and the columns
    of the tokens, in the order of the line. *)
Lemma parse_line (sch tb o : string) (ts : list Token) :
  header_ok sch tb o = true ->
  forallb token_ok ts = true ->
  ts <> [] ->
  parse_test_decoding_row (line sch tb o (tokens_text ts))
  = Some (mkParsed sch tb o (decoded_cols ts)).
Proof.
  intros Hh Hok Hne.
  destruct (tokens_text_facts ts Hok Hne) as (Hend & Hlf & Hst).
  unfold parse_test_decoding_row.
  rewrite (strip_line _ _ _ _ Hend), (tbl_match_line sch tb o _ Hh Hlf Hst).
  cbn [group Nat.eqb]. rewrite (finditer_tokens ts Hok Hne).
  now rewrite fold_token_caps.
Qed.




(* ================================================================= *)
(** ** The filter *)

Section Filter.

Variables ts target_schema target_table : string.

Let step := process_row ts target_schema target_table.

Lemma process_row_acc (out : list OutRow) (r : RawRow) :
  step out r = (out ++ step [] r)%list.
Proof.
  unfold step, process_row.
  destruct (parse_test_decoding_row (data r)) as [parsed|];
    [|now rewrite app_nil_r].
  destruct (_ && _); [reflexivity | now rewrite app_nil_r].
Qed.

Lemma fold_process_row (rows : list RawRow) (acc : list OutRow) :
  fold_left step rows acc = (acc ++ flat_map (step []) rows)%list.
Proof.
  revert acc. induction rows as [|r rows IH]; intros acc; simpl.
  - now rewrite app_nil_r.
  - rewrite IH, (process_row_acc acc r), <- app_assoc. reflexivity.
Qed.

Lemma collect_flat_map (rows : list RawRow) :
  collect ts target_schema target_table rows
  = flat_map (step []) rows.
Proof. unfold collect. fold step. now rewrite fold_process_row. Qed.

Lemma collect_app (xs ys : list RawRow) :
  collect ts target_schema target_table (xs ++ ys)
  = (collect ts target_schema target_table xs
     ++ collect ts target_schema target_table ys)%list.
Proof. rewrite !collect_flat_map. apply flat_map_app. Qed.

Lemma step_target (r : RawRow) :
  is_target target_schema target_table r = true ->
  exists o, captured ts r = Some o /\ step [] r = [o].
Proof.
  unfold is_target, captured, step, process_row.
  destruct (parse_test_decoding_row (data r)) as [parsed|]; [|discriminate].
  intros ->. eexists. split; reflexivity.
Qed.

Lemma step_other (r : RawRow) :
  is_target target_schema target_table r = false -> step [] r = [].
Proof.
  unfold is_target, step, process_row.
  destruct (parse_test_decoding_row (data r)) as [parsed|]; [|reflexivity].
  intros ->. reflexivity.
Qed.

(** The loop keeps exactly the entries of the target table, in the order
    of the input. *)
Lemma collect_hits (rows : list RawRow) :
  map Some (collect ts target_schema target_table rows)
  = map (captured ts)
        (filter (is_target target_schema target_table) rows).
Proof.
  rewrite collect_flat_map.
  induction rows as [|r rows IH]; [reflexivity|].
  simpl. destruct (is_target target_schema target_table r) eqn:E.
  - destruct (step_target r E) as (o & Ho & ->). simpl.
    rewrite IH, Ho. reflexivity.
  - rewrite (step_other r E). exact IH.
Qed.

Lemma collect_length (rows : list RawRow) :
  List.length (collect ts target_schema target_table rows)
  = List.length (filter (is_target target_schema target_table) rows).
Proof.
  rewrite <- (length_map Some), collect_hits. apply length_map.
Qed.

Lemma collect_capture_ts (rows : list RawRow) :
  Forall (fun o => capture_ts o = ts)
         (collect ts target_schema target_table rows).
Proof.
  rewrite collect_flat_map. apply Forall_flat_map.
  apply Forall_forall. intros r _. unfold step, process_row.
  destruct (parse_test_decoding_row (data r)) as [parsed|]; [|constructor].
  destruct (_ && _); constructor; [reflexivity | constructor].
Qed.

End Filter.

(* ================================================================= *)
(** ** Runs of the pipeline *)

Lemma rebuild_rows (res acc : list RawRow) :
  fold_left (fun rows r => rows ++ [mkRawRow (lsn r) (xid r) (data r)])%list
            res acc
  = (acc ++ res)%list.
Proof.
  revert acc. induction res as [|r res IH]; intros acc; simpl.
  - now rewrite app_nil_r.
  - rewrite IH, <- app_assoc. destruct r. reflexivity.
Qed.

Lemma fetch_run (slot_name : string) (limit : Z) (w : World) :
  fetch_cdc_changes slot_name limit w
  = (match db_answer w (fetch_query slot_name limit) with
     | Some rows => Ok rows
     | None => Raise DatabaseError
     end,
     mkWorld (clock w) (ticks w) (db_answer w)
             (queries w ++ [fetch_query slot_name limit])
             (sink_accepts w) (puts w) (stdout w)).
Proof.
  unfold fetch_cdc_changes, bind, execute, ret. fold (fetch_query slot_name limit).
  destruct (db_answer w (fetch_query slot_name limit)) as [rows|];
    [|reflexivity].
  now rewrite rebuild_rows.
Qed.

Lemma process_run (raw_rows : list RawRow) (target_schema target_table : string)
  (w : World) :
  process_cdc_for_cliente raw_rows target_schema target_table w
  = (Ok (to_frame (collect (isoformat (clock w (ticks w)))
                           target_schema target_table raw_rows)),
     tick w).
Proof. reflexivity. Qed.

Lemma write_run (bucket base_path : string) (df : DataFrame) (prefix : string)
  (w : World) :
  write_csv_to_minio bucket base_path df prefix w
  = let call := put_of bucket base_path df prefix (clock w (ticks w)) in
    (if sink_accepts w call then Ok (object_name call) else Raise S3Error,
     mkWorld (clock w) (S (ticks w)) (db_answer w) (queries w)
             (sink_accepts w) (puts w ++ [call]) (stdout w)).
Proof.
  unfold write_csv_to_minio, bind, now, put_object, ret, put_of, destination.
  simpl. destruct (sink_accepts w _); reflexivity.
Qed.

Lemma to_frame_empty (out : list OutRow) :
  df_empty (to_frame out) = match out with [] => true | _ :: _ => false end.
Proof. destruct out; reflexivity. Qed.

Section MainRuns.

Variable cfg : Config.
Variable w : World.
Variable rows : list RawRow.

Let q := fetch_query (CDC_SLOT_NAME cfg) (CDC_BATCH_LIMIT cfg).
Let hits := filter (is_target (PGSCHEMA cfg) TARGET_TABLE) rows.
Let out :=
  collect (isoformat (clock w (ticks w))) (PGSCHEMA cfg) TARGET_TABLE rows.

Hypothesis answer : db_answer w q = Some rows.

Lemma main_unfold :
  main cfg w
  = match rows with
    | [] =>
        (Ok tt,
         mkWorld (clock w) (ticks w) (db_answer w) (queries w ++ [q])
                 (sink_accepts w) (puts w)
                 ((stdout w ++ [msg_consuming cfg]) ++ [msg_no_changes]))
    | _ :: _ =>
        match out with
        | [] =>
            (Ok tt,
             mkWorld (clock w) (S (ticks w)) (db_answer w) (queries w ++ [q])
                     (sink_accepts w) (puts w)
                     ((stdout w ++ [msg_consuming cfg]) ++ [msg_no_target]))
        | _ :: _ =>
            let call :=
              put_of BUCKET_NAME RAW_INC_BASE_PATH (frame out) "cliente_cdc"
                     (clock w (S (ticks w))) in
            (if sink_accepts w call then Ok tt else Raise S3Error,
             mkWorld (clock w) (S (S (ticks w))) (db_answer w)
                     (queries w ++ [q]) (sink_accepts w) (puts w ++ [call])
                     (if sink_accepts w call
                      then (stdout w ++ [msg_consuming cfg])
                           ++ [msg_written (object_name call)
                                           (List.length out)]
                      else stdout w ++ [msg_consuming cfg]))
        end
    end%list.
Proof.
  unfold main. unfold bind at 1. unfold print at 1. cbv beta iota.
  unfold bind at 1. rewrite fetch_run.
  cbn [clock ticks db_answer queries sink_accepts puts stdout].
  fold q. rewrite answer. cbv beta iota.
  destruct rows as [|r0 rows0]; [reflexivity|].
  unfold bind at 1. rewrite process_run.
  cbn [tick clock ticks db_answer queries sink_accepts puts stdout].
  fold out. cbv beta iota.
  rewrite to_frame_empty. destruct out as [|o0 out0]; [reflexivity|].
  unfold bind at 1. rewrite write_run.
  cbn [tick clock ticks db_answer queries sink_accepts puts stdout to_frame].
  cbv zeta.
  destruct (sink_accepts w _) eqn:Hacc; [|reflexivity].
  unfold print.
  replace (df_len (frame (o0 :: out0))) with (List.length (o0 :: out0))
    by (unfold df_len, frame; cbn [df_values]; now rewrite length_map).
  reflexivity.
Qed.

Lemma out_nil_iff : out = [] <-> hits = [].
Proof.
  rewrite <- !length_zero_iff_nil. unfold out, hits.
  now rewrite collect_length.
Qed.

(** Entries of the target table: one put, by the second reading of the
    clock. *)
Lemma main_run_hits :
  hits <> [] ->
  let call := put_of BUCKET_NAME RAW_INC_BASE_PATH (frame out) "cliente_cdc"
                     (clock w (S (ticks w))) in
  main cfg w
  = (if sink_accepts w call then Ok tt else Raise S3Error,
     mkWorld (clock w) (S (S (ticks w))) (db_answer w) (queries w ++ [q])
             (sink_accepts w) (puts w ++ [call])
             (if sink_accepts w call
              then (stdout w ++ [msg_consuming cfg])
                   ++ [msg_written (object_name call) (List.length out)]
              else stdout w ++ [msg_consuming cfg])%list).
Proof.
  intros Hhits call. rewrite main_unfold.
  assert (Hout : out <> []) by (rewrite out_nil_iff; exact Hhits).
  assert (Hrows : rows <> []).
  { intros E. apply Hhits. unfold hits. now rewrite E. }
  destruct rows; [contradiction|]. destruct out; [contradiction|].
  reflexivity.
Qed.

(** No entry of the target table: nothing is put. *)
Lemma main_run_no_hits :
  hits = [] ->
  main cfg w
  = (Ok tt,
     mkWorld (clock w) (match rows with [] => ticks w | _ => S (ticks w) end)
             (db_answer w) (queries w ++ [q]) (sink_accepts w) (puts w)
             ((stdout w ++ [msg_consuming cfg])
              ++ [match rows with
                  | [] => msg_no_changes
                  | _ :: _ => msg_no_target
                  end])%list).
Proof.
  intros Hhits. rewrite main_unfold.
  apply out_nil_iff in Hhits. rewrite Hhits.
  destruct rows; reflexivity.
Qed.

End MainRuns.

(* ================================================================= *)
(** ** The fetch *)

(** C8 (as amended): every fetch sends one statement, the call of
    [pg_logical_slot_get_changes] with the option ['skip-empty-xacts'] set to
    ['1'] (on) and the option ['include-xids'] set to ['0'] (off). *)
Theorem C8_fetch_options (slot_name : string) (limit : Z) (w : World) :
  queries (after (fetch_cdc_changes slot_name limit) w)
  = (queries w ++ [fetch_query slot_name limit])%list
  /\ plugin_options (fetch_query slot_name limit)
     = [("include-xids", "0"); ("skip-empty-xacts", "1")]
  /\ plugin_flag (fetch_query slot_name limit) "skip-empty-xacts" = Some true
  /\ plugin_flag (fetch_query slot_name limit) "include-xids" = Some false.
Proof.
  unfold after. rewrite fetch_run. repeat split.
Qed.

(** C8 (as stated) fails: the statement of a fetch from the default slot
    does not ask for transaction ids. *)
Lemma C8_include_xids_counterexample :
  map (fun q => plugin_flag q "include-xids")
      (queries (after (fetch_cdc_changes "data_sync_slot" 1000) sample_world))
  = [Some false].
Proof. vm_compute. reflexivity. Qed.

(* ================================================================= *)
(** ** The filter and its timestamp *)

(** C6: an entry that decodes to another schema or another table, compared
    as exact strings, adds no record: the frame is the one built without
    that entry. *)
Theorem C6_other_table_dropped (target_schema target_table : string)
  (pre post : list RawRow) (r : RawRow) (parsed : Parsed) (w : World) :
  parse_test_decoding_row (data r) = Some parsed ->
  (schema parsed, table parsed) <> (target_schema, target_table) ->
  process_row (isoformat (clock w (ticks w))) target_schema target_table [] r
  = []
  /\ outcome (process_cdc_for_cliente (pre ++ r :: post)
                target_schema target_table) w
     = outcome (process_cdc_for_cliente (pre ++ post)
                  target_schema target_table) w.
Proof.
  intros Hp Hne.
  assert (Hr : forall ts, process_row ts target_schema target_table [] r = []).
  { intros ts. unfold process_row. rewrite Hp.
    destruct (String.eqb_spec (schema parsed) target_schema) as [E1|];
      [|reflexivity].
    destruct (String.eqb_spec (table parsed) target_table) as [E2|];
      [|reflexivity].
    exfalso. apply Hne. now rewrite E1, E2. }
  split; [apply Hr|].
  unfold outcome. rewrite !process_run. cbn [fst].
  rewrite !collect_app.
  change (r :: post) with ([r] ++ post)%list. rewrite collect_app.
  unfold collect at 2. cbn [fold_left]. now rewrite Hr.
Qed.

Lemma C6_other_table_dropped_witness :
  let r := mkRawRow "0/16B3748" 742
             "table db_loja.Cliente: INSERT: id[integer]:1 name[text]:'Ana'" in
  let parsed := mkParsed "db_loja" "Cliente" "INSERT"
                         [("id", "1"); ("name", "Ana")] in
  parse_test_decoding_row (data r) = Some parsed
  /\ (schema parsed, table parsed) <> ("db_loja", "cliente")
  /\ outcome (process_cdc_for_cliente ([] ++ r :: sample_rows)
                "db_loja" "cliente") sample_world
     = outcome (process_cdc_for_cliente ([] ++ sample_rows)
                  "db_loja" "cliente") sample_world.
Proof.
  intros r parsed.
  assert (Hp : parse_test_decoding_row (data r) = Some parsed)
    by (vm_compute; reflexivity).
  assert (Hne : (schema parsed, table parsed) <> ("db_loja", "cliente"))
    by discriminate.
  split; [exact Hp|]. split; [exact Hne|].
  exact (proj2 (C6_other_table_dropped "db_loja" "cliente" [] sample_rows r
                  parsed sample_world Hp Hne)).
Defined.

(** C9: one run of the filter reads the clock once, before the loop, and
    every record it produces carries that reading as its capture_ts. *)
Theorem C9_one_capture_ts_per_batch (raw_rows : list RawRow)
  (target_schema target_table : string) (w : World) :
  let ts := isoformat (clock w (ticks w)) in
  let out := collect ts target_schema target_table raw_rows in
  outcome (process_cdc_for_cliente raw_rows target_schema target_table) w
  = Ok (to_frame out)
  /\ Forall (fun o => capture_ts o = ts) out
  /\ ticks (after (process_cdc_for_cliente raw_rows target_schema target_table) w)
     = S (ticks w).
Proof.
  intros ts out. unfold outcome, after. rewrite process_run.
  repeat split. apply collect_capture_ts.
Qed.

(* ================================================================= *)
(** ** The writer *)

Lemma encode_utf8_append (s t : string) :
  encode_utf8 (s ++ t) = (encode_utf8 s ++ encode_utf8 t)%list.
Proof.
  induction s as [|a s IH]; [reflexivity|].
  simpl. now rewrite IH, app_assoc.
Qed.

Lemma starts_with_app (p l : list byte) : starts_with p (p ++ l) = true.
Proof.
  induction p as [|x p IH]; [reflexivity|].
  simpl. now rewrite IH, (Byte.byte_dec_lb (eq_refl x)).
Qed.

Lemma to_csv_frame (out : list OutRow) :
  to_csv (frame out)
  = header_line ++ String Py.LF (Csv.writerows (map cells out)).
Proof. reflexivity. Qed.

(** C1 (as amended): for every non-empty batch, the bytes put in the
    object store begin with the header row [capture_ts,lsn,op,columns]
    and its line feed, a batch of one record included. *)
Theorem C1_csv_header_first (bucket base_path prefix : string)
  (o : OutRow) (out : list OutRow) (w : World) :
  exists call,
    puts (after (write_csv_to_minio bucket base_path (to_frame (o :: out))
                   prefix) w)
    = (puts w ++ [call])%list
    /\ starts_with (encode_utf8 (header_line ++ String Py.LF ""))
                   (put_data call) = true.
Proof.
  unfold after. rewrite write_run. cbv zeta. cbn [snd puts].
  eexists. split; [reflexivity|].
  unfold put_of. cbn [put_data to_frame]. rewrite to_csv_frame.
  change (header_line ++ String Py.LF (Csv.writerows (map cells (o :: out))))
    with ((header_line ++ String Py.LF "")
          ++ Csv.writerows (map cells (o :: out))).
  rewrite (encode_utf8_append (header_line ++ String Py.LF "")
             (Csv.writerows (map cells (o :: out)))).
  apply starts_with_app.
Qed.

(** C1 (as stated) fails: the header of the object written for the sample
    batch of one record does not name a column [log_position]. *)
Lemma C1_log_position_counterexample :
  map (fun call =>
         (List.length (byte_lines (put_data call)),
          starts_with (encode_utf8 "capture_ts,log_position,op,columns")
                      (put_data call)))
      (puts (after (main default_config) sample_world))
  = [(2, false)].
Proof. vm_compute. reflexivity. Qed.

(** C7 (as amended): when no entry of the batch belongs to the target
    table the driver does not call the writer: no object is put, and the
    cycle prints its two messages, none of which names a destination. *)
Theorem C7_no_records_no_put (cfg : Config) (w : World) (rows : list RawRow) :
  db_answer w (fetch_query (CDC_SLOT_NAME cfg) (CDC_BATCH_LIMIT cfg))
  = Some rows ->
  filter (is_target (PGSCHEMA cfg) TARGET_TABLE) rows = [] ->
  outcome (main cfg) w = Ok tt
  /\ puts (after (main cfg) w) = puts w
  /\ stdout (after (main cfg) w)
     = (stdout w
        ++ [msg_consuming cfg;
            match rows with [] => msg_no_changes | _ :: _ => msg_no_target end])%list.
Proof.
  intros Hdb Hhits. unfold outcome, after.
  rewrite (main_run_no_hits cfg w rows Hdb Hhits). cbn [fst snd puts stdout].
  repeat split. now rewrite <- app_assoc.
Qed.

Lemma C7_no_records_no_put_witness :
  db_answer other_world
    (fetch_query (CDC_SLOT_NAME default_config) (CDC_BATCH_LIMIT default_config))
  = Some other_rows
  /\ filter (is_target (PGSCHEMA default_config) TARGET_TABLE) other_rows = []
  /\ (outcome (main default_config) other_world = Ok tt
      /\ puts (after (main default_config) other_world) = []
      /\ stdout (after (main default_config) other_world)
         = [msg_consuming default_config; msg_no_target]).
Proof.
  assert (H1 : db_answer other_world
                 (fetch_query (CDC_SLOT_NAME default_config)
                              (CDC_BATCH_LIMIT default_config))
               = Some other_rows) by reflexivity.
  assert (H2 : filter (is_target (PGSCHEMA default_config) TARGET_TABLE)
                      other_rows = []) by (vm_compute; reflexivity).
  split; [exact H1|]. split; [exact H2|].
  exact (C7_no_records_no_put default_config other_world other_rows H1 H2).
Defined.

(** C7 (as stated) fails for the writer taken alone: it has no guard of
    its own, and handed the empty frame it puts an object all the same. *)
Lemma C7_writer_unguarded_counterexample :
  df_values empty_frame = []
  /\ puts sample_world = []
  /\ map object_name
         (puts (after (write_csv_to_minio BUCKET_NAME RAW_INC_BASE_PATH
                         empty_frame "cliente_cdc") sample_world))
     = ["inc/data=20240131/cliente_cdc_20240131_235959.csv"].
Proof. vm_compute. repeat split. Qed.

(* ================================================================= *)
(** ** Lines of the CSV text *)

Lemma lines_line (x t : string) :
  no_line_feed x = true -> lines (x ++ String Py.LF t) = x :: lines t.
Proof.
  unfold no_line_feed. induction x as [|a x IH]; simpl; intros H.
  - reflexivity.
  - apply andb_prop in H. destruct H as [Ha Hx]. unfold not_lf in Ha.
    apply negb_true_iff in Ha. rewrite Ha, (IH Hx). reflexivity.
Qed.

Lemma no_line_feed_concat (sep : string) (l : list string) :
  no_line_feed sep = true ->
  Forall (fun x => no_line_feed x = true) l ->
  no_line_feed (String.concat sep l) = true.
Proof.
  intros Hsep Hl. induction Hl as [|x l Hx Hl IH]; [reflexivity|].
  destruct l as [|y l]; [exact Hx|].
  change (String.concat sep (x :: y :: l))
    with (x ++ sep ++ String.concat sep (y :: l)).
  rewrite !no_line_feed_append, Hx, Hsep, IH. reflexivity.
Qed.

Lemma escape_no_line_feed (a : ascii) : no_line_feed (Json.escape a) = true.
Proof.
  destruct a as [[] [] [] [] [] [] [] []]; vm_compute; reflexivity.
Qed.

Lemma escape_all_no_line_feed (s : string) :
  no_line_feed (Json.escape_all s) = true.
Proof.
  induction s as [|a s IH]; [reflexivity|].
  simpl. now rewrite no_line_feed_append, escape_no_line_feed, IH.
Qed.

Lemma json_str_no_line_feed (s : string) : no_line_feed (Json.str s) = true.
Proof.
  unfold Json.str.
  change (String Json.quote (Json.escape_all s ++ String Json.quote ""))
    with (String Json.quote "" ++ Json.escape_all s ++ String Json.quote "").
  now rewrite !no_line_feed_append, escape_all_no_line_feed.
Qed.

Lemma dumps_no_line_feed (d : list (string * string)) :
  no_line_feed (Json.dumps d) = true.
Proof.
  unfold Json.dumps. rewrite !no_line_feed_append.
  rewrite no_line_feed_concat; [reflexivity | reflexivity |].
  apply Forall_map, Forall_forall. intros kv _. unfold Json.item.
  now rewrite !no_line_feed_append, !json_str_no_line_feed.
Qed.

Lemma uint_no_line_feed (d : Decimal.uint) :
  no_line_feed (NilEmpty.string_of_uint d) = true.
Proof. induction d; simpl; auto. Qed.

Lemma dec_no_line_feed (n : N) : no_line_feed (dec n) = true.
Proof.
  unfold dec, NilZero.string_of_uint.
  destruct (N.to_uint n) eqn:E; try reflexivity;
    rewrite <- E; apply uint_no_line_feed.
Qed.

Lemma zpad_no_line_feed (w : nat) (n : N) : no_line_feed (zpad w n) = true.
Proof.
  unfold zpad. rewrite no_line_feed_append, dec_no_line_feed, andb_true_r.
  induction (w - String.length (dec n)) as [|k IH]; [reflexivity | exact IH].
Qed.

Lemma isoformat_no_line_feed (t : datetime) : no_line_feed (isoformat t) = true.
Proof.
  unfold isoformat.
  rewrite !no_line_feed_append, !zpad_no_line_feed.
  destruct (microsecond t =? 0)%N; [reflexivity|].
  now rewrite no_line_feed_append, zpad_no_line_feed.
Qed.

Lemma double_quotes_no_line_feed (s : string) :
  no_line_feed s = true -> no_line_feed (Csv.double_quotes s) = true.
Proof.
  unfold no_line_feed. induction s as [|a s IH]; simpl; intros H; [reflexivity|].
  apply andb_prop in H. destruct H as [Ha Hs].
  destruct (Ascii.eqb a Json.quote); simpl; rewrite ?Ha, (IH Hs); reflexivity.
Qed.

Lemma field_no_line_feed (s : string) :
  no_line_feed s = true -> no_line_feed (Csv.field s) = true.
Proof.
  intros H. unfold Csv.field. destruct (Csv.needs_quote s); [|exact H].
  change (String Json.quote (Csv.double_quotes s ++ String Json.quote ""))
    with (String Json.quote "" ++ Csv.double_quotes s ++ String Json.quote "").
  now rewrite !no_line_feed_append, (double_quotes_no_line_feed s H).
Qed.

Lemma record_no_line_feed (fields : list string) :
  Forall (fun x => no_line_feed x = true) fields ->
  no_line_feed (Csv.record fields) = true.
Proof.
  intros H. unfold Csv.record.
  assert (Hc : no_line_feed (String.concat "," (map Csv.field fields)) = true).
  { apply no_line_feed_concat; [reflexivity|].
    apply Forall_map. revert H. apply Forall_impl. exact field_no_line_feed. }
  destruct fields as [|[|a x] [|y l]]; try exact Hc; reflexivity.
Qed.

Lemma lines_writerows (rs : list (list string)) :
  Forall (Forall (fun x => no_line_feed x = true)) rs ->
  lines (Csv.writerows rs) = map Csv.record rs.
Proof.
  induction 1 as [|r rs Hr Hrs IH]; [reflexivity|].
  simpl. unfold Csv.writerow. rewrite append_assoc.
  change (String Py.LF "" ++ Csv.writerows rs)
    with (String Py.LF (Csv.writerows rs)).
  rewrite lines_line by (apply record_no_line_feed; exact Hr).
  now rewrite IH.
Qed.

Lemma is_op_no_line_feed (o : string) : is_op o -> no_line_feed o = true.
Proof. intros [->|[->| ->]]; reflexivity. Qed.

(** The cells of a record built from a decoded entry hold no line feed,
    its log position apart. *)
Lemma captured_no_line_feed (t : datetime) (r : RawRow) (o : OutRow) :
  captured (isoformat t) r = Some o ->
  no_line_feed (lsn r) = true ->
  Forall (fun x => no_line_feed x = true) (cells o).
Proof.
  unfold captured.
  destruct (parse_test_decoding_row (data r)) as [parsed|] eqn:Hp;
    [|discriminate].
  intros H Hlsn. injection H as <-. unfold cells. cbn.
  destruct (parse_inv _ _ Hp) as (w1 & w2 & w3 & rest & tail & _ & _ & _ & _
                                  & _ & Hop).
  repeat constructor.
  - apply isoformat_no_line_feed.
  - exact Hlsn.
  - apply is_op_no_line_feed, Hop.
  - apply dumps_no_line_feed.
Qed.

Lemma hits_no_line_feed (t : datetime) (hits : list RawRow) (out : list OutRow) :
  map Some out = map (captured (isoformat t)) hits ->
  Forall (fun r => no_line_feed (lsn r) = true) hits ->
  Forall (Forall (fun x => no_line_feed x = true)) (map cells out).
Proof.
  revert out. induction hits as [|r hits IH]; intros [|o out] E H;
    try discriminate; [constructor|].
  simpl in E. injection E as Eo E. inversion H as [|? ? Hr Hrs]; subst.
  simpl. constructor.
  - exact (captured_no_line_feed t r o (eq_sym Eo) Hr).
  - exact (IH out E Hrs).
Qed.

(** *** Lines of the encoded text *)

Lemma utf8_char_no_lf (a : ascii) :
  a <> Py.LF ->
  utf8_char a <> []
  /\ Forall (fun b => Byte.eqb b x0a = false) (utf8_char a).
Proof.
  intros Ha.
  destruct a as [[] [] [] [] [] [] [] []];
    first [ exfalso; apply Ha; reflexivity
          | vm_compute; split; [discriminate | repeat constructor] ].
Qed.

Lemma byte_lines_prefix (p l : list byte) :
  p <> [] ->
  Forall (fun b => Byte.eqb b x0a = false) p ->
  byte_lines (p ++ l)%list
  = match byte_lines l with
    | x :: xs => (p ++ x)%list :: xs
    | [] => [p]
    end.
Proof.
  induction p as [|b p IH]; intros Hne Hp; [contradiction|].
  inversion Hp as [|? ? Hb Hp']; subst.
  destruct p as [|b' p].
  - cbn [app byte_lines]. rewrite Hb. reflexivity.
  - change ((b :: b' :: p) ++ l)%list with (b :: ((b' :: p) ++ l))%list.
    cbn [byte_lines]. rewrite Hb, (IH ltac:(discriminate) Hp').
    destruct (byte_lines l); reflexivity.
Qed.

(** Encoding and splitting into lines commute. *)
Lemma byte_lines_encode (s : string) :
  byte_lines (encode_utf8 s) = map encode_utf8 (lines s).
Proof.
  induction s as [|a s IH]; [reflexivity|].
  cbn [encode_utf8 lines]. destruct (Ascii.eqb_spec a Py.LF) as [->|Ha].
  - cbn [utf8_char]. change (utf8_char Py.LF) with [x0a].
    cbn [app byte_lines map encode_utf8]. now rewrite IH.
  - destruct (utf8_char_no_lf a Ha) as (Hne & Hp).
    rewrite (byte_lines_prefix _ _ Hne Hp), IH.
    destruct (lines s); cbn [map encode_utf8]; [|reflexivity].
    now rewrite app_nil_r.
Qed.

(* ================================================================= *)
(** ** One cycle with entries of the target table *)

Section Cycle.

Variable cfg : Config.
Variable w : World.
Variable rows : list RawRow.

Let q := fetch_query (CDC_SLOT_NAME cfg) (CDC_BATCH_LIMIT cfg).
Let hits := filter (is_target (PGSCHEMA cfg) TARGET_TABLE) rows.
Let t_capture := clock w (ticks w).
Let t_write := clock w (S (ticks w)).

(** C2: a cycle that fetches K > 0 entries of the target table (whose log
    positions hold no line feed, as every pg_lsn does) makes exactly one
    put; the bytes put have K+1 lines, the header and then one row per
    entry, in the order the entries were delivered. *)
Theorem C2_one_object_K_plus_1_lines :
  db_answer w q = Some rows ->
  0 < List.length hits ->
  Forall (fun r => no_line_feed (lsn r) = true) hits ->
  exists call out,
    puts (after (main cfg) w) = (puts w ++ [call])%list
    /\ map Some out = map (captured (isoformat t_capture)) hits
    /\ map out_lsn out = map lsn hits
    /\ byte_lines (put_data call)
       = map encode_utf8
             (header_line :: map (fun o => Csv.record (cells o)) out)
    /\ List.length (byte_lines (put_data call)) = S (List.length hits).
Proof.
  intros Hdb HK Hlsn.
  assert (Hhits : hits <> []) by (intros E; rewrite E in HK; inversion HK).
  pose (out := collect (isoformat t_capture) (PGSCHEMA cfg) TARGET_TABLE rows).
  assert (Hout : map Some out = map (captured (isoformat t_capture)) hits)
    by apply collect_hits.
  assert (Hlines : byte_lines (encode_utf8 (to_csv (frame out)))
                   = map encode_utf8
                       (header_line
                        :: map (fun o => Csv.record (cells o)) out)).
  { rewrite byte_lines_encode, to_csv_frame.
    rewrite lines_line by reflexivity.
    rewrite lines_writerows by exact (hits_no_line_feed _ _ _ Hout Hlsn).
    now rewrite map_map. }
  exists (put_of BUCKET_NAME RAW_INC_BASE_PATH (frame out) "cliente_cdc" t_write),
    out.
  unfold after. rewrite (main_run_hits cfg w rows Hdb Hhits).
  cbn [snd puts put_of put_data]. repeat split.
  - exact Hout.
  - clear Hlines Hlsn HK Hhits. revert Hout. generalize out. clear out.
    unfold captured.
    induction hits as [|r hs IH]; intros [|o out] E; try discriminate;
      [reflexivity|].
    simpl in E. injection E as Eo E. simpl. rewrite (IH out E).
    destruct (parse_test_decoding_row (data r)); [|discriminate].
    injection Eo as ->. reflexivity.
  - exact Hlines.
  - rewrite Hlines. cbn [map List.length]. rewrite !length_map.
    rewrite <- (length_map Some), Hout, length_map. reflexivity.
Qed.

(** C10: the writer computes the key of the object from the reading of
    the clock it takes itself, whatever frame it is handed; in a cycle that is
    the second reading, while the capture_ts cells hold the first, taken by
    the filter; the two may fall on different days, as they do in the sample
    world. *)
Theorem C10_path_from_write_time :
  db_answer w q = Some rows ->
  hits <> [] ->
  (forall bucket base_path prefix df w',
      map object_name
          (puts (after (write_csv_to_minio bucket base_path df prefix) w'))
      = (map object_name (puts w')
         ++ [destination base_path prefix (clock w' (ticks w'))])%list)
  /\ (exists call out,
         puts (after (main cfg) w) = (puts w ++ [call])%list
         /\ object_name call
            = destination RAW_INC_BASE_PATH "cliente_cdc" t_write
         /\ put_data call = encode_utf8 (to_csv (frame out))
         /\ Forall (fun o => capture_ts o = isoformat t_capture) out)
  /\ map (fun call => (object_name call, string_of_list_byte (put_data call)))
         (puts (after (main default_config) sample_world))
     = [("inc/data=20240201/cliente_cdc_20240201_000001.csv",
         header_line ++ String Py.LF
           ("2024-01-31T23:59:59.250000,0/16B3748,INSERT,"
            ++ Csv.field (Json.dumps [("id", "1"); ("name", "Ana Silva")])
            ++ String Py.LF ""))].
Proof.
  intros Hdb Hhits. split; [|split].
  - intros bucket base_path prefix df w'. unfold after. rewrite write_run.
    cbv zeta. cbn [snd puts]. now rewrite map_app.
  - exists (put_of BUCKET_NAME RAW_INC_BASE_PATH
              (frame (collect (isoformat t_capture) (PGSCHEMA cfg)
                              TARGET_TABLE rows))
              "cliente_cdc" t_write),
      (collect (isoformat t_capture) (PGSCHEMA cfg) TARGET_TABLE rows).
    unfold after. rewrite (main_run_hits cfg w rows Hdb Hhits).
    cbn [snd puts]. repeat split. apply collect_capture_ts.
  - vm_compute. reflexivity.
Qed.

End Cycle.

Lemma C2_one_object_K_plus_1_lines_witness :
  let hits := filter (is_target "db_loja" TARGET_TABLE) sample_rows in
  db_answer sample_world
    (fetch_query (CDC_SLOT_NAME default_config) (CDC_BATCH_LIMIT default_config))
  = Some sample_rows
  /\ 0 < List.length hits
  /\ Forall (fun r => no_line_feed (lsn r) = true) hits
  /\ exists call out,
       puts (after (main default_config) sample_world) = [call]
       /\ map Some out = map (captured (isoformat (sample_clock 0))) hits
       /\ map out_lsn out = map lsn hits
       /\ byte_lines (put_data call)
          = map encode_utf8
                (header_line :: map (fun o => Csv.record (cells o)) out)
       /\ List.length (byte_lines (put_data call)) = 2.
Proof.
  intros hits.
  assert (H1 : db_answer sample_world
                 (fetch_query (CDC_SLOT_NAME default_config)
                              (CDC_BATCH_LIMIT default_config))
               = Some sample_rows) by reflexivity.
  assert (H2 : 0 < List.length hits) by (vm_compute; lia).
  assert (H3 : Forall (fun r => no_line_feed (lsn r) = true) hits)
    by (vm_compute; repeat constructor).
  split; [exact H1|]. split; [exact H2|]. split; [exact H3|].
  exact (C2_one_object_K_plus_1_lines default_config sample_world sample_rows
           H1 H2 H3).
Defined.

Lemma C10_path_from_write_time_witness :
  db_answer sample_world
    (fetch_query (CDC_SLOT_NAME default_config) (CDC_BATCH_LIMIT default_config))
  = Some sample_rows
  /\ filter (is_target (PGSCHEMA default_config) TARGET_TABLE) sample_rows <> []
  /\ exists call out,
       puts (after (main default_config) sample_world) = [call]
       /\ object_name call
          = destination RAW_INC_BASE_PATH "cliente_cdc" (sample_clock 1)
       /\ put_data call = encode_utf8 (to_csv (frame out))
       /\ Forall (fun o => capture_ts o = isoformat (sample_clock 0)) out.
Proof.
  assert (H1 : db_answer sample_world
                 (fetch_query (CDC_SLOT_NAME default_config)
                              (CDC_BATCH_LIMIT default_config))
               = Some sample_rows) by reflexivity.
  assert (H2 : filter (is_target (PGSCHEMA default_config) TARGET_TABLE)
                      sample_rows <> []) by (vm_compute; discriminate).
  split; [exact H1|]. split; [exact H2|].
  exact (proj1 (proj2 (C10_path_from_write_time default_config sample_world
                         sample_rows H1 H2))).
Defined.


(* ================================================================= *)
(** * Further properties of the pipeline *)

(** ** The decoder on whole lines *)

Lemma dict_set_fresh (d : list (string * string)) (k v : string) :
  ~ In k (map fst d) -> dict_set d k v = (d ++ [(k, v)])%list.
Proof.
  induction d as [|[k' v'] d IH]; intros H; [reflexivity|].
  cbn [dict_set]. destruct (String.eqb_spec k' k) as [->|Hne].
  - exfalso. apply H. left. reflexivity.
  - cbn [app]. rewrite IH; [reflexivity|].
    intros Hin. apply H. right. exact Hin.
Qed.

Lemma fold_set_token_distinct (ts : list Token) (acc : list (string * string)) :
  NoDup (map fst acc ++ map tok_name ts) ->
  fold_left set_token ts acc = (acc ++ map token_item ts)%list.
Proof.
  revert acc. induction ts as [|t ts IH]; intros acc H.
  - now rewrite app_nil_r.
  - cbn [fold_left map]. unfold set_token at 2.
    assert (Hfresh : ~ In (tok_name t) (map fst acc)).
    { intros Hin. cbn [map] in H. apply NoDup_remove_2 in H. apply H.
      apply in_or_app. left. exact Hin. }
    rewrite (dict_set_fresh _ _ _ Hfresh), IH.
    + rewrite <- app_assoc. reflexivity.
    + rewrite map_app. cbn [map fst]. rewrite <- app_assoc. exact H.
Qed.

(** X1: take a line written as the header [table <schema>.<table>: <OP>: ]
    (schema not empty, free of dots, not opened by whitespace; table name of
    letters, digits, underscores and colons; one of the three keywords)
    followed by one or more tokens [name[type]:value], one blank between two
    of them, where every name is a non-empty run of letters, digits and
    underscores, every type is not empty and holds neither a closing
    bracket nor a line feed, and every value is either bare (not empty, free
    of whitespace, not opened by a single quote) or a text between single
    quotes that holds no line feed and no whitespace followed by a name and
    an opening bracket.  Such a line decodes to its schema, table and
    operation and to the columns of its tokens: filled in line order, a
    repeated name keeping its place and taking the later value; when the
    names are distinct the columns are the tokens in line order, the quoted
    values without their quotes. *)
Theorem X1_well_formed_line_decodes (sch tb o : string) (ts : list Token) :
  header_ok sch tb o = true ->
  forallb token_ok ts = true ->
  ts <> [] ->
  parse_test_decoding_row (line sch tb o (tokens_text ts))
  = Some (mkParsed sch tb o (fold_left set_token ts []))
  /\ (NoDup (map tok_name ts) ->
      parse_test_decoding_row (line sch tb o (tokens_text ts))
      = Some (mkParsed sch tb o (map token_item ts))).
Proof.
  intros Hh Hok Hne.
  assert (H : parse_test_decoding_row (line sch tb o (tokens_text ts))
              = Some (mkParsed sch tb o (fold_left set_token ts [])))
    by exact (parse_line sch tb o ts Hh Hok Hne).
  split; [exact H|]. intros Hnd. rewrite H.
  now rewrite (fold_set_token_distinct ts [] Hnd).
Qed.

Lemma X1_well_formed_line_decodes_witness :
  header_ok "db_loja" "cliente" "UPDATE" = true
  /\ forallb token_ok repeated_tokens = true
  /\ repeated_tokens <> []
  /\ parse_test_decoding_row
       "table db_loja.cliente: UPDATE: id[integer]:1 name[text]:'Ana Maria' id[integer]:2"
     = Some (mkParsed "db_loja" "cliente" "UPDATE"
               [("id", "2"); ("name", "Ana Maria")]).
Proof.
  assert (H1 : header_ok "db_loja" "cliente" "UPDATE" = true) by reflexivity.
  assert (H2 : forallb token_ok repeated_tokens = true) by reflexivity.
  assert (H3 : repeated_tokens <> []) by discriminate.
  split; [exact H1|]. split; [exact H2|]. split; [exact H3|].
  exact (proj1 (X1_well_formed_line_decodes "db_loja" "cliente" "UPDATE"
                  repeated_tokens H1 H2 H3)).
Defined.



(** ** The shape of a decoded record *)

Section GroupFree.

Variable n : nat.

(** A pattern without group hands the captures on unchanged. *)
Lemma exec_no_groups (r : regex) :
  no_groups r = true ->
  forall s c k res,
    exec n r s c k = Some res -> exists s', k s' c = Some res.
Proof.
  induction r as [|p|r1 IH1 r2 IH2|r1 IH1 r2 IH2|g r IH|g r IH|r IH| |];
    cbn [no_groups]; intros Hg s c k res H.
  - eauto.
  - destruct s as [|a t]; [discriminate|]. rewrite exec_Chr in H.
    destruct (p a); [eauto | discriminate].
  - apply andb_prop in Hg. destruct Hg as [G1 G2].
    rewrite exec_Seq in H. apply (IH1 G1) in H. destruct H as (s1 & H).
    exact (IH2 G2 _ _ _ _ H).
  - apply andb_prop in Hg. destruct Hg as [G1 G2].
    rewrite exec_Alt in H. destruct (exec n r1 s c k) eqn:E.
    + injection H as <-. exact (IH1 G1 _ _ _ _ E).
    + exact (IH2 G2 _ _ _ _ H).
  - cbn [exec] in H. revert H. generalize (String.length s). intros fuel.
    revert s. induction fuel as [|fuel IHf]; intros s H.
    + cbn [star_loop] in H. eauto.
    + cbn [star_loop] in H.
      assert (Hagain :
        exec n r s c
          (fun s' c' =>
             if (String.length s' <? String.length s)%nat
             then star_loop (exec n r) g k fuel s' c' else None) = Some res ->
        exists s', k s' c = Some res).
      { intros E. apply (IH Hg) in E. destruct E as (s1 & E).
        destruct (String.length s1 <? String.length s)%nat; [|discriminate].
        exact (IHf _ E). }
      destruct g.
      * destruct (exec n r s c _) eqn:E.
        -- rewrite H in Hagain. now apply Hagain.
        -- eauto.
      * destruct (k s c) eqn:E.
        -- rewrite H in E. eauto.
        -- now apply Hagain.
  - discriminate.
  - rewrite exec_Look in H.
    destruct (exec n r s c accept) as [[s1 c1]|] eqn:E; [|discriminate].
    apply (IH Hg) in E. destruct E as (s2 & E). unfold accept in E.
    injection E as _ <-. eauto.
  - rewrite exec_Bol in H. destruct (_ =? _)%nat; [eauto | discriminate].
  - apply exec_Eol_inv in H. destruct H as [_ H]. eauto.
Qed.

Lemma star_lazy_inv p k s c res :
  star_lazy p k s c = Some res ->
  exists x t, s = x ++ t /\ Py.all_chars p x = true /\ k t c = Some res.
Proof.
  induction s as [|a s IH]; simpl; intros H.
  - exists "", "". destruct (k "" c); [auto | discriminate].
  - destruct (k (String a s) c) eqn:Hk.
    + exists "", (String a s). rewrite Hk. auto.
    + destruct (p a) eqn:Hp; [|discriminate].
      destruct (IH H) as (x & t & -> & Hx & Hk').
      exists (String a x), t. simpl. rewrite Hp. auto.
Qed.

(** The groups of every match of the column pattern: a name, and a value
    that starts with a character other than a blank and holds no line
    feed. *)
Lemma kv_exec_inv (s s' : string) (c : caps) :
  exec n _KV_RE s [] accept = Some (s', c) ->
  exists k a x,
    c = [(2, String a x); (1, k)]
    /\ nonempty k = true /\ Py.all_chars Py.is_word k = true
    /\ Py.is_space a = false /\ no_line_feed x = true.
Proof.
  unfold _KV_RE. rewrite exec_Seq, exec_Group. intros H.
  apply exec_Plus_greedy_inv in H. destruct H as (k & t0 & -> & Hk1 & Hk2 & H).
  rewrite consumed_append, exec_Seq in H.
  apply exec_Char_inv in H. destruct H as (t1 & -> & H).
  rewrite exec_Seq in H. apply exec_Plus_greedy_inv in H.
  destruct H as (ty & t2 & -> & _ & _ & H).
  rewrite exec_Seq in H. apply exec_Char_inv in H. destruct H as (t3 & -> & H).
  rewrite exec_Seq in H. apply exec_Char_inv in H. destruct H as (t4 & -> & H).
  rewrite exec_Seq, exec_Group, exec_Seq in H. unfold NotSpace in H.
  destruct t4 as [|a t5]; [discriminate|]. rewrite exec_Chr in H.
  destruct (Py.is_space a) eqn:Ha; [discriminate|]. cbn [negb] in H.
  unfold Dot in H. rewrite exec_Star_lazy in H. apply star_lazy_inv in H.
  destruct H as (x & t6 & -> & Hx & H).
  apply exec_no_groups in H; [|reflexivity]. destruct H as (s1 & H).
  unfold accept in H. injection H as _ <-.
  exists k, a, x. rewrite consumed_cons.
  repeat split; auto. destruct k; [contradiction | reflexivity].
Qed.

Lemma search_inv (r : regex) (s s' : string) (c : caps) :
  search n r s = Some (s', c) ->
  exists s0, exec n r s0 [] accept = Some (s', c).
Proof.
  induction s as [|a t IH]; simpl; intros H.
  - destruct (exec n r "" [] accept) eqn:E; [|discriminate].
    injection H as ->. eauto.
  - destruct (exec n r (String a t) [] accept) eqn:E.
    + injection H as ->. eauto.
    + exact (IH H).
Qed.

Lemma scan_Forall (r : regex) (P : caps -> Prop) :
  (forall s0 s' c, exec n r s0 [] accept = Some (s', c) -> P c) ->
  forall fuel s, Forall P (scan n fuel r s).
Proof.
  intros HP. induction fuel as [|fuel IH]; intros s; [constructor|].
  cbn [scan]. destruct (search n r s) as [[s' c]|] eqn:E; [|constructor].
  constructor.
  - destruct (search_inv _ _ _ _ E) as (s0 & E0). exact (HP _ _ _ E0).
  - destruct (String.length s' <? String.length s)%nat; [apply IH|].
    destruct s'; [constructor | apply IH].
Qed.

End GroupFree.

Lemma all_chars_lstrip (p : ascii -> bool) (s : string) :
  Py.all_chars p s = true -> Py.all_chars p (Py.lstrip s) = true.
Proof.
  induction s as [|a s IH]; [reflexivity|]. intros H. cbn [Py.lstrip].
  destruct (Py.is_space a); [|exact H].
  simpl in H. apply andb_prop in H. now apply IH.
Qed.

Lemma all_chars_rstrip (p : ascii -> bool) (s : string) :
  Py.all_chars p s = true -> Py.all_chars p (Py.rstrip s) = true.
Proof.
  induction s as [|a s IH]; [reflexivity|]. intros H.
  simpl in H. apply andb_prop in H. destruct H as [Ha Hs].
  cbn [Py.rstrip]. specialize (IH Hs). destruct (Py.rstrip s) as [|b t].
  - destruct (Py.is_space a); [reflexivity | simpl; now rewrite Ha].
  - change (Py.all_chars p (String a (String b t)))
      with (p a && Py.all_chars p (String b t)).
    now rewrite Ha, IH.
Qed.

Lemma all_chars_substring (p : ascii -> bool) (s : string) :
  Py.all_chars p s = true ->
  forall i j, Py.all_chars p (String.substring i j s) = true.
Proof.
  induction s as [|a s IH]; intros H i j.
  - destruct i, j; reflexivity.
  - simpl in H. apply andb_prop in H. destruct H as [Ha Hs].
    destruct i as [|i]; [destruct j as [|j]|]; cbn [String.substring].
    + reflexivity.
    + cbn [Py.all_chars]. now rewrite Ha, (IH Hs).
    + apply (IH Hs).
Qed.

Lemma clean_value_no_line_feed (v : string) :
  no_line_feed v = true -> no_line_feed (clean_value v) = true.
Proof.
  unfold no_line_feed, clean_value, Py.strip. intros H.
  assert (Hs : Py.all_chars not_lf (Py.rstrip (Py.lstrip v)) = true)
    by (now apply all_chars_rstrip, all_chars_lstrip).
  destruct (_ && _); [|exact Hs].
  unfold Py.slice_1_m1. now apply all_chars_substring.
Qed.

Lemma dict_set_keys (d : list (string * string)) (k v x : string) :
  In x (map fst (dict_set d k v)) -> In x (map fst d) \/ x = k.
Proof.
  induction d as [|[k' v'] d IH]; cbn [dict_set map fst In].
  - intros [<-|[]]. auto.
  - destruct (String.eqb_spec k' k) as [->|Hne]; cbn [map fst In].
    + intros [<-|H]; auto.
    + intros [<-|H]; [auto|]. destruct (IH H); auto.
Qed.

Lemma dict_set_NoDup (d : list (string * string)) (k v : string) :
  NoDup (map fst d) -> NoDup (map fst (dict_set d k v)).
Proof.
  induction d as [|[k' v'] d IH]; cbn [dict_set map fst]; intros H.
  - constructor; [intros [] | constructor].
  - inversion H as [|? ? Hnin Hd]; subst.
    destruct (String.eqb_spec k' k) as [->|Hne]; cbn [map fst].
    + constructor; assumption.
    + constructor; [|exact (IH Hd)].
      intros Hin. destruct (dict_set_keys _ _ _ _ Hin) as [Hin'|E];
        [contradiction | now subst].
Qed.

Lemma dict_set_Forall (P : string * string -> Prop)
  (d : list (string * string)) (k v : string) :
  Forall P d -> P (k, v) -> Forall P (dict_set d k v).
Proof.
  intros Hd Hkv. induction Hd as [|[k' v'] d Hx Hd IH]; cbn [dict_set].
  - constructor; [exact Hkv | constructor].
  - destruct (String.eqb k' k); constructor; assumption.
Qed.

(** X3: whatever the line, a record the decoder returns has one of the
    three operation keywords, a non-empty schema free of dots, a non-empty
    table name made of letters, digits, underscores and colons, column
    names that are distinct identifiers, and column values free of line
    feeds. *)
Theorem X3_decoded_record_shape (raw : string) (parsed : Parsed) :
  parse_test_decoding_row raw = Some parsed ->
  is_op (op parsed)
  /\ (nonempty (schema parsed) = true
      /\ Py.all_chars not_dot (schema parsed) = true)
  /\ (nonempty (table parsed) = true
      /\ Py.all_chars colon_or_word (table parsed) = true)
  /\ NoDup (map fst (cols parsed))
  /\ Forall column_shape (cols parsed).
Proof.
  intros H.
  destruct (parse_inv _ _ H)
    as (w1 & w2 & w3 & rest & tail & _ & _ & (Hs1 & Hs2) & (Ht1 & Ht2) & _ & Ho).
  split; [exact Ho|].
  split; [split; [destruct (schema parsed); [contradiction | reflexivity]
                 | exact Hs2]|].
  split; [split; [destruct (table parsed); [contradiction | reflexivity]
                 | exact Ht2]|].
  unfold parse_test_decoding_row in H.
  destruct (match_ _TBL_RE (Py.strip raw)) as [m|]; [|discriminate].
  injection H as <-. cbn [cols].
  assert (Hscan : Forall
            (fun c => column_shape (group c 1, clean_value (group c 2)))
            (finditer _KV_RE (group m 4))).
  { unfold finditer. apply scan_Forall. intros s0 s' c E.
    destruct (kv_exec_inv _ _ _ _ E) as (k & a & x & -> & Hk1 & Hk2 & Ha & Hx).
    cbn [group Nat.eqb]. unfold column_shape. cbn [fst snd].
    repeat split; auto. apply clean_value_no_line_feed.
    unfold no_line_feed. cbn [Py.all_chars]. unfold no_line_feed in Hx.
    rewrite Hx, andb_true_r. unfold not_lf.
    destruct (Ascii.eqb_spec a Py.LF) as [->|]; [discriminate | reflexivity]. }
  assert (Hinv : forall l acc,
    Forall (fun c => column_shape (group c 1, clean_value (group c 2))) l ->
    NoDup (map fst acc) /\ Forall column_shape acc ->
    let d := fold_left
               (fun cols km =>
                  dict_set cols (group km 1) (clean_value (group km 2)))
               l acc in
    NoDup (map fst d) /\ Forall column_shape d).
  { induction l as [|c l IH]; intros acc Hl Hacc; [exact Hacc|].
    inversion Hl as [|? ? Hc Hl']; subst. cbn [fold_left]. apply IH; auto.
    destruct Hacc as [Hn Hf].
    split; [now apply dict_set_NoDup | now apply dict_set_Forall]. }
  apply Hinv; [exact Hscan|]. split; constructor.
Qed.

Lemma X3_decoded_record_shape_witness :
  let parsed := mkParsed "pub" "cliente" "INSERT"
                         [("id", "1"); ("name", "Ana Silva")] in
  parse_test_decoding_row
    "table pub.cliente: INSERT: id[integer]:1 name[text]:'Ana Silva'"
  = Some parsed
  /\ (is_op (op parsed)
      /\ (nonempty (schema parsed) = true
          /\ Py.all_chars not_dot (schema parsed) = true)
      /\ (nonempty (table parsed) = true
          /\ Py.all_chars colon_or_word (table parsed) = true)
      /\ NoDup (map fst (cols parsed))
      /\ Forall column_shape (cols parsed)).
Proof.
  intros parsed.
  assert (H : parse_test_decoding_row
                "table pub.cliente: INSERT: id[integer]:1 name[text]:'Ana Silva'"
              = Some parsed) by (vm_compute; reflexivity).
  split; [exact H|].
  exact (X3_decoded_record_shape _ parsed H).
Defined.

(** ** Blanks around a line *)

Lemma lstrip_blanks (ws s : string) :
  Py.all_chars Py.is_space ws = true -> Py.lstrip (ws ++ s) = Py.lstrip s.
Proof.
  induction ws as [|a ws IH]; [reflexivity|]. intros H.
  simpl in H. apply andb_prop in H. destruct H as [Ha Hws].
  change (String a ws ++ s) with (String a (ws ++ s)).
  cbn [Py.lstrip]. rewrite Ha. exact (IH Hws).
Qed.

Lemma rstrip_all_blank (ws : string) :
  Py.all_chars Py.is_space ws = true -> Py.rstrip ws = "".
Proof.
  induction ws as [|a ws IH]; [reflexivity|]. intros H.
  simpl in H. apply andb_prop in H. destruct H as [Ha Hws].
  cbn [Py.rstrip]. now rewrite (IH Hws), Ha.
Qed.

Lemma rstrip_blanks (s ws : string) :
  Py.all_chars Py.is_space ws = true -> Py.rstrip (s ++ ws) = Py.rstrip s.
Proof.
  intros H. induction s as [|a s IH].
  - now apply rstrip_all_blank.
  - change (String a s ++ ws) with (String a (s ++ ws)).
    cbn [Py.rstrip]. now rewrite IH.
Qed.

Lemma lstrip_append_blanks (s ws : string) :
  Py.all_chars Py.is_space ws = true ->
  Py.lstrip (s ++ ws)
  = match Py.lstrip s with
    | EmptyString => EmptyString
    | x => x ++ ws
    end.
Proof.
  intros H. induction s as [|a s IH].
  - cbn [append Py.lstrip]. rewrite <- (append_nil_r ws).
    rewrite (lstrip_blanks ws "" H). reflexivity.
  - change (String a s ++ ws) with (String a (s ++ ws)).
    cbn [Py.lstrip]. destruct (Py.is_space a); [exact IH | reflexivity].
Qed.

Lemma strip_blanks (ws1 s ws2 : string) :
  Py.all_chars Py.is_space ws1 = true ->
  Py.all_chars Py.is_space ws2 = true ->
  Py.strip (ws1 ++ s ++ ws2) = Py.strip s.
Proof.
  intros H1 H2. unfold Py.strip.
  rewrite (lstrip_blanks ws1 _ H1), (lstrip_append_blanks s ws2 H2).
  destruct (Py.lstrip s) as [|a x]; [reflexivity|].
  now apply rstrip_blanks.
Qed.

(** X4: whitespace in front of a line and behind it (blanks, tabs, the
    line feed the slot may leave) never changes what the line decodes
    to. *)
Theorem X4_surrounding_blanks_ignored (ws1 raw ws2 : string) :
  Py.all_chars Py.is_space ws1 = true ->
  Py.all_chars Py.is_space ws2 = true ->
  parse_test_decoding_row (ws1 ++ raw ++ ws2) = parse_test_decoding_row raw.
Proof.
  intros H1 H2. unfold parse_test_decoding_row.
  now rewrite (strip_blanks ws1 raw ws2 H1 H2).
Qed.

Lemma X4_surrounding_blanks_ignored_witness :
  let nl := String Py.LF "" in
  Py.all_chars Py.is_space "  " = true
  /\ Py.all_chars Py.is_space nl = true
  /\ parse_test_decoding_row
       ("  " ++ "table pub.cliente: DELETE: id[integer]:7" ++ nl)
     = parse_test_decoding_row "table pub.cliente: DELETE: id[integer]:7".
Proof.
  intros nl.
  assert (H1 : Py.all_chars Py.is_space "  " = true) by reflexivity.
  assert (H2 : Py.all_chars Py.is_space nl = true) by reflexivity.
  split; [exact H1|]. split; [exact H2|].
  exact (X4_surrounding_blanks_ignored "  "
           "table pub.cliente: DELETE: id[integer]:7" nl H1 H2).
Defined.

(** ** Lines without column token, lines that span several lines *)

Lemma no_bracket_no_match (n : nat) (s : string) :
  Py.all_chars not_bracket s = true -> exec n _KV_RE s [] accept = None.
Proof.
  intros H. destruct (exec n _KV_RE s [] accept) as [res|] eqn:E;
    [|reflexivity].
  exfalso. unfold _KV_RE in E. rewrite exec_Seq, exec_Group in E.
  apply exec_Plus_greedy_inv in E. destruct E as (k & t & -> & _ & _ & E).
  rewrite exec_Seq in E. apply exec_Char_inv in E. destruct E as (t1 & -> & _).
  rewrite all_chars_append in H. apply andb_prop in H. destruct H as [_ H].
  discriminate H.
Qed.

Lemma no_bracket_no_search (n : nat) (s : string) :
  Py.all_chars not_bracket s = true -> search n _KV_RE s = None.
Proof.
  induction s as [|a s IH]; intros H.
  - cbn [search]. now rewrite no_bracket_no_match.
  - cbn [search]. rewrite (no_bracket_no_match n _ H).
    simpl in H. apply andb_prop in H. now apply IH.
Qed.

(** A text is its stripped text between two runs of whitespace; the
    stripped text, when not empty, begins and ends outside whitespace. *)
Lemma lstrip_split (s : string) :
  exists ws,
    s = ws ++ Py.lstrip s
    /\ Py.all_chars Py.is_space ws = true
    /\ stops Py.is_space (Py.lstrip s) = true.
Proof.
  induction s as [|a s (ws & E & Hws & Hst)].
  - exists "". now repeat split.
  - cbn [Py.lstrip]. destruct (Py.is_space a) eqn:Ha.
    + exists (String a ws). repeat split.
      * simpl. now rewrite <- E.
      * simpl. now rewrite Ha, Hws.
      * exact Hst.
    + exists "". repeat split. simpl. now rewrite Ha.
Qed.

Lemma rstrip_split (s : string) :
  exists ws,
    s = Py.rstrip s ++ ws
    /\ Py.all_chars Py.is_space ws = true
    /\ (Py.rstrip s = "" \/ ends_nonspace (Py.rstrip s) = true).
Proof.
  induction s as [|a s (ws & E & Hws & Hend)].
  - exists "". repeat split. now left.
  - cbn [Py.rstrip]. destruct (Py.rstrip s) as [|b t] eqn:Er.
    + destruct (Py.is_space a) eqn:Ha.
      * exists (String a ws). repeat split.
        -- simpl. now rewrite E at 1.
        -- simpl. now rewrite Ha, Hws.
        -- now left.
      * exists ws. repeat split.
        -- simpl. now rewrite E at 1.
        -- exact Hws.
        -- right. simpl. now rewrite Ha.
    + exists ws. repeat split.
      * simpl. now rewrite E at 1.
      * exact Hws.
      * right. destruct Hend as [Hend|Hend]; [discriminate | exact Hend].
Qed.

Lemma rstrip_stops (s : string) :
  stops Py.is_space s = true -> stops Py.is_space (Py.rstrip s) = true.
Proof.
  destruct s as [|a s]; [trivial|]. cbn [Py.rstrip stops]. intros Ha.
  destruct (Py.rstrip s); [|exact Ha].
  apply negb_true_iff in Ha. rewrite Ha. cbn [stops]. now rewrite Ha.
Qed.

Lemma strip_split (s : string) :
  exists ws1 ws2,
    s = ws1 ++ Py.strip s ++ ws2
    /\ Py.all_chars Py.is_space ws1 = true
    /\ Py.all_chars Py.is_space ws2 = true
    /\ stops Py.is_space (Py.strip s) = true
    /\ (Py.strip s = "" \/ ends_nonspace (Py.strip s) = true).
Proof.
  destruct (lstrip_split s) as (ws1 & E1 & H1 & Hst).
  destruct (rstrip_split (Py.lstrip s)) as (ws2 & E2 & H2 & Hend).
  exists ws1, ws2. unfold Py.strip. repeat split; try assumption.
  - now rewrite <- E2.
  - now apply rstrip_stops.
Qed.

Lemma line_append (sch tb o x y : string) :
  line sch tb o (x ++ y) = line sch tb o x ++ y.
Proof. unfold line. now rewrite !append_assoc. Qed.

(** The header of a line, whitespace, a text: the pattern of the header
    takes all the whitespace in front of the text. *)
Lemma tbl_match_line_ws (sch tb o ws rest : string) :
  header_ok sch tb o = true ->
  Py.all_chars Py.is_space ws = true ->
  no_line_feed rest = true ->
  stops Py.is_space rest = true ->
  match_ _TBL_RE (line sch tb o (ws ++ rest))
  = Some [(4, rest); (3, o); (2, tb); (1, sch)].
Proof.
  intros Hh Hws Hrest Hstop.
  destruct (header_ok_inv _ _ _ Hh) as ((Hs1 & Hs2 & Hs3) & (Ht1 & Ht2) & Ho).
  assert (Hso : forall x, stops Py.is_space (o ++ ":" ++ x) = true)
    by (intros x; destruct (is_opb_cases o Ho) as [->|[->| ->]]; reflexivity).
  unfold match_, _TBL_RE.
  rewrite exec_Seq, exec_Bol, Nat.eqb_refl.
  generalize (String.length (line sch tb o (ws ++ rest))). intros n.
  change (line sch tb o (ws ++ rest))
    with ("table" ++ " " ++ sch ++ String "." (tb ++ String ":" (" " ++ o
          ++ String ":" ((" " ++ ws) ++ rest)))).
  assert (H : exec n
    (Seq (Lit "table")
    (Seq (Plus true Space)
    (Seq (Group 1 (Plus true (Not ".")))
    (Seq (Char ".")
    (Seq (Group 2 (Plus true (Chr (fun a => Ascii.eqb a ":" || Py.is_word a))))
    (Seq (Char ":")
    (Seq (Plus true Space)
    (Seq (Group 3 (Alt (Lit "INSERT") (Alt (Lit "UPDATE") (Lit "DELETE"))))
    (Seq (Char ":")
    (Seq (Plus true Space)
    (Seq (Group 4 (Star true Dot)) Eol)))))))))))
    ("table" ++ " " ++ sch ++ String "." (tb ++ String ":" (" " ++ o
          ++ String ":" ((" " ++ ws) ++ rest)))) [] accept
    = Some ("", [(4, rest); (3, o); (2, tb); (1, sch)])).
  { rewrite exec_Seq, exec_Lit.
    rewrite exec_Seq. apply exec_Plus_max; try reflexivity.
    { now rewrite stops_append. }
    rewrite exec_Seq, exec_Group. apply exec_Plus_max; try assumption.
    { reflexivity. }
    rewrite consumed_append, exec_Seq, exec_Char.
    rewrite exec_Seq, exec_Group. apply exec_Plus_back; try assumption.
    { reflexivity. }
    { reflexivity. }
    { rewrite exec_Seq. apply exec_Char_ne. reflexivity. }
    rewrite consumed_append, exec_Seq, exec_Char.
    rewrite exec_Seq. apply exec_Plus_max; try reflexivity.
    { apply Hso. }
    rewrite exec_Seq, exec_Group, exec_op by exact Ho.
    rewrite consumed_append, exec_Seq, exec_Char.
    rewrite exec_Seq. apply exec_Plus_max; try reflexivity.
    { exact Hws. }
    { exact Hstop. }
    rewrite exec_Seq, exec_Group. unfold Dot. rewrite exec_Star_greedy.
    apply star_greedy_all; [exact Hrest|].
    rewrite consumed_nil. reflexivity. }
  rewrite H. reflexivity.
Qed.

(** What is matched against the pattern of the header: the line without
    the whitespace behind its text. *)
Lemma strip_line_text (sch tb o ws1 r ws2 : string) :
  Py.all_chars Py.is_space ws2 = true ->
  ends_nonspace r = true ->
  Py.strip (line sch tb o (ws1 ++ r ++ ws2)) = line sch tb o (ws1 ++ r).
Proof.
  intros H2 Hend.
  assert (Hne : nonempty r = true) by (destruct r; [discriminate | auto]).
  rewrite <- append_assoc, line_append.
  change (line sch tb o (ws1 ++ r) ++ ws2)
    with ("" ++ line sch tb o (ws1 ++ r) ++ ws2).
  rewrite (strip_blanks "" (line sch tb o (ws1 ++ r)) ws2 eq_refl H2).
  apply strip_line. now rewrite ends_nonspace_append.
Qed.

(** The decoder on a line with a well-formed header: the columns are read
    from the stripped text after the header. *)
Lemma parse_text (sch tb o rest : string) :
  header_ok sch tb o = true ->
  nonempty (Py.strip rest) = true ->
  no_line_feed (Py.strip rest) = true ->
  parse_test_decoding_row (line sch tb o rest)
  = Some (mkParsed sch tb o
            (fold_left
               (fun cols km =>
                  dict_set cols (group km 1) (clean_value (group km 2)))
               (finditer _KV_RE (Py.strip rest)) [])).
Proof.
  intros Hh Hne Hlf.
  destruct (strip_split rest) as (ws1 & ws2 & E & H1 & H2 & Hst & Hend).
  destruct Hend as [Hend|Hend]; [rewrite Hend in Hne; discriminate|].
  unfold parse_test_decoding_row. rewrite E at 1.
  rewrite (strip_line_text _ _ _ _ _ _ H2 Hend).
  rewrite (tbl_match_line_ws sch tb o ws1 _ Hh H1 Hlf Hst).
  reflexivity.
Qed.

(** X5: on a line written as the header [table <schema>.<table>: <OP>: ]
    (schema not empty, free of dots, not opened by whitespace; table name of
    letters, digits, underscores and colons; one of the three keywords)
    followed by a text that holds no opening bracket and that, stripped of
    the whitespace around it, is not empty and holds no line feed, such as
    the [(no-tuple-data)] of a DELETE without replica identity, the decoder
    returns a record with the names of the header and no column at all. *)
Theorem X5_no_token_empty_columns (sch tb o rest : string) :
  header_ok sch tb o = true ->
  nonempty (Py.strip rest) = true ->
  no_line_feed (Py.strip rest) = true ->
  Py.all_chars not_bracket rest = true ->
  parse_test_decoding_row (line sch tb o rest) = Some (mkParsed sch tb o []).
Proof.
  intros Hh Hne Hlf Hnb. rewrite (parse_text _ _ _ _ Hh Hne Hlf).
  unfold finditer. cbn [scan]. rewrite no_bracket_no_search; [reflexivity|].
  unfold Py.strip. now apply all_chars_rstrip, all_chars_lstrip.
Qed.

Lemma X5_no_token_empty_columns_witness :
  header_ok "db_loja" "cliente" "DELETE" = true
  /\ nonempty (Py.strip "(no-tuple-data)") = true
  /\ no_line_feed (Py.strip "(no-tuple-data)") = true
  /\ Py.all_chars not_bracket "(no-tuple-data)" = true
  /\ parse_test_decoding_row "table db_loja.cliente: DELETE: (no-tuple-data)"
     = Some (mkParsed "db_loja" "cliente" "DELETE" []).
Proof.
  assert (H1 : header_ok "db_loja" "cliente" "DELETE" = true) by reflexivity.
  assert (H2 : nonempty (Py.strip "(no-tuple-data)") = true) by reflexivity.
  assert (H3 : no_line_feed (Py.strip "(no-tuple-data)") = true)
    by reflexivity.
  assert (H4 : Py.all_chars not_bracket "(no-tuple-data)" = true)
    by reflexivity.
  split; [exact H1|]. split; [exact H2|]. split; [exact H3|].
  split; [exact H4|].
  exact (X5_no_token_empty_columns "db_loja" "cliente" "DELETE"
           "(no-tuple-data)" H1 H2 H3 H4).
Defined.

(** A run of a class in front of a text is determined by the text. *)
Lemma run_unique (p : ascii -> bool) (x : string) :
  forall x' t t',
    Py.all_chars p x = true -> Py.all_chars p x' = true ->
    stops p t = true -> stops p t' = true ->
    x ++ t = x' ++ t' -> x = x' /\ t = t'.
Proof.
  induction x as [|a x IH]; intros x' t t' Hx Hx' Ht Ht' E.
  - destruct x' as [|b x']; [auto|]. exfalso.
    simpl in E. subst t. simpl in Hx', Ht.
    apply andb_prop in Hx'. destruct Hx' as [Hb _]. now rewrite Hb in Ht.
  - simpl in Hx. apply andb_prop in Hx. destruct Hx as [Ha Hx].
    destruct x' as [|b x'].
    + exfalso. simpl in E. subst t'. simpl in Ht'. now rewrite Ha in Ht'.
    + simpl in Hx'. apply andb_prop in Hx'. destruct Hx' as [_ Hx'].
      simpl in E. injection E as <- E.
      destruct (IH _ _ _ Hx Hx' Ht Ht' E) as [-> ->]. auto.
Qed.

Lemma space_not_dot (a : ascii) : Py.is_space a = true -> not_dot a = true.
Proof.
  unfold not_dot. destruct (Ascii.eqb_spec a ".") as [->|]; [discriminate|].
  reflexivity.
Qed.

Lemma space_not_colon_or_word (a : ascii) :
  Py.is_space a = true -> colon_or_word a = false.
Proof.
  intros H. unfold colon_or_word. rewrite (space_not_word a H).
  destruct (Ascii.eqb_spec a ":") as [->|]; [discriminate | reflexivity].
Qed.

Lemma stops_blank (p : ascii -> bool) (w t : string) :
  blank w -> (forall a, Py.is_space a = true -> p a = false) ->
  stops p (w ++ t) = true.
Proof.
  intros [Hne Hw] Hp. destruct w as [|a w]; [contradiction|].
  simpl in Hw |- *. apply andb_prop in Hw. destruct Hw as [Ha _].
  now rewrite (Hp a Ha).
Qed.

Lemma is_op_stops (o t : string) : is_op o -> stops Py.is_space (o ++ t) = true.
Proof. intros [->|[->| ->]]; reflexivity. Qed.

(** On a line with a well-formed header the pattern of the header can
    only match when whitespace follows the colon of the keyword, and what
    follows that whitespace up to the end holds no line feed, but for one
    that ends the line. *)
Lemma tbl_match_header_inv (sch tb o x : string) (m : caps) :
  header_ok sch tb o = true ->
  match_ _TBL_RE ("table " ++ sch ++ "." ++ tb ++ ": " ++ o ++ ":" ++ x)
  = Some m ->
  exists w3 rest' tail,
    x = w3 ++ rest' ++ tail
    /\ (w3 <> "" /\ Py.all_chars Py.is_space w3 = true)
    /\ no_line_feed rest' = true
    /\ (tail = "" \/ tail = String Py.LF "").
Proof.
  intros Hh Hm.
  destruct (header_ok_inv _ _ _ Hh) as ((Hs1 & Hs2 & Hs3) & (Ht1 & Ht2) & Ho).
  destruct (tbl_match_inv _ _ Hm)
    as (w1 & sch' & tb' & w2 & o' & w3 & rest' & tail & E & (Hw1 & Hw1')
        & (Hs1' & Hs2') & (Ht1' & Ht2') & (Hw2 & Hw2') & Ho' & (Hw3 & Hw3')
        & Hrest' & Htail & _).
  simpl in E. injection E as E.
  (* the names in front of the first dot *)
  assert (E1 : (" " ++ sch) ++ String "." (tb ++ ": " ++ o ++ ":" ++ x)
               = (w1 ++ sch')
                 ++ String "." (tb' ++ ":" ++ w2 ++ o' ++ ":" ++ w3 ++ rest'
                                ++ tail)).
  { rewrite !append_assoc. exact E. }
  apply (run_unique not_dot) in E1; try reflexivity.
  2:{ simpl. exact Hs2. }
  2:{ rewrite all_chars_append, Hs2', andb_true_r.
      exact (all_chars_impl _ _ _ space_not_dot Hw1'). }
  destruct E1 as [_ E1]. injection E1 as E1.
  (* the table name and its colon *)
  assert (E2 : (tb ++ ":") ++ String " " (o ++ ":" ++ x)
               = (tb' ++ ":")
                 ++ (w2 ++ o' ++ ":" ++ w3 ++ rest' ++ tail)).
  { rewrite !append_assoc. exact E1. }
  apply (run_unique colon_or_word) in E2; try reflexivity.
  2:{ rewrite all_chars_append, Ht2. reflexivity. }
  2:{ rewrite all_chars_append, Ht2'. reflexivity. }
  2:{ apply stops_blank; [split; assumption|].
      exact space_not_colon_or_word. }
  destruct E2 as [_ E2].
  (* the blanks in front of the keyword *)
  assert (E3 : " " ++ (o ++ ":" ++ x)
               = w2 ++ (o' ++ ":" ++ w3 ++ rest' ++ tail)) by exact E2.
  apply (run_unique Py.is_space) in E3; try reflexivity; try assumption.
  2:{ apply is_op_stops. now apply is_opb_cases. }
  2:{ now apply is_op_stops. }
  destruct E3 as [_ E3].
  (* the keyword *)
  assert (E4 : x = w3 ++ rest' ++ tail).
  { destruct (is_opb_cases o Ho) as [->|[->| ->]];
      destruct Ho' as [->|[->| ->]]; simpl in E3;
      first [discriminate E3 | injection E3 as E3; exact E3]. }
  exists w3, rest', tail. repeat split; assumption.
Qed.

(** Whitespace in front of a text that begins outside whitespace: a run
    of whitespace at the start of the whole is part of it. *)
Lemma blank_prefix (ws : string) :
  forall w3 r y,
    Py.all_chars Py.is_space w3 = true ->
    stops Py.is_space r = true -> nonempty r = true ->
    ws ++ r = w3 ++ y ->
    exists u, y = u ++ r.
Proof.
  induction ws as [|a ws IH]; intros w3 r y Hw3 Hst Hne E.
  - destruct w3 as [|b w3].
    + exists "". simpl in E. now subst y.
    + exfalso. simpl in E. subst r. simpl in Hw3, Hst.
      apply andb_prop in Hw3. destruct Hw3 as [Hb _]. now rewrite Hb in Hst.
  - destruct w3 as [|b w3].
    + exists (String a ws). simpl in E. now subst y.
    + simpl in E. injection E as _ E. simpl in Hw3.
      apply andb_prop in Hw3. destruct Hw3 as [_ Hw3].
      exact (IH _ _ _ Hw3 Hst Hne E).
Qed.

Lemma strip_header (sch tb o ws : string) :
  Py.all_chars Py.is_space ws = true ->
  Py.strip (line sch tb o ws)
  = "table " ++ sch ++ "." ++ tb ++ ": " ++ o ++ ":".
Proof.
  intros Hws.
  assert (E : line sch tb o ws
              = "" ++ ("table " ++ sch ++ "." ++ tb ++ ": " ++ o ++ ":")
                ++ (" " ++ ws)).
  { unfold line. rewrite !append_assoc. reflexivity. }
  rewrite E, strip_blanks; [|reflexivity | exact Hws].
  unfold Py.strip.
  change (Py.lstrip ("table " ++ sch ++ "." ++ tb ++ ": " ++ o ++ ":"))
    with ("table " ++ sch ++ "." ++ tb ++ ": " ++ o ++ ":").
  apply rstrip_id.
  rewrite <- !append_assoc. rewrite ends_nonspace_append; reflexivity.
Qed.

(** X6: a line written as the header [table <schema>.<table>: <OP>: ]
    (schema not empty, free of dots, not opened by whitespace; table name of
    letters, digits, underscores and colons; one of the three keywords)
    followed by any text is decoded exactly when that text, stripped of the
    whitespace around it, is not empty and holds no line feed.  A line that
    ends with its header is dropped, and so is a change whose column text
    runs over several lines; whitespace between the header and the text, line
    feeds included, does not matter. *)
Theorem X6_line_feed_drops_the_row (sch tb o rest : string) :
  header_ok sch tb o = true ->
  (nonempty (Py.strip rest) && no_line_feed (Py.strip rest) = true ->
   exists columns,
     parse_test_decoding_row (line sch tb o rest)
     = Some (mkParsed sch tb o columns))
  /\ (nonempty (Py.strip rest) && no_line_feed (Py.strip rest) = false ->
      parse_test_decoding_row (line sch tb o rest) = None).
Proof.
  intros Hh. split; intros H.
  - apply andb_prop in H. destruct H as [Hne Hlf].
    rewrite (parse_text _ _ _ _ Hh Hne Hlf). eauto.
  - destruct (strip_split rest) as (ws1 & ws2 & E & H1 & H2 & Hst & Hend).
    unfold parse_test_decoding_row.
    destruct (match_ _TBL_RE (Py.strip (line sch tb o rest))) as [m|] eqn:Hm;
      [exfalso | reflexivity].
    destruct Hend as [Hend|Hend].
    + (* nothing but whitespace after the header *)
      rewrite Hend in E. cbn [append] in E.
      rewrite E, strip_header in Hm
        by (now rewrite all_chars_append, H1, H2).
      change ("table " ++ sch ++ "." ++ tb ++ ": " ++ o ++ ":")
        with ("table " ++ sch ++ "." ++ tb ++ ": " ++ o ++ ":" ++ "") in Hm.
      destruct (tbl_match_header_inv _ _ _ _ _ Hh Hm)
        as (w3 & rest' & tail & E' & (Hw3 & _) & _).
      destruct w3; [contradiction | discriminate E'].
    + (* a text after the header *)
      assert (Hne : nonempty (Py.strip rest) = true)
        by (destruct (Py.strip rest); [discriminate | reflexivity]).
      rewrite Hne in H. cbn [andb] in H.
      rewrite E in Hm at 1.
      rewrite (strip_line_text _ _ _ _ _ _ H2 Hend) in Hm.
      change (line sch tb o (ws1 ++ Py.strip rest))
        with ("table " ++ sch ++ "." ++ tb ++ ": " ++ o ++ ":"
              ++ (String " " ws1 ++ Py.strip rest)) in Hm.
      destruct (tbl_match_header_inv _ _ _ _ _ Hh Hm)
        as (w3 & rest' & tail & E' & (_ & Hw3) & Hlf & Htail).
      destruct (blank_prefix _ _ _ _ Hw3 Hst Hne E') as (u & Eu).
      destruct Htail as [->| ->].
      * rewrite append_nil_r in Eu. rewrite Eu in Hlf.
        rewrite no_line_feed_append in Hlf.
        apply andb_prop in Hlf. destruct Hlf as [_ Hlf].
        rewrite Hlf in H. discriminate H.
      * assert (Hx : ends_nonspace (rest' ++ String Py.LF "") = true)
          by (rewrite Eu, ends_nonspace_append by exact Hne; exact Hend).
        rewrite ends_nonspace_append in Hx by reflexivity.
        discriminate Hx.
Qed.

Lemma X6_line_feed_drops_the_row_witness :
  let rest := "id[integer]:1 obs[text]:'linha um" ++ String Py.LF "linha dois'" in
  header_ok "db_loja" "cliente" "INSERT" = true
  /\ nonempty (Py.strip rest) && no_line_feed (Py.strip rest) = false
  /\ parse_test_decoding_row (line "db_loja" "cliente" "INSERT" rest) = None
  /\ nonempty (Py.strip "") && no_line_feed (Py.strip "") = false
  /\ parse_test_decoding_row (line "db_loja" "cliente" "INSERT" "") = None.
Proof.
  intros rest.
  assert (H1 : header_ok "db_loja" "cliente" "INSERT" = true) by reflexivity.
  assert (H2 : nonempty (Py.strip rest) && no_line_feed (Py.strip rest)
               = false) by reflexivity.
  assert (H3 : nonempty (Py.strip "") && no_line_feed (Py.strip "") = false)
    by reflexivity.
  split; [exact H1|]. split; [exact H2|]. split.
  - exact (proj2 (X6_line_feed_drops_the_row "db_loja" "cliente" "INSERT" rest
                    H1) H2).
  - split; [exact H3|].
    exact (proj2 (X6_line_feed_drops_the_row "db_loja" "cliente" "INSERT" ""
                    H1) H3).
Defined.

(** ** A quoted value that holds the start of a token *)

(** The column pattern on a token whose value is a run without blank,
    whatever its first character. *)
Lemma kv_exec_run (n : nat) (k ty v tail : string) :
  column_ok k ty = true ->
  run_ok v = true ->
  tail_ok tail = true ->
  exec n _KV_RE (run_token k ty v ++ tail) [] accept
  = Some (tail, [(2, v); (1, k)]).
Proof.
  intros Hc Hv Htail. unfold run_token.
  destruct (column_ok_inv _ _ Hc) as ((Hk1 & Hk2) & (Ht1 & Ht2 & Ht3)).
  unfold run_ok in Hv. apply andb_prop in Hv. destruct Hv as [Hv1 Hv2].
  destruct v as [|a v']; [discriminate|].
  clear Hv1. simpl in Hv2. apply andb_prop in Hv2. destruct Hv2 as [Ha Hv'].
  replace ((k ++ "[" ++ ty ++ "]:" ++ String a v') ++ tail)
    with (k ++ String "[" (ty ++ String "]" (String ":" (String a (v' ++ tail)))))
    by (now rewrite !append_assoc).
  unfold _KV_RE.
  rewrite exec_Seq, exec_Group. apply exec_Plus_max; try assumption.
  { reflexivity. }
  rewrite consumed_append, exec_Seq, exec_Char.
  rewrite exec_Seq. apply exec_Plus_max; try assumption.
  { reflexivity. }
  rewrite exec_Seq, exec_Char, exec_Seq, exec_Char.
  rewrite exec_Seq, exec_Group, exec_Seq.
  fold ahead_token. fold ahead_end. unfold NotSpace, Dot.
  rewrite exec_Chr. cbv beta. fold (not_space a). rewrite Ha.
  rewrite exec_Star_lazy.
  etransitivity;
    [exact (lazy_bare n
              (fun s' c' => (2, consumed (String a (v' ++ tail)) s') :: c')
              v' tail [(1, k)] Hv' Htail)|].
  cbv beta. now rewrite consumed_cons.
Qed.

Lemma run_token_facts (k ty v : string) :
  column_ok k ty = true ->
  run_ok v = true ->
  nonempty (run_token k ty v) = true
  /\ ends_nonspace (run_token k ty v) = true
  /\ no_line_feed (run_token k ty v) = true
  /\ stops Py.is_space (run_token k ty v) = true.
Proof.
  intros Hc Hv. unfold run_token.
  destruct (column_ok_inv _ _ Hc) as ((Hk1 & Hk2) & (Ht1 & Ht2 & Ht3)).
  unfold run_ok in Hv. apply andb_prop in Hv. destruct Hv as [Hv1 Hv2].
  repeat split.
  - destruct k; [discriminate | reflexivity].
  - rewrite <- !append_assoc. rewrite ends_nonspace_append by exact Hv1.
    now apply ends_nonspace_all.
  - rewrite !no_line_feed_append, Ht3.
    unfold no_line_feed at 1. rewrite (all_chars_impl _ _ k word_not_lf Hk2).
    unfold no_line_feed. now rewrite (all_chars_impl _ _ v not_space_not_lf Hv2).
  - rewrite stops_append by exact Hk1.
    destruct k as [|a k]; [discriminate|]. simpl in Hk2 |- *.
    apply andb_prop in Hk2. destruct Hk2 as [Ha _].
    now rewrite (word_not_space a Ha).
Qed.

Lemma tail_ok_run_token (k ty v x : string) :
  column_ok k ty = true ->
  tail_ok (String " " (run_token k ty v ++ x)) = true.
Proof.
  intros Hc. destruct (column_ok_inv _ _ Hc) as ((Hk1 & Hk2) & _).
  unfold run_token. cbn [tail_ok token_ahead].
  change (Py.is_space " ") with true. cbn [andb]. rewrite !append_assoc.
  destruct k as [|a k]; [discriminate|].
  simpl in Hk2. apply andb_prop in Hk2. destruct Hk2 as [Ha Hk].
  change ((String a k ++ "[" ++ ty ++ "]:" ++ v ++ x))
    with (String a (k ++ String "[" (ty ++ "]:" ++ v ++ x))).
  cbn [after_spaces]. rewrite (word_not_space a Ha), Ha.
  now rewrite word_bracket_name.
Qed.

Lemma scan_cons (n fuel : nat) (r : regex) (s s' : string) (c : caps) :
  search n r s = Some (s', c) ->
  String.length s' < String.length s ->
  scan n (S fuel) r s = c :: scan n fuel r s'.
Proof.
  intros H L. cbn [scan]. rewrite H.
  now rewrite (proj2 (Nat.ltb_lt _ _) L).
Qed.

Lemma scan_end (n fuel : nat) : scan n fuel _KV_RE "" = [].
Proof. destruct fuel; reflexivity. Qed.

Lemma strip_run (v : string) : run_ok v = true -> Py.strip v = v.
Proof.
  unfold run_ok. intros H. apply andb_prop in H. destruct H as [H1 H2].
  unfold Py.strip. destruct v as [|a v']; [discriminate|].
  assert (Hend : ends_nonspace (String a v') = true)
    by (now apply ends_nonspace_all).
  simpl in H2. apply andb_prop in H2. destruct H2 as [Ha _].
  cbn [Py.lstrip]. unfold not_space in Ha. apply negb_true_iff in Ha.
  rewrite Ha. now apply rstrip_id.
Qed.

Lemma last_cons (a : ascii) (v : string) :
  nonempty v = true -> Py.last (String a v) = Py.last v.
Proof.
  unfold Py.last. destruct v as [|b v]; [discriminate|]. intros _.
  cbn [String.length]. simpl Nat.sub. rewrite !Nat.sub_0_r. reflexivity.
Qed.

Lemma first_append (v x : string) :
  nonempty v = true -> Py.first (v ++ x) = Py.first v.
Proof. destruct v; [discriminate | reflexivity]. Qed.

(** X7: take a token [k[ty]:'w1 k2[ty2]:v2'] whose quoted text is a run
    [w1] free of whitespace that does not end with a single quote, one blank,
    and the text of a further token, where [k] and [k2] are non-empty runs of
    letters, digits and underscores, [ty] and [ty2] are not empty and free
    of closing brackets and line feeds, and [v2] is free of whitespace and
    not opened by a single quote.  On the line made of a well-formed header
    and that one token the value is not kept whole: the decoder ends it in
    front of the blank and reads the rest as a second column, so that [k]
    gets the opening quote followed by [w1] and then [k2] gets [v2] followed
    by the closing quote (one column with the second value when [k2] is
    [k]). *)
Theorem X7_quoted_value_cut_at_inner_token
  (sch tb o k ty w1 k2 ty2 v2 : string) :
  header_ok sch tb o = true ->
  column_ok k ty = true ->
  column_ok k2 ty2 = true ->
  Py.all_chars not_space w1 = true ->
  Py.opt_is (Py.last w1) "'" = false ->
  Py.all_chars not_space v2 = true ->
  Py.opt_is (Py.first v2) "'" = false ->
  parse_test_decoding_row
    (line sch tb o
          (tokens_text
             [mkToken k ty (Quoted (w1 ++ " " ++ run_token k2 ty2 v2))]))
  = Some (mkParsed sch tb o
            (dict_set [(k, "'" ++ w1)] k2 (v2 ++ "'"))).
Proof.
  intros Hh Hc Hc2 Hw1 Hq1 Hv2 Hq2.
  pose (v1 := String "'" w1). pose (v2' := v2 ++ "'").
  assert (Hr1 : run_ok v1 = true) by (unfold run_ok, v1; simpl; exact Hw1).
  assert (Hr2 : run_ok v2' = true).
  { unfold run_ok, v2'. rewrite all_chars_append, Hv2.
    destruct v2; reflexivity. }
  assert (Etext : tokens_text
                    [mkToken k ty (Quoted (w1 ++ " " ++ run_token k2 ty2 v2))]
                  = run_token k ty v1 ++ String " " (run_token k2 ty2 v2')).
  { unfold tokens_text, token_text, run_token, v1, v2'.
    cbn [map String.concat tok_name tok_type tok_value raw_value].
    rewrite !append_assoc. reflexivity. }
  rewrite Etext.
  destruct (run_token_facts k ty v1 Hc Hr1) as (N1 & _ & L1 & S1).
  destruct (run_token_facts k2 ty2 v2' Hc2 Hr2) as (N2 & E2 & L2 & _).
  set (T1 := run_token k ty v1) in *. set (T2 := run_token k2 ty2 v2') in *.
  assert (Hend : ends_nonspace (T1 ++ String " " T2) = true).
  { change (String " " T2) with (" " ++ T2).
    rewrite <- append_assoc, ends_nonspace_append by exact N2. exact E2. }
  assert (Hlf : no_line_feed (T1 ++ String " " T2) = true).
  { change (String " " T2) with (" " ++ T2).
    now rewrite !no_line_feed_append, L1, L2. }
  assert (Hst : stops Py.is_space (T1 ++ String " " T2) = true)
    by (now rewrite stops_append).
  unfold parse_test_decoding_row.
  rewrite (strip_line _ _ _ _ Hend), (tbl_match_line sch tb o _ Hh Hlf Hst).
  cbn [group Nat.eqb].
  assert (Hf : finditer _KV_RE (T1 ++ String " " T2)
               = [[(2, v1); (1, k)]; [(2, v2'); (1, k2)]]).
  { unfold finditer. set (n := String.length (T1 ++ String " " T2)).
    assert (Hx1 : exec n _KV_RE (T1 ++ String " " T2) [] accept
                  = Some (String " " T2, [(2, v1); (1, k)])).
    { apply kv_exec_run; [exact Hc | exact Hr1|].
      rewrite <- (append_nil_r T2). now apply tail_ok_run_token. }
    assert (Hx2 : exec n _KV_RE T2 [] accept = Some ("", [(2, v2'); (1, k2)])).
    { rewrite <- (append_nil_r T2) at 1. now apply kv_exec_run. }
    assert (Hl : String.length (String " " T2) < n).
    { unfold n. rewrite length_append. destruct T1; [discriminate|].
      cbn [String.length]. lia. }
    rewrite (scan_cons n n _ _ _ _ (search_hit _ _ _ _ Hx1) Hl).
    f_equal. rewrite (scan_fuel n _ n (S (String.length (String " " T2))));
      [|exact Hl | lia].
    rewrite (scan_cons n _ _ (String " " T2) "" [(2, v2'); (1, k2)]).
    - now rewrite scan_end.
    - rewrite search_skip_blank. now apply search_hit.
    - cbn [String.length]. lia. }
  rewrite Hf. cbn [fold_left group Nat.eqb].
  assert (C1 : clean_value v1 = "'" ++ w1).
  { unfold clean_value. rewrite (strip_run v1 Hr1). unfold v1.
    destruct w1 as [|b w1']; [reflexivity|].
    rewrite last_cons by reflexivity. rewrite Hq1.
    now rewrite andb_false_r. }
  assert (C2 : clean_value v2' = v2 ++ "'").
  { unfold clean_value. rewrite (strip_run v2' Hr2). unfold v2'.
    destruct v2 as [|b v2'']; [reflexivity|].
    rewrite first_append by reflexivity. rewrite Hq2.
    now rewrite andb_false_r, andb_false_l. }
  rewrite C1, C2. reflexivity.
Qed.

Lemma X7_quoted_value_cut_at_inner_token_witness :
  header_ok "db_loja" "cliente" "INSERT" = true
  /\ column_ok "obs" "text" = true
  /\ column_ok "item" "1" = true
  /\ Py.all_chars not_space "ver" = true
  /\ Py.opt_is (Py.last "ver") "'" = false
  /\ Py.all_chars not_space "x" = true
  /\ Py.opt_is (Py.first "x") "'" = false
  /\ parse_test_decoding_row
       "table db_loja.cliente: INSERT: obs[text]:'ver item[1]:x'"
     = Some (mkParsed "db_loja" "cliente" "INSERT"
               [("obs", "'ver"); ("item", "x'")]).
Proof.
  assert (H1 : header_ok "db_loja" "cliente" "INSERT" = true) by reflexivity.
  assert (H2 : column_ok "obs" "text" = true) by reflexivity.
  assert (H3 : column_ok "item" "1" = true) by reflexivity.
  assert (H4 : Py.all_chars not_space "ver" = true) by reflexivity.
  assert (H5 : Py.opt_is (Py.last "ver") "'" = false) by reflexivity.
  assert (H6 : Py.all_chars not_space "x" = true) by reflexivity.
  assert (H7 : Py.opt_is (Py.first "x") "'" = false) by reflexivity.
  split; [exact H1|]. split; [exact H2|]. split; [exact H3|].
  split; [exact H4|]. split; [exact H5|]. split; [exact H6|].
  split; [exact H7|].
  exact (X7_quoted_value_cut_at_inner_token "db_loja" "cliente" "INSERT"
           "obs" "text" "ver" "item" "1" "x" H1 H2 H3 H4 H5 H6 H7).
Defined.

(* ================================================================= *)
(** ** The cycle and its failures *)

Lemma main_run_db_down (cfg : Config) (w : World) :
  db_answer w (fetch_query (CDC_SLOT_NAME cfg) (CDC_BATCH_LIMIT cfg)) = None ->
  main cfg w
  = (Raise DatabaseError,
     mkWorld (clock w) (ticks w) (db_answer w)
             (queries w
              ++ [fetch_query (CDC_SLOT_NAME cfg) (CDC_BATCH_LIMIT cfg)])
             (sink_accepts w) (puts w)
             (stdout w ++ [msg_consuming cfg]))%list.
Proof.
  intros H. unfold main. unfold bind at 1. unfold print at 1. cbv beta iota.
  unfold bind at 1. rewrite fetch_run.
  cbn [clock ticks db_answer queries sink_accepts puts stdout].
  now rewrite H.
Qed.

(** X8: when the statement sent to the database raises, the cycle ends with
    that error right after its first message: the clock is not read, nothing
    is put in the object store, no further line is printed. *)
Theorem X8_database_error_ends_the_cycle (cfg : Config) (w : World) :
  db_answer w (fetch_query (CDC_SLOT_NAME cfg) (CDC_BATCH_LIMIT cfg)) = None ->
  outcome (main cfg) w = Raise DatabaseError
  /\ queries (after (main cfg) w)
     = (queries w
        ++ [fetch_query (CDC_SLOT_NAME cfg) (CDC_BATCH_LIMIT cfg)])%list
  /\ ticks (after (main cfg) w) = ticks w
  /\ puts (after (main cfg) w) = puts w
  /\ stdout (after (main cfg) w) = (stdout w ++ [msg_consuming cfg])%list.
Proof.
  intros H. unfold outcome, after. rewrite (main_run_db_down cfg w H).
  repeat split.
Qed.

Lemma X8_database_error_ends_the_cycle_witness :
  db_answer db_down_world
    (fetch_query (CDC_SLOT_NAME default_config)
                 (CDC_BATCH_LIMIT default_config)) = None
  /\ outcome (main default_config) db_down_world = Raise DatabaseError
  /\ puts (after (main default_config) db_down_world) = [].
Proof.
  assert (H : db_answer db_down_world
                (fetch_query (CDC_SLOT_NAME default_config)
                             (CDC_BATCH_LIMIT default_config)) = None)
    by reflexivity.
  split; [exact H|].
  destruct (X8_database_error_ends_the_cycle default_config db_down_world H)
    as (E1 & _ & _ & E2 & _).
  split; [exact E1 | exact E2].
Defined.

(** X9: when the object store refuses the put of a batch with entries of
    the target table, the cycle ends with that error after the entries have
    been taken from the slot: the statement has been executed, the put has
    been attempted once, and the line that reports a written file is not
    printed. *)
Theorem X9_refused_put_after_the_fetch (cfg : Config) (w : World)
  (rows : list RawRow) :
  let q := fetch_query (CDC_SLOT_NAME cfg) (CDC_BATCH_LIMIT cfg) in
  let out := collect (isoformat (clock w (ticks w))) (PGSCHEMA cfg)
                     TARGET_TABLE rows in
  let call := put_of BUCKET_NAME RAW_INC_BASE_PATH (frame out) "cliente_cdc"
                     (clock w (S (ticks w))) in
  db_answer w q = Some rows ->
  filter (is_target (PGSCHEMA cfg) TARGET_TABLE) rows <> [] ->
  sink_accepts w call = false ->
  outcome (main cfg) w = Raise S3Error
  /\ queries (after (main cfg) w) = (queries w ++ [q])%list
  /\ puts (after (main cfg) w) = (puts w ++ [call])%list
  /\ stdout (after (main cfg) w) = (stdout w ++ [msg_consuming cfg])%list.
Proof.
  intros q out call Hdb Hhits Hno. unfold outcome, after.
  rewrite (main_run_hits cfg w rows Hdb Hhits). cbv zeta.
  fold out. fold call. rewrite Hno. repeat split.
Qed.

Lemma X9_refused_put_after_the_fetch_witness :
  db_answer sink_down_world
    (fetch_query (CDC_SLOT_NAME default_config)
                 (CDC_BATCH_LIMIT default_config)) = Some sample_rows
  /\ filter (is_target (PGSCHEMA default_config) TARGET_TABLE) sample_rows
     <> []
  /\ outcome (main default_config) sink_down_world = Raise S3Error
  /\ List.length (queries (after (main default_config) sink_down_world)) = 1
  /\ List.length (puts (after (main default_config) sink_down_world)) = 1.
Proof.
  assert (H1 : db_answer sink_down_world
                 (fetch_query (CDC_SLOT_NAME default_config)
                              (CDC_BATCH_LIMIT default_config))
               = Some sample_rows) by reflexivity.
  assert (H2 : filter (is_target (PGSCHEMA default_config) TARGET_TABLE)
                      sample_rows <> []) by (vm_compute; discriminate).
  split; [exact H1|]. split; [exact H2|].
  destruct (X9_refused_put_after_the_fetch default_config sink_down_world
              sample_rows H1 H2 eq_refl) as (E1 & E2 & E3 & _).
  split; [exact E1|]. split.
  - rewrite E2. reflexivity.
  - rewrite E3. reflexivity.
Defined.

(** X10: a cycle whose put is accepted ends normally, and its last line
    names the key of the object that was put and the number of entries of
    the target table in the batch. *)
Theorem X10_report_names_key_and_count (cfg : Config) (w : World)
  (rows : list RawRow) :
  let q := fetch_query (CDC_SLOT_NAME cfg) (CDC_BATCH_LIMIT cfg) in
  let hits := filter (is_target (PGSCHEMA cfg) TARGET_TABLE) rows in
  let out := collect (isoformat (clock w (ticks w))) (PGSCHEMA cfg)
                     TARGET_TABLE rows in
  let call := put_of BUCKET_NAME RAW_INC_BASE_PATH (frame out) "cliente_cdc"
                     (clock w (S (ticks w))) in
  db_answer w q = Some rows ->
  hits <> [] ->
  sink_accepts w call = true ->
  outcome (main cfg) w = Ok tt
  /\ puts (after (main cfg) w) = (puts w ++ [call])%list
  /\ stdout (after (main cfg) w)
     = (stdout w
        ++ [msg_consuming cfg;
            msg_written (object_name call) (List.length hits)])%list.
Proof.
  intros q hits out call Hdb Hhits Hyes. unfold outcome, after.
  rewrite (main_run_hits cfg w rows Hdb Hhits). cbv zeta.
  fold out. fold call. rewrite Hyes. cbn [fst snd puts stdout].
  split; [reflexivity|]. split; [reflexivity|].
  unfold out, hits. rewrite collect_length, <- app_assoc. reflexivity.
Qed.

Lemma X10_report_names_key_and_count_witness :
  db_answer sample_world
    (fetch_query (CDC_SLOT_NAME default_config)
                 (CDC_BATCH_LIMIT default_config)) = Some sample_rows
  /\ filter (is_target (PGSCHEMA default_config) TARGET_TABLE) sample_rows
     <> []
  /\ outcome (main default_config) sample_world = Ok tt
  /\ stdout (after (main default_config) sample_world)
     = ["Consumindo CDC do slot 'data_sync_slot' (limite=1000)...";
        "Arquivo incremental gravado em: 'inc/data=20240201/cliente_cdc_20240201_000001.csv' (1 registros)"].
Proof.
  assert (H1 : db_answer sample_world
                 (fetch_query (CDC_SLOT_NAME default_config)
                              (CDC_BATCH_LIMIT default_config))
               = Some sample_rows) by reflexivity.
  assert (H2 : filter (is_target (PGSCHEMA default_config) TARGET_TABLE)
                      sample_rows <> []) by (vm_compute; discriminate).
  split; [exact H1|]. split; [exact H2|].
  destruct (X10_report_names_key_and_count default_config sample_world
              sample_rows H1 H2 eq_refl) as (E1 & _ & E3).
  split; [exact E1|]. rewrite E3. reflexivity.
Defined.

Lemma app_one_neq {A : Type} (l : list A) (x : A) : (l ++ [x])%list <> l.
Proof.
  intros E. apply (f_equal (@List.length A)) in E.
  rewrite length_app in E. simpl in E. lia.
Qed.

(** X11: whatever the database answers to the statement and whatever the
    object store answers, one cycle sends at most one statement, the query
    of the slot with the configured name and limit, makes at most one put,
    prints its first message and at most one more line after what was
    printed before, and reads the clock at most twice; it reads it twice
    exactly when it makes a put. *)
Theorem X11_cycle_footprint (cfg : Config) (w : World) :
  let w' := after (main cfg) w in
  (queries w' = queries w
   \/ queries w'
      = (queries w
         ++ [fetch_query (CDC_SLOT_NAME cfg) (CDC_BATCH_LIMIT cfg)])%list)
  /\ (puts w' = puts w \/ exists call, puts w' = (puts w ++ [call])%list)
  /\ (exists rest,
         stdout w' = (stdout w ++ msg_consuming cfg :: rest)%list
         /\ List.length rest <= 1)
  /\ ticks w <= ticks w' <= ticks w + 2
  /\ (ticks w' = ticks w + 2 <-> puts w' <> puts w).
Proof.
  cbv zeta. unfold after.
  destruct (db_answer w
              (fetch_query (CDC_SLOT_NAME cfg) (CDC_BATCH_LIMIT cfg)))
    as [rows|] eqn:Hdb.
  - pose proof (main_unfold cfg w rows Hdb) as E. cbv zeta in E.
    destruct rows as [|r0 rows0].
    + rewrite E. cbn [snd queries puts stdout ticks].
      split; [now right|]. split; [now left|]. split.
      * exists [msg_no_changes]. split; [now rewrite <- app_assoc | simpl; lia].
      * split; [lia|]. split; [lia | congruence].
    + destruct (collect _ _ _ (r0 :: rows0)) as [|o0 out0].
      * rewrite E. cbn [snd queries puts stdout ticks].
        split; [now right|]. split; [now left|]. split.
        -- exists [msg_no_target].
           split; [now rewrite <- app_assoc | simpl; lia].
        -- split; [lia|]. split; [lia | congruence].
      * rewrite E. cbn [snd queries puts stdout ticks].
        split; [now right|]. split; [right; eexists; reflexivity|]. split.
        -- destruct (sink_accepts w _).
           ++ eexists [_]. split; [now rewrite <- app_assoc | simpl; lia].
           ++ exists []. split; [reflexivity | simpl; lia].
        -- split; [lia|]. split; [intros _; apply app_one_neq | lia].
  - rewrite (main_run_db_down cfg w Hdb). cbn [snd queries puts stdout ticks].
    split; [now right|]. split; [now left|]. split.
    + exists []. split; [reflexivity | simpl; lia].
    + split; [lia|]. split; [lia | congruence].
Qed.

(* ================================================================= *)
(** ** The filter on parts of a batch *)

Lemma to_frame_values (out : list OutRow) :
  df_values (to_frame out) = map cells out.
Proof. destruct out; reflexivity. Qed.

(** X12: the rows the filter builds from two batches laid end to end are
    the rows it builds from the first followed by the rows it builds from
    the second, for one reading of the clock. *)
Theorem X12_filter_of_joined_batches (xs ys : list RawRow)
  (target_schema target_table : string) (w : World) :
  exists dx dy dxy,
    outcome (process_cdc_for_cliente xs target_schema target_table) w = Ok dx
    /\ outcome (process_cdc_for_cliente ys target_schema target_table) w
       = Ok dy
    /\ outcome (process_cdc_for_cliente (xs ++ ys) target_schema target_table)
               w = Ok dxy
    /\ df_values dxy = (df_values dx ++ df_values dy)%list.
Proof.
  unfold outcome. rewrite !process_run. cbn [fst].
  do 3 eexists. split; [reflexivity|]. split; [reflexivity|].
  split; [reflexivity|].
  now rewrite !to_frame_values, collect_app, map_app.
Qed.

(** X13: the transaction id of an entry never reaches a record: the frame
    built from a batch is the frame built from the batch with every
    transaction id replaced by zero. *)
Theorem X13_transaction_id_unused (raw_rows : list RawRow)
  (target_schema target_table : string) (w : World) :
  outcome (process_cdc_for_cliente (map without_xid raw_rows)
             target_schema target_table) w
  = outcome (process_cdc_for_cliente raw_rows target_schema target_table) w.
Proof.
  unfold outcome. rewrite !process_run. cbn [fst]. do 2 f_equal.
  rewrite !collect_flat_map.
  induction raw_rows as [|r rows IH]; [reflexivity|].
  cbn [map flat_map]. rewrite IH. f_equal.
Qed.

(* ================================================================= *)
(** ** The key of the object *)

Lemma all_from_spec (p : N -> bool) (k : nat) (n m : N) :
  all_from p k n = true -> (n <= m)%N -> (m < n + N.of_nat k)%N ->
  p m = true.
Proof.
  revert n. induction k as [|k IH]; intros n H L U.
  - simpl in U. lia.
  - cbn [all_from] in H. apply andb_prop in H. destruct H as [Hn Hk].
    destruct (N.eq_dec m n) as [->|Hne]; [exact Hn|].
    apply (IH (N.succ n) Hk); lia.
Qed.

Lemma zpad2_ok (n : N) : (n < 100)%N -> zpad_ok 2 n = true.
Proof.
  intros H. apply (all_from_spec (zpad_ok 2) 100 0); [|lia|lia].
  vm_compute. reflexivity.
Qed.

Lemma zpad4_ok (n : N) : (n < 10000)%N -> zpad_ok 4 n = true.
Proof.
  intros H.
  apply (all_from_spec (zpad_ok 4) (N.to_nat 10000) 0); [|lia|lia].
  vm_compute. reflexivity.
Qed.

Lemma zpad_ok_length (w : nat) (n : N) :
  zpad_ok w n = true -> String.length (zpad w n) = w.
Proof.
  unfold zpad_ok. intros H. apply andb_prop in H.
  now apply Nat.eqb_eq.
Qed.

Lemma zpad_ok_inj (w : nat) (n m : N) :
  zpad_ok w n = true -> zpad_ok w m = true -> zpad w n = zpad w m -> n = m.
Proof.
  unfold zpad_ok. intros Hn Hm E.
  apply andb_prop in Hn. apply andb_prop in Hm.
  destruct Hn as [_ Hn]. destruct Hm as [_ Hm].
  apply N.eqb_eq in Hn. apply N.eqb_eq in Hm.
  rewrite <- Hn, <- Hm. now rewrite E.
Qed.

Lemma append_inv_head (a x y : string) : a ++ x = a ++ y -> x = y.
Proof.
  induction a as [|c a IH]; [trivial|].
  simpl. intros E. injection E as E. now apply IH.
Qed.

Lemma append_split (a b c d : string) :
  String.length a = String.length c -> a ++ b = c ++ d -> a = c /\ b = d.
Proof.
  revert c. induction a as [|x a IH]; intros [|y c] L E; try discriminate.
  - now split.
  - simpl in L, E. injection L as L. injection E as -> E.
    destruct (IH c L E) as [-> ->]. now split.
Qed.

Lemma valid_datetime_fields (t : datetime) :
  valid_datetime t = true ->
  zpad_ok 4 (year t) = true /\ zpad_ok 2 (month t) = true
  /\ zpad_ok 2 (day t) = true /\ zpad_ok 2 (hour t) = true
  /\ zpad_ok 2 (minute t) = true /\ zpad_ok 2 (second t) = true.
Proof.
  unfold valid_datetime. intros H.
  repeat (apply andb_prop in H; destruct H as [H ?]).
  repeat match goal with
         | H : (_ <=? _)%N = true |- _ => apply N.leb_le in H
         | H : (_ <? _)%N = true |- _ => apply N.ltb_lt in H
         end.
  repeat split; (apply zpad4_ok || apply zpad2_ok); lia.
Qed.

Lemma field3_inj (w1 w2 w3 : nat) (a1 a2 a3 b1 b2 b3 : N) :
  zpad_ok w1 a1 = true -> zpad_ok w2 a2 = true -> zpad_ok w3 a3 = true ->
  zpad_ok w1 b1 = true -> zpad_ok w2 b2 = true -> zpad_ok w3 b3 = true ->
  zpad w1 a1 ++ zpad w2 a2 ++ zpad w3 a3
  = zpad w1 b1 ++ zpad w2 b2 ++ zpad w3 b3 ->
  a1 = b1 /\ a2 = b2 /\ a3 = b3.
Proof.
  intros A1 A2 A3 B1 B2 B3 E.
  apply append_split in E;
    [|now rewrite !zpad_ok_length by assumption].
  destruct E as [E1 E].
  apply append_split in E;
    [|now rewrite !zpad_ok_length by assumption].
  destruct E as [E2 E3].
  repeat split; eapply zpad_ok_inj; eassumption.
Qed.

Lemma destination_same_second (base_path prefix : string) (t1 t2 : datetime) :
  valid_datetime t1 = true -> valid_datetime t2 = true ->
  (destination base_path prefix t1 = destination base_path prefix t2
   <-> same_second t1 t2).
Proof.
  intros V1 V2.
  destruct (valid_datetime_fields t1 V1) as (Y1 & M1 & D1 & H1 & I1 & S1).
  destruct (valid_datetime_fields t2 V2) as (Y2 & M2 & D2 & H2 & I2 & S2).
  assert (Lymd : forall t, zpad_ok 4 (year t) = true ->
                           zpad_ok 2 (month t) = true ->
                           zpad_ok 2 (day t) = true ->
                           String.length (strftime_Ymd t) = 8).
  { intros t Hy Hm Hd. unfold strftime_Ymd.
    now rewrite !length_append, !zpad_ok_length by assumption. }
  assert (Lhms : forall t, zpad_ok 2 (hour t) = true ->
                           zpad_ok 2 (minute t) = true ->
                           zpad_ok 2 (second t) = true ->
                           String.length (strftime_HMS t) = 6).
  { intros t Hy Hm Hd. unfold strftime_HMS.
    now rewrite !length_append, !zpad_ok_length by assumption. }
  split.
  - unfold destination. intros E.
    apply append_inv_head in E.
    apply append_split in E;
      [|rewrite !length_append, !Lymd by assumption; reflexivity].
    destruct E as [E1 E].
    apply (append_inv_head "data=") in E1.
    rewrite E1 in E.
    apply (append_inv_head "/") in E. apply append_inv_head in E.
    apply (append_inv_head "_") in E.
    rewrite <- !append_assoc in E.
    rewrite !(append_assoc (strftime_Ymd t2)) in E.
    apply append_inv_head in E. apply (append_inv_head "_") in E.
    apply append_split in E; [|now rewrite !Lhms by assumption].
    destruct E as [E2 _].
    unfold strftime_Ymd in E1. unfold strftime_HMS in E2.
    destruct (field3_inj 4 2 2 _ _ _ _ _ _ Y1 M1 D1 Y2 M2 D2 E1)
      as (? & ? & ?).
    destruct (field3_inj 2 2 2 _ _ _ _ _ _ H1 I1 S1 H2 I2 S2 E2)
      as (? & ? & ?).
    now repeat split.
  - intros (Ey & Em & Ed & Eh & Ei & Es).
    unfold destination, strftime_Ymd, strftime_HMS.
    now rewrite Ey, Em, Ed, Eh, Ei, Es.
Qed.

(** X14: the key under which the writer puts an object tells the second
    of its reading of the clock and nothing finer: two accepted writes under
    one base path and one prefix return the same key exactly when their
    readings fall in the same second, whatever frames they carry. *)
Theorem X14_one_key_per_second (bucket base_path prefix : string)
  (df1 df2 : DataFrame) (w1 w2 : World) (key1 key2 : string) :
  valid_datetime (clock w1 (ticks w1)) = true ->
  valid_datetime (clock w2 (ticks w2)) = true ->
  outcome (write_csv_to_minio bucket base_path df1 prefix) w1 = Ok key1 ->
  outcome (write_csv_to_minio bucket base_path df2 prefix) w2 = Ok key2 ->
  (key1 = key2 <-> same_second (clock w1 (ticks w1)) (clock w2 (ticks w2))).
Proof.
  intros V1 V2. unfold outcome. rewrite !write_run. cbv zeta. cbn [fst].
  destruct (sink_accepts w1 _); [|discriminate].
  destruct (sink_accepts w2 _); [|discriminate].
  intros [= <-] [= <-]. unfold put_of. cbn [object_name].
  now apply destination_same_second.
Qed.

Lemma X14_one_key_per_second_witness :
  valid_datetime (clock sample_world (ticks sample_world)) = true
  /\ valid_datetime (clock same_second_world (ticks same_second_world)) = true
  /\ outcome (write_csv_to_minio "raw" "inc/" (frame []) "cliente_cdc")
             sample_world
     = Ok "inc/data=20240131/cliente_cdc_20240131_235959.csv"
  /\ outcome (write_csv_to_minio "raw" "inc/" empty_frame "cliente_cdc")
             same_second_world
     = Ok "inc/data=20240131/cliente_cdc_20240131_235959.csv"
  /\ same_second (clock sample_world (ticks sample_world))
                 (clock same_second_world (ticks same_second_world)).
Proof.
  assert (V1 : valid_datetime (clock sample_world (ticks sample_world)) = true)
    by reflexivity.
  assert (V2 : valid_datetime
                 (clock same_second_world (ticks same_second_world)) = true)
    by reflexivity.
  assert (O1 : outcome (write_csv_to_minio "raw" "inc/" (frame [])
                          "cliente_cdc") sample_world
               = Ok "inc/data=20240131/cliente_cdc_20240131_235959.csv")
    by (vm_compute; reflexivity).
  assert (O2 : outcome (write_csv_to_minio "raw" "inc/" empty_frame
                          "cliente_cdc") same_second_world
               = Ok "inc/data=20240131/cliente_cdc_20240131_235959.csv")
    by (vm_compute; reflexivity).
  split; [exact V1|]. split; [exact V2|]. split; [exact O1|].
  split; [exact O2|].
  exact (proj1 (X14_one_key_per_second "raw" "inc/" "cliente_cdc"
                  (frame []) empty_frame sample_world same_second_world
                  _ _ V1 V2 O1 O2) eq_refl).
Defined.

(* ================================================================= *)
(** ** The rows of the object *)

Lemma dumps_needs_quote (kv : string * string) (d : list (string * string)) :
  Csv.needs_quote (Json.dumps (kv :: d)) = true.
Proof.
  unfold Json.dumps. cbn [map String.concat].
  destruct (map Json.item d); unfold Json.item, Json.str;
    cbn [append Csv.needs_quote];
    change (Csv.special Json.quote) with true;
    now rewrite orb_true_r.
Qed.

Lemma field_columns (d : list (string * string)) :
  Csv.field (Json.dumps d) = columns_cell d.
Proof.
  destruct d as [|kv d]; [reflexivity|].
  unfold Csv.field. now rewrite dumps_needs_quote.
Qed.

Lemma needs_quote_append (x y : string) :
  Csv.needs_quote (x ++ y) = Csv.needs_quote x || Csv.needs_quote y.
Proof.
  induction x as [|a x IH]; [reflexivity|].
  simpl. now rewrite IH, orb_assoc.
Qed.

Lemma uint_plain (d : Decimal.uint) :
  Csv.needs_quote (NilEmpty.string_of_uint d) = false.
Proof. induction d; simpl; auto. Qed.

Lemma dec_plain (n : N) : Csv.needs_quote (dec n) = false.
Proof.
  unfold dec, NilZero.string_of_uint.
  destruct (N.to_uint n) eqn:E; try reflexivity;
    rewrite <- E; apply uint_plain.
Qed.

Lemma zpad_plain (w : nat) (n : N) : Csv.needs_quote (zpad w n) = false.
Proof.
  unfold zpad. rewrite needs_quote_append, dec_plain, orb_false_r.
  induction (w - String.length (dec n)) as [|k IH]; [reflexivity | exact IH].
Qed.

Lemma isoformat_plain (t : datetime) : Csv.needs_quote (isoformat t) = false.
Proof.
  unfold isoformat.
  rewrite !needs_quote_append, !zpad_plain.
  destruct (microsecond t =? 0)%N; [reflexivity|].
  now rewrite needs_quote_append, zpad_plain.
Qed.

Lemma field_plain (s : string) : Csv.needs_quote s = false -> Csv.field s = s.
Proof. unfold Csv.field. now intros ->. Qed.

Lemma field_op (o : string) : is_op o -> Csv.field o = o.
Proof. intros [->|[->| ->]]; reflexivity. Qed.

Lemma concat_cons (x : string) (l : list string) :
  String.concat "" (x :: l) = x ++ String.concat "" l.
Proof. destruct l; simpl; [now rewrite append_nil_r | reflexivity]. Qed.

(** The rows written for the records of a list of entries. *)
Lemma writerows_csv_rows (ts : string) :
  Csv.needs_quote ts = false ->
  forall (hits : list RawRow) (out : list OutRow),
    map Some out = map (captured ts) hits ->
    Csv.writerows (map cells out) = String.concat "" (map (csv_row ts) hits).
Proof.
  intros Hts. induction hits as [|r hits IH]; intros [|o out] E;
    try discriminate E; [reflexivity|].
  cbn [map] in E. injection E as Eo E.
  cbn [map Csv.writerows]. rewrite concat_cons, (IH out E). f_equal.
  unfold captured in Eo. unfold csv_row.
  destruct (parse_test_decoding_row (data r)) as [parsed|] eqn:Hp;
    [|discriminate Eo].
  injection Eo as ->.
  destruct (parse_inv _ _ Hp) as (_ & _ & _ & _ & _ & _ & _ & _ & _ & _ & Hop).
  unfold Csv.writerow, Csv.record, cells.
  cbn [capture_ts out_lsn out_op columns map String.concat].
  rewrite (field_plain ts Hts), (field_op _ Hop), field_columns.
  assert (M : forall x y : string,
             match x with EmptyString => y | String _ _ => y end = y)
    by (intros [|] ?; reflexivity).
  rewrite M. now rewrite !append_assoc.
Qed.

(** X15: the object a cycle puts for a batch with entries of the target
    table is, byte for byte, the UTF-8 encoding of the header row followed by
    one row per entry of the target table, in the order of the batch: the
    reading of the clock taken by the filter, a comma, the log position as a
    CSV field, a comma, the keyword of the operation, a comma, and the cell
    of the columns, which is the JSON text of the decoded columns written
    bare when the entry has no column (the text is then the pair of braces)
    and otherwise between double quotes with every double quote of the JSON
    text doubled; each row ends with a line feed. *)
Theorem X15_rows_of_the_object (cfg : Config) (w : World)
  (rows : list RawRow) :
  let q := fetch_query (CDC_SLOT_NAME cfg) (CDC_BATCH_LIMIT cfg) in
  let hits := filter (is_target (PGSCHEMA cfg) TARGET_TABLE) rows in
  let ts := isoformat (clock w (ticks w)) in
  db_answer w q = Some rows ->
  hits <> [] ->
  exists call,
    puts (after (main cfg) w) = (puts w ++ [call])%list
    /\ put_data call
       = encode_utf8
           (header_line
            ++ String Py.LF (String.concat "" (map (csv_row ts) hits))).
Proof.
  intros q hits ts Hdb Hhits. unfold after.
  rewrite (main_run_hits cfg w rows Hdb Hhits). cbv zeta.
  cbn [snd puts]. eexists. split; [reflexivity|].
  unfold put_of. cbn [put_data]. rewrite to_csv_frame. do 3 f_equal.
  apply writerows_csv_rows; [apply isoformat_plain | apply collect_hits].
Qed.

Lemma X15_rows_of_the_object_witness :
  db_answer sample_world
    (fetch_query (CDC_SLOT_NAME default_config)
                 (CDC_BATCH_LIMIT default_config)) = Some sample_rows
  /\ filter (is_target (PGSCHEMA default_config) TARGET_TABLE) sample_rows
     <> []
  /\ exists call,
       puts (after (main default_config) sample_world) = [call]
       /\ put_data call
          = encode_utf8
              (header_line
               ++ String Py.LF
                    ("2024-01-31T23:59:59.250000,0/16B3748,INSERT,"
                     ++ columns_cell [("id", "1"); ("name", "Ana Silva")]
                     ++ String Py.LF "")).
Proof.
  assert (H1 : db_answer sample_world
                 (fetch_query (CDC_SLOT_NAME default_config)
                              (CDC_BATCH_LIMIT default_config))
               = Some sample_rows) by reflexivity.
  assert (H2 : filter (is_target (PGSCHEMA default_config) TARGET_TABLE)
                      sample_rows <> []) by (vm_compute; discriminate).
  split; [exact H1|]. split; [exact H2|].
  destruct (X15_rows_of_the_object default_config sample_world sample_rows
              H1 H2) as (call & E1 & E2).
  exists call. split; [exact E1|]. rewrite E2. vm_compute. reflexivity.
Defined.
